(** * A shallow embedding of the Nitrate client API (api.py)

    The development follows the layout of the Python module: the values
    exchanged with the XML-RPC server, the process-wide state (caching
    level, request counter, connection), the default getter and setter,
    the [Nitrate] and [Mutable] base classes, the classes [Product],
    [Build], [Category], [User] and [Version], the [Container] class
    with its subclasses, the utilities for printing and the classes of
    fixed values (types, priorities and statuses).  Every method is a
    state transformer on the instance and on the process-wide state;
    exceptions are results, and the state reached when an exception is
    raised is kept, as in Python. *)

From stdpp Require Import base option list strings gmap pretty.
From Stdlib Require Import ZArith Lia.

Set Warnings "-register-all".
Open Scope Z_scope.

(* ===================================================================== *)
(** * Values, exceptions and results *)
(* ===================================================================== *)

(** Values that travel over XML-RPC: None, booleans, integers, strings,
    arrays and structs (a struct is a Python dict; keys are unique). *)
Inductive value : Type :=
  | VNone
  | VBool (b : bool)
  | VInt (n : Z)
  | VStr (s : string)
  | VList (l : list value)
  | VStruct (kv : list (string * value)).

(** [class NitrateNone]: the marker for an attribute that has not been
    fetched yet, distinct from every value, [None] included. *)
Inductive lazy (A : Type) : Type :=
  | NitrateNone
  | Loaded (a : A).
Arguments NitrateNone {A}.
Arguments Loaded {A} a.

Definition is_NitrateNone {A} (x : lazy A) : bool :=
  match x with NitrateNone => true | Loaded _ => false end.

(** The exceptions the module raises or lets through. *)
Inductive exn : Type :=
  | NitrateError (msg : string)
  | Fault (code : Z) (msg : string)     (* xmlrpclib.Fault *)
  | ProtocolError (msg : string)        (* transport failure *)
  | KeyError (key : string)
  | IndexError
  | TypeError
  | ValueError
  | AttributeError (name : string)
  | RuntimeError.                       (* maximum recursion depth *)

(** [except LookupError] catches [KeyError] and [IndexError]. *)
Definition is_LookupError (e : exn) : bool :=
  match e with KeyError _ | IndexError => true | _ => false end.

Inductive result (A : Type) : Type :=
  | Ok (a : A)
  | Raise (e : exn).
Arguments Ok {A} a.
Arguments Raise {A} e.

Definition is_Ok {A} (r : result A) : bool :=
  match r with Ok _ => true | Raise _ => false end.

(* ===================================================================== *)
(** * The Python operations the module uses on values *)
(* ===================================================================== *)

(** [hash[key]] on a value the server returned: a struct is looked up,
    anything else cannot be indexed by a string. *)
Fixpoint assoc (kv : list (string * value)) (key : string) : option value :=
  match kv with
  | [] => None
  | (k, v) :: rest => if String.eqb k key then Some v else assoc rest key
  end.

Definition subscript (hash : value) (key : string) : result value :=
  match hash with
  | VStruct kv =>
      match assoc kv key with
      | Some v => Ok v
      | None => Raise (KeyError key)
      end
  | _ => Raise TypeError
  end.

(** [hash[0]] on the list a filter request returned. *)
Definition first (hash : value) : result value :=
  match hash with
  | VList (x :: _) => Ok x
  | VList [] => Raise IndexError
  | VStr (String c _) => Ok (VStr (String c EmptyString))
  | VStr EmptyString => Raise IndexError
  | VStruct _ => Raise (KeyError "0")
  | _ => Raise TypeError
  end.

(** Python truth value. *)
Definition truthy (v : value) : bool :=
  match v with
  | VNone => false
  | VBool b => b
  | VInt n => negb (n =? 0)
  | VStr s => negb (String.eqb s "")
  | VList l => match l with [] => false | _ => true end
  | VStruct kv => match kv with [] => false | _ => true end
  end.

(** Value equality [a == b]: numbers by their value ([True == 1]),
    strings and [None] by content, lists item by item, dicts key by
    key. *)
Fixpoint py_eq (a b : value) : bool :=
  match a, b with
  | VNone, VNone => true
  | VStr s, VStr t => String.eqb s t
  | VBool x, VBool y => Bool.eqb x y
  | VBool x, VInt n => (if x then 1 else 0) =? n
  | VInt n, VBool y => n =? (if y then 1 else 0)
  | VInt n, VInt m => n =? m
  | VList l, VList m =>
      (fix items (l m : list value) {struct l} : bool :=
         match l, m with
         | [], [] => true
         | x :: l', y :: m' => py_eq x y && items l' m'
         | _, _ => false
         end) l m
  | VStruct kv, VStruct kv' =>
      (length kv =? length kv')%nat &&
      (fix keys (kv : list (string * value)) {struct kv} : bool :=
         match kv with
         | [] => true
         | (k, v) :: rest =>
             match assoc kv' k with
             | Some v' => py_eq v v' && keys rest
             | None => false
             end
         end) kv
  | _, _ => false
  end.

(** The comparison [==] on the values of an attribute. *)
Class PyEq (A : Type) : Type := eq_values : A → A → bool.
#[global] Instance value_PyEq : PyEq value := py_eq.

(** What the interpreter provides: [int(s)] on a string, [None] for a
    [ValueError]. *)
Class Builtins : Type := { int_of_str : string → option Z }.

(** A dict key: [None], a number or a string (lists and dicts are not
    hashable). *)
Abbreviation key := (option (Z + string)).

Definition to_key (v : value) : result key :=
  match v with
  | VNone => Ok None
  | VBool b => Ok (Some (inl (if b then 1 else 0)))
  | VInt n => Ok (Some (inl n))
  | VStr s => Ok (Some (inr s))
  | VList _ | VStruct _ => Raise TypeError
  end.

(* ===================================================================== *)
(** * Process-wide state: caching level, request counter, server *)
(* ===================================================================== *)

Definition CACHE_NONE : Z := 0.
Definition CACHE_CHANGES : Z := 1.
Definition CACHE_OBJECTS : Z := 2.
Definition CACHE_ALL : Z := 3.

(** One XML-RPC request: [self._server.<method>(<args>)]. *)
Record call : Type := Call { method : string; args : list value }.

(** The module globals [_cache] and [Nitrate._requests], the requests
    sent so far (the server's view of this client), and the server: what
    it answers to a request, given the requests it has already seen. *)
Record world : Type := World {
  _cache : Z;
  _requests : nat;
  sent : list call;
  server : list call → call → result value
}.

Definition setCacheLevel (level : Z) (w : world) : result unit * world :=
  if bool_decide (0 ≤ level ∧ level ≤ 3)
  then (Ok (), World level (_requests w) (sent w) (server w))
  else (Raise (NitrateError "Invalid cache level"), w).

(** Python truth value of the integer [_cache]. *)
Definition caching (w : world) : bool := negb (_cache w =? 0).

(* ===================================================================== *)
(** * Methods as state transformers *)
(* ===================================================================== *)

(** A method of an instance of type [T]: from the instance and the
    process-wide state to a result and the updated instance and state. *)
Definition M (T A : Type) : Type := T → world → result A * T * world.

Definition ret {T A} (a : A) : M T A := λ self w, (Ok a, self, w).

Definition raise {T A} (e : exn) : M T A := λ self w, (Raise e, self, w).

Definition bind {T A B} (m : M T A) (k : A → M T B) : M T B :=
  λ self w,
    match m self w with
    | (Ok a, self', w') => k a self' w'
    | (Raise e, self', w') => (Raise e, self', w')
    end.

(** [try: m except <filter>: handler]. *)
Definition try_except {T A} (m : M T A) (filter : exn → bool)
    (handler : exn → M T A) : M T A :=
  λ self w,
    match m self w with
    | (Ok a, self', w') => (Ok a, self', w')
    | (Raise e, self', w') =>
        if filter e then handler e self' w' else (Raise e, self', w')
    end.

(** An operation on values, which leaves the state alone. *)
Definition of_result {T A} (r : result A) : M T A := λ self w, (r, self, w).

Definition get_self {T} : M T T := λ self w, (Ok self, self, w).
Definition set_self {T} (f : T → T) : M T unit := λ self w, (Ok (), f self, w).
Definition get_world {T} : M T world := λ self w, (Ok w, self, w).

#[global] Instance M_ret {T} : MRet (M T) := λ A, ret.
#[global] Instance M_bind {T} : MBind (M T) := λ A B k m, bind m k.

(** [self._server.<method>(<args>)]: the [_server] property counts the
    request, the request reaches the server, and the answer (or the
    fault) comes back. *)
Definition answer (c : call) (w : world) : result value :=
  server w (sent w) c.

Definition request (c : call) (w : world) : world :=
  World (_cache w) (S (_requests w)) (sent w ++ [c]) (server w).

Definition xmlrpc {T} (c : call) : M T value :=
  λ self w, (answer c w, self, request c w).

(** The requests of a run: what [w'] has sent beyond [w]. *)
Definition issued (w w' : world) : list call := drop (length (sent w)) (sent w').

(** The requests of a run that went to one server method. *)
Definition calls_of (m : string) (l : list call) : list call :=
  filter (λ c, method c = m) l.

(* ===================================================================== *)
(** * Nitrate class and the default getter *)
(* ===================================================================== *)

(** What a subclass of [Nitrate] provides: the attribute [_id] and the
    method [_get] that fetches the object data from the server. *)
Class Nitrate (T : Type) : Type := {
  the_id : T → lazy value;
  _get : M T unit
}.

(** [Nitrate._get] of the base class. *)
Definition Nitrate__get {T} : M T unit :=
  raise (NitrateError "To be implemented by respective class").

(** [Nitrate.__init__]: the value stored in [_id]. *)
Definition Nitrate___init__ `{Builtins} (id : value) : result (lazy value) :=
  match id with
  | VNone => Ok NitrateNone
  | VBool _ | VInt _ => Ok (Loaded id)
  | VStr s =>
      match int_of_str s with
      | Some n => Ok (Loaded (VInt n))
      | None => Raise (NitrateError "Invalid id")
      end
  | VList _ | VStruct _ => Raise TypeError
  end.

(** The attribute [_<field>] of an instance of [T], holding an [A]. *)
Record field (T A : Type) : Type := Field {
  fget : T → lazy A;
  fset : lazy A → T → T
}.
Arguments Field {T A} fget fset.
Arguments fget {T A} f self.
Arguments fset {T A} f x self.

(** [_getter(field)]: initialize the attribute unless already done,
    then return it. *)
Definition getter {T A} `{Nitrate T} (attribute : T → lazy A) : M T (lazy A) :=
  self ← get_self;
  (if is_NitrateNone (attribute self) then _get else ret ());;
  self ← get_self;
  ret (attribute self).

(** The [id] property of every class. *)
Definition id {T} `{Nitrate T} : M T (lazy value) := getter the_id.

(** [Nitrate.__eq__], [Nitrate.__ne__] and [Nitrate.__hash__].  The
    other operand is an instance of a class derived from [Nitrate], or
    anything else.  Both [id] properties are read, each on its own
    instance; the marker class equals itself only. *)
Inductive operand (U : Type) : Type :=
  | IsNitrate (other : U)
  | NotNitrate (v : value).
Arguments IsNitrate {U} other.
Arguments NotNitrate {U} v.

Definition same {A} `{PyEq A} (x y : lazy A) : bool :=
  match x, y with
  | NitrateNone, NitrateNone => true
  | Loaded a, Loaded b => eq_values a b
  | _, _ => false
  end.

Definition compare_ids {T U} `{Nitrate T} `{Nitrate U}
    (self : T) (other : U) (w : world) : result bool * T * U * world :=
  match id self w with
  | (Raise e, self', w') => (Raise e, self', other, w')
  | (Ok i, self', w') =>
      match id other w' with
      | (Raise e, other', w'') => (Raise e, self', other', w'')
      | (Ok j, other', w'') => (Ok (same i j), self', other', w'')
      end
  end.

Definition __eq__ {T U} `{Nitrate T} `{Nitrate U}
    (self : T) (other : operand U) (w : world)
    : result bool * T * operand U * world :=
  match other with
  | NotNitrate v => (Ok false, self, NotNitrate v, w)
  | IsNitrate other =>
      let '(r, self', other', w') := compare_ids self other w in
      (r, self', IsNitrate other', w')
  end.

Definition __ne__ {T U} `{Nitrate T} `{Nitrate U}
    (self : T) (other : operand U) (w : world)
    : result bool * T * operand U * world :=
  match other with
  | NotNitrate v => (Ok true, self, NotNitrate v, w)
  | IsNitrate other =>
      let '(r, self', other', w') := compare_ids self other w in
      (match r with Ok b => Ok (negb b) | Raise e => Raise e end,
       self', IsNitrate other', w')
  end.

Definition __hash__ {T} `{Nitrate T} : M T (lazy value) := id.

(* ===================================================================== *)
(** * Mutable class *)
(* ===================================================================== *)

(** What a subclass of [Mutable] provides: the attribute [_modified] and
    the method [_update] that saves the data to the server. *)
Class Mutable (T : Type) : Type := {
  modified : T → bool;
  set_modified : bool → T → T;
  _update : M T unit;
  modified_set : ∀ b self, modified (set_modified b self) = b
}.

(** [Mutable._update] of the base class. *)
Definition Mutable__update {T} : M T unit :=
  raise (NitrateError "Data update not implemented").

(** [Mutable.update]: update the data, if modified, to the server. *)
Definition update {T} `{Mutable T} : M T unit :=
  self ← get_self;
  if modified self then
    _update;;
    set_self (set_modified false)
  else ret ().

(** [Nitrate.__str__]: the text that the [__unicode__] of the class
    returns, in ascii.  The text is no part of the state; what
    [__unicode__] does to get it is. *)
Definition __str__ {T A} (__unicode__ : M T A) : M T unit :=
  __unicode__;; ret ().

(** [Mutable.__del__]: [self.update()] with every exception caught; the
    handler formats the instance for the log message, [str(self)],
    before it logs.  Both methods are looked up on the instance:
    [update] is [Mutable.update] unless the class overrides it, and
    [__unicode__] is the one of the class. *)
Definition __del__ {T A} (update : M T unit) (__unicode__ : M T A)
    : M T unit :=
  try_except update (λ _, true) (λ _, __str__ __unicode__).

(** What [_setter] asks of the values of a field: [stored != value],
    and the text of [value] for the log message.  A plain value (a
    string, a number, [None]) is compared by value and printed as it
    is.  For the instances of a class derived from [Nitrate], [!=] is
    [Nitrate.__ne__], which reads the [id] of both, and the text is
    [Nitrate.__str__]: both may fetch, and so change the instances. *)
Class PyValue (A : Type) : Type := {
  py_ne : A → A → world → result bool * A * A * world;
  py_format : M A unit
}.

#[global] Instance value_PyValue : PyValue value := {|
  py_ne stored value w := (Ok (negb (py_eq stored value)), stored, value, w);
  py_format := ret ()
|}.

(** [self != other] for two instances of a class. *)
Definition Nitrate_ne {T} `{Nitrate T} (self other : T) (w : world)
    : result bool * T * T * world :=
  let '(r, self', other', w') := __ne__ self (IsNitrate other) w in
  (r, self',
   match other' with IsNitrate other' => other' | NotNitrate _ => other end,
   w').

(** [getattr(self, "_" + field) != value] in the setter: the marker
    class differs from every value; a stored value is compared with
    [value], and both are as the comparison leaves them. *)
Definition differs {T A} `{PyValue A} (f : field T A) (value : A)
    : M T (bool * A) :=
  λ self w,
    match fget f self with
    | NitrateNone => (Ok (true, value), self, w)
    | Loaded stored =>
        let '(r, stored', value', w') := py_ne stored value w in
        (match r with Ok b => Ok (b, value') | Raise e => Raise e end,
         fset f (Loaded stored') self, w')
    end.

(** [setattr(self, "_" + field, value)] and then the log message
    ["Updating {0}'s {1} to '{2}'".format(self.identifier, field, value)],
    which formats [value], the instance that the attribute holds by
    now. *)
Definition store {T A} `{PyValue A} (f : field T A) (value : A) : M T unit :=
  λ self w,
    let '(r, value', w') := py_format value w in
    (r, fset f (Loaded value') self, w').

(** [_setter(field)]: initialize the attribute unless already done,
    update only if changed, then remember the modified state if caching
    and save the changes immediately otherwise. *)
Definition setter {T A} `{Nitrate T} `{Mutable T} `{PyValue A}
    (f : field T A) (value : A) : M T unit :=
  self ← get_self;
  (if is_NitrateNone (fget f self) then _get else ret ());;
  changed ← differs f value;
  match changed with
  | (true, value) =>
      store f value;;
      w ← get_world;
      if caching w then set_self (set_modified true)
      else _update
  | (false, _) => ret ()
  end.

(* ===================================================================== *)
(** * Product and Build classes *)
(* ===================================================================== *)

(** A product holds its default version and a version holds its
    product. *)
Inductive Product_t : Type :=
  | Product_make (_id : lazy value) (_prefix : string)
      (_name : lazy value) (_version : lazy Version_t)
with Version_t : Type :=
  | Version_make (_id : lazy value) (_prefix : string)
      (_name : lazy value) (_product : lazy Product_t).

Module Product.

Definition t : Type := Product_t.

Definition _id (self : t) : lazy value :=
  match self with Product_make i _ _ _ => i end.
Definition _prefix (self : t) : string :=
  match self with Product_make _ p _ _ => p end.
Definition _name (self : t) : lazy value :=
  match self with Product_make _ _ n _ => n end.
Definition _version (self : t) : lazy Version_t :=
  match self with Product_make _ _ _ v => v end.

Definition set__id (x : lazy value) (self : t) : t :=
  Product_make x (_prefix self) (_name self) (_version self).
Definition set__name (x : lazy value) (self : t) : t :=
  Product_make (_id self) (_prefix self) x (_version self).
Definition set__version (x : lazy Version_t) (self : t) : t :=
  Product_make (_id self) (_prefix self) (_name self) x.

(** [Product.__init__(id, name)], without the optional version: the
    default version stays at the marker class. *)
Definition __init__ `{Builtins} (id name : value) : result t :=
  match id, name with
  | VNone, VNone => Raise (NitrateError "Need id or name to initialize Product")
  | VNone, _ => Ok (Product_make NitrateNone "ID" (Loaded name) NitrateNone)
  | _, _ =>
      match Nitrate___init__ id with
      | Ok i => Ok (Product_make i "ID" NitrateNone NitrateNone)
      | Raise e => Raise e
      end
  end.

Definition filter (query : string) (v : value) : call :=
  Call "Product.filter" [VStruct [(query, v)]].

(** [Product._get]: search by id, or by name.  An instance with
    neither would call itself without end. *)
Definition __get : M t unit :=
  self ← get_self;
  match _id self with
  | Loaded i =>
      try_except
        (reply ← xmlrpc (filter "id" i);
         hash ← (of_result (first reply));
         name ← (of_result (subscript hash "name"));
         set_self (set__name (Loaded name)))
        (λ e, match e with IndexError => true | _ => false end)
        (λ _, raise (NitrateError "Cannot find product"))
  | NitrateNone =>
      match _name self with
      | NitrateNone => raise RuntimeError
      | Loaded n =>
          try_except
            (reply ← xmlrpc (filter "name" n);
             hash ← (of_result (first reply));
             i ← (of_result (subscript hash "id"));
             set_self (set__id (Loaded i)))
            (λ e, match e with IndexError => true | _ => false end)
            (λ _, raise (NitrateError "Cannot find product"))
      end
  end.

#[global] Instance nitrate : Nitrate t := {| the_id := _id; _get := __get |}.

(** The properties [name] and [version]. *)
Definition name : M t (lazy value) := getter _name.
Definition version : M t (lazy Version_t) := getter _version.

End Product.

Module Build.

Record t : Type := Make {
  _id : lazy value;
  _prefix : string;
  _name : lazy value;
  _product : lazy Product.t
}.

Definition set__id (x : lazy value) (self : t) : t :=
  Make x (_prefix self) (_name self) (_product self).
Definition set__name (x : lazy value) (self : t) : t :=
  Make (_id self) (_prefix self) x (_product self).
Definition set__product (x : lazy Product.t) (self : t) : t :=
  Make (_id self) (_prefix self) (_name self) x.

(** The [product] argument: nothing, a [Product], or a name or an id. *)
Inductive product_argument : Type :=
  | NoProduct
  | AProduct (p : Product.t)
  | Named (v : value).

(** The product of the object: the instance given, [Product(name=...)]
    for a string and [Product(id=...)] otherwise. *)
Definition Product_of `{Builtins} (product : product_argument)
    : result Product.t :=
  match product with
  | AProduct p => Ok p
  | Named (VStr s) => Product.__init__ VNone (VStr s)
  | Named v => Product.__init__ v VNone
  | NoProduct => Product.__init__ VNone VNone
  end.

(** [Build.__init__(id, product, build)]. *)
Definition __init__ `{Builtins} (id : value) (product : product_argument)
    (build : value) : result t :=
  match id with
  | VNone =>
      match build, product with
      | VNone, _ | _, NoProduct | _, Named VNone =>
          Raise (NitrateError
            "Need either build id or both product and build name to initialize the Build object.")
      | _, _ =>
          match Product_of product with
          | Ok p => Ok (Make NitrateNone "ID" (Loaded build) (Loaded p))
          | Raise e => Raise e
          end
      end
  | _ =>
      match Nitrate___init__ id with
      | Ok i => Ok (Make i "ID" NitrateNone NitrateNone)
      | Raise e => Raise e
      end
  end.

(** A method of the product, called on [self.product]. *)
Definition on_product {A} (m : M Product.t A) : M t A :=
  λ self w,
    match _product self with
    | Loaded p =>
        let '(r, p', w') := m p w in (r, set__product (Loaded p') self, w')
    | NitrateNone => (Raise RuntimeError, self, w)
    end.

(** [self.product.name] and [self.product.id], as read for the log
    message and for the request. *)
Definition product_name : M t (lazy value) := on_product Product.name.
Definition product_id : M t (lazy value) := on_product id.

(** [Build._get]: search by id, or by product and name. *)
Definition __get `{Builtins} : M t unit :=
  self ← get_self;
  match _id self with
  | Loaded i =>
      try_except
        (hash ← xmlrpc (Call "Build.get" [i]);
         name ← (of_result (subscript hash "name"));
         set_self (set__name (Loaded name));;
         product_id ← (of_result (subscript hash "product_id"));
         match Product.__init__ product_id VNone with
         | Ok p => set_self (set__product (Loaded p))
         | Raise e => raise e
         end)
        is_LookupError
        (λ _, raise (NitrateError "Cannot find build"))
  | NitrateNone =>
      match _name self with
      | NitrateNone => raise RuntimeError
      | Loaded n =>
          try_except
            (product_name;;
             p ← product_id;
             hash ← match p with
                    | Loaded p => xmlrpc (Call "Build.check_build" [n; p])
                    | NitrateNone => raise TypeError
                    end;
             product_name;;
             i ← (of_result (subscript hash "build_id"));
             set_self (set__id (Loaded i)))
            is_LookupError
            (λ _, product_name;;
                  raise (NitrateError "Build not found"))
      end
  end.

#[global] Instance nitrate `{Builtins} : Nitrate t :=
  {| the_id := _id; _get := __get |}.

(** The properties [name] and [product]. *)
Definition name `{Builtins} : M t (lazy value) := getter _name.
Definition product `{Builtins} : M t (lazy Product.t) := getter _product.

(** [Build.__unicode__]: the build name for printing. *)
Definition __unicode__ `{Builtins} : M t (lazy value) := name.

(** A build as the value of an attribute. *)
#[global] Instance py_value `{Builtins} : PyValue t := {|
  py_ne := Nitrate_ne;
  py_format := __str__ __unicode__
|}.

End Build.

(* ===================================================================== *)
(** * Category class: instances shared through a class-level cache *)
(* ===================================================================== *)

(** [__new__] hands out references, and the cache keeps references, so
    the instances live in a heap: a reference is a position in it.  A
    method of the instance runs on the instance at that position. *)
Definition at_ {O A} (self : nat) (m : M O A) : M (list O) A :=
  λ heap w,
    match heap !! self with
    | Some o => let '(r, o', w') := m o w in (r, <[self := o']> heap, w')
    | None => (Raise RuntimeError, heap, w)
    end.

(** An attribute of the instance; an [AttributeError] when the instance
    does not have it. *)
Definition attribute {O A} (name : string) (read : O → option A) : M O A :=
  self ← get_self;
  match read self with
  | Some x => ret x
  | None => raise (AttributeError name)
  end.

Module Category.

(** An instance fresh from [Nitrate.__new__] has no attribute yet;
    [None] for an attribute says that the instance does not have it. *)
Record object : Type := Object {
  _id : option (lazy value);
  _prefix : option string;
  _name : option (lazy value);
  _product : option (lazy Product.t)
}.

Definition blank : object := Object None None None None.

Definition set__id (x : lazy value) (o : object) : object :=
  Object (Some x) (_prefix o) (_name o) (_product o).
Definition set__prefix (x : string) (o : object) : object :=
  Object (_id o) (Some x) (_name o) (_product o).
Definition set__name (x : lazy value) (o : object) : object :=
  Object (_id o) (_prefix o) (Some x) (_product o).
Definition set__product (x : lazy Product.t) (o : object) : object :=
  Object (_id o) (_prefix o) (_name o) (Some x).

(** A method of the product, called on [self.product]. *)
Definition on_product {A} (m : M Product.t A) : M object A :=
  λ self w,
    match _product self with
    | Some (Loaded p) =>
        let '(r, p', w') := m p w in (r, set__product (Loaded p') self, w')
    | Some NitrateNone => (Raise RuntimeError, self, w)
    | None => (Raise (AttributeError "_product"), self, w)
    end.

(** [Category._get]: search by id, or by product and name. *)
Definition __get `{Builtins} : M object unit :=
  i ← attribute "_id" _id;
  match i with
  | Loaded i =>
      try_except
        (hash ← xmlrpc (Call "Product.get_category" [i]);
         name ← of_result (subscript hash "name");
         set_self (set__name (Loaded name));;
         product_id ← of_result (subscript hash "product_id");
         p ← of_result (Product.__init__ product_id VNone);
         set_self (set__product (Loaded p)))
        is_LookupError
        (λ _, raise (NitrateError "Cannot find category"))
  | NitrateNone =>
      n ← attribute "_name" _name;
      match n with
      | NitrateNone => raise RuntimeError
      | Loaded n =>
          try_except
            (on_product Product.name;;
             p ← on_product id;
             hash ← match p with
                    | Loaded p => xmlrpc (Call "Product.check_category" [n; p])
                    | NitrateNone => raise TypeError
                    end;
             on_product Product.name;;
             i ← of_result (subscript hash "id");
             set_self (set__id (Loaded i)))
            is_LookupError
            (λ _, on_product Product.name;;
                  raise (NitrateError "Category not found"))
      end
  end.

(** The attribute [_id] as the [id] property finds it; without the
    attribute, [_get] raises the [AttributeError]. *)
Definition the__id (self : object) : lazy value :=
  match _id self with Some i => i | None => NitrateNone end.

#[global] Instance nitrate `{Builtins} : Nitrate object :=
  {| the_id := the__id; _get := __get |}.

(** The property [name]. *)
Definition name `{Builtins} : M object (lazy value) :=
  attribute "_name" _name;;
  getter (λ self, match _name self with Some n => n | None => NitrateNone end).

(** The heap of [Category] instances and the class attribute
    [Category._categories]. *)
Record t : Type := Make {
  heap : list object;
  _categories : gmap key nat
}.

Definition empty : t := Make [] ∅.

(** A method of the instance [self]. *)
Definition on {A} (self : nat) (m : M object A) : M t A :=
  λ st w,
    let '(r, heap', w') := at_ self m (heap st) w in
    (r, Make heap' (_categories st), w').

(** [Nitrate.__new__(cls)]. *)
Definition new : M t nat :=
  λ st w, (Ok (length (heap st)), Make (heap st ++ [blank]) (_categories st), w).

Definition cache (k : key) (self : nat) : M t unit :=
  set_self (λ st, Make (heap st) (<[k := self]> (_categories st))).

(** [Category.__new__(cls, id, product, category)]. *)
Definition __new__ (id : value) : M t nat :=
  w ← get_world;
  match id with
  | VNone => new
  | _ =>
      if bool_decide (CACHE_OBJECTS ≤ _cache w) then
        k ← of_result (to_key id);
        st ← get_self;
        match _categories st !! k with
        | Some cached => ret cached
        | None => self ← new; cache k self;; ret self
        end
      else new
  end.

(** [getattr(self, "_id", None) is not None]. *)
Definition initialized (self : object) : bool :=
  match _id self with
  | None | Some (Loaded VNone) => false
  | Some _ => true
  end.

(** [Category.__init__(self, id, product, category)]. *)
Definition __init__ `{Builtins} (id : value)
    (product : Build.product_argument) (category : value) : M object unit :=
  self ← get_self;
  if initialized self then ret ()
  else
    (match id with
     | VNone =>
         match category, product with
         | VNone, _ | _, Build.NoProduct | _, Build.Named VNone =>
             raise (NitrateError
               "Need either category id or both product and category name to initialize the Category object.")
         | _, _ =>
             p ← of_result (Build.Product_of product);
             set_self (set__product (Loaded p));;
             set_self (set__name (Loaded category))
         end
     | _ =>
         set_self (λ o, Object (_id o) (_prefix o)
                          (Some NitrateNone) (Some NitrateNone))
     end);;
    set_self (set__prefix "ID");;
    i ← of_result (Nitrate___init__ id);
    set_self (set__id i).

(** [Category(id, product, category)]: [__new__], then [__init__] on
    what it returned. *)
Definition Category `{Builtins} (id : value)
    (product : Build.product_argument) (category : value) : M t nat :=
  self ← __new__ id;
  on self (__init__ id product category);;
  ret self.

(** Every cached reference is a position of the heap. *)
Definition wf (st : t) : Prop :=
  ∀ k a, _categories st !! k = Some a → (a < length (heap st))%nat.

(** An instance initialized by id only: the data still to be fetched. *)
Definition identity_only (i : lazy value) : object :=
  Object (Some i) (Some "ID") (Some NitrateNone) (Some NitrateNone).

End Category.

(* ===================================================================== *)
(** * User class: the cache, and all users fetched at once *)
(* ===================================================================== *)

Module User.

Record object : Type := Object {
  _id : option (lazy value);
  _prefix : option string;
  _login : option (lazy value);
  _email : option (lazy value);
  _name : option (lazy value)
}.

Definition blank : object := Object None None None None None.

Definition set__id (x : lazy value) (o : object) : object :=
  Object (Some x) (_prefix o) (_login o) (_email o) (_name o).
Definition set__prefix (x : string) (o : object) : object :=
  Object (_id o) (Some x) (_login o) (_email o) (_name o).
Definition set__login (x : lazy value) (o : object) : object :=
  Object (_id o) (_prefix o) (Some x) (_email o) (_name o).
Definition set__email (x : lazy value) (o : object) : object :=
  Object (_id o) (_prefix o) (_login o) (Some x) (_name o).
Definition set__name (x : lazy value) (o : object) : object :=
  Object (_id o) (_prefix o) (_login o) (_email o) (Some x).

(** ['@' in id]. *)
Fixpoint has_at (s : string) : bool :=
  match s with
  | EmptyString => false
  | String c rest => Ascii.eqb c (Ascii.ascii_of_nat 64) || has_at rest
  end.

(** [User._parse(id, login, email)]: login and email are detected if
    passed as the first parameter. *)
Definition _parse (id login email : value) : value * value * value :=
  match id with
  | VStr s => if has_at s then (VNone, login, id) else (VNone, id, email)
  | _ => (id, login, email)
  end.

(** [first + " " + last] on truthy values. *)
Definition full_name (first last : value) : result value :=
  match first, last with
  | VStr f, VStr l => Ok (VStr (f +:+ " " +:+ l))
  | _, _ => Raise TypeError
  end.

(** The second half of [User._get]: the values of the hash are saved. *)
Definition save (hash : value) : M object unit :=
  let item key : M object value := of_result (subscript hash key) in
  item "id";;
  i ← item "id";
  set_self (set__id (Loaded i));;
  username ← item "username";
  set_self (set__login (Loaded username));;
  email ← item "email";
  set_self (set__email (Loaded email));;
  first_name ← item "first_name";
  both ← (if truthy first_name then last ← item "last_name"; ret (truthy last)
          else ret false);
  if (both : bool) then
    first_name ← item "first_name";
    last_name ← item "last_name";
    name ← of_result (full_name first_name last_name);
    set_self (set__name (Loaded name))
  else
    set_self (set__name (Loaded VNone)).

Definition filter (query : list (string * value)) : call :=
  Call "User.filter" [VStruct query].

Definition not_found (e : exn) : bool :=
  match e with IndexError => true | _ => false end.

(** [User._get(self, hash=None)]: the hash is fetched by id, by login,
    by email or for the current user, unless it is given. *)
Definition __get (hash : option value) : M object unit :=
  hash ←
    match hash with
    | Some hash => ret hash
    | None =>
        i ← attribute "_id" _id;
        match i with
        | Loaded i =>
            try_except
              (reply ← xmlrpc (filter [("id", i)]); of_result (first reply))
              not_found (λ _, raise (NitrateError "Cannot find user"))
        | NitrateNone =>
            login ← attribute "_login" _login;
            match login with
            | Loaded login =>
                try_except
                  (reply ← xmlrpc (filter [("username", login)]);
                   of_result (first reply))
                  not_found
                  (λ _, raise (NitrateError "No user found for login"))
            | NitrateNone =>
                email ← attribute "_email" _email;
                match email with
                | Loaded (VStr email) =>
                    try_except
                      (reply ← xmlrpc (filter [("email", VStr email)]);
                       of_result (first reply))
                      not_found
                      (λ _, raise (NitrateError "No user found for email"))
                | Loaded _ => raise TypeError
                | NitrateNone => xmlrpc (Call "User.get_me" [])
                end
            end
        end
    end;
  save hash.

(** [getattr(self, "_id", None) is not None]. *)
Definition initialized (self : object) : bool :=
  match _id self with
  | None | Some (Loaded VNone) => false
  | Some _ => true
  end.

(** [User.__init__(self, id, login, email, hash)]. *)
Definition __init__ `{Builtins} (id login email : value)
    (hash : option value) : M object unit :=
  self ← get_self;
  if initialized self then ret ()
  else
    set_self (λ o, Object (_id o) (_prefix o) (Some NitrateNone)
                     (Some NitrateNone) (Some NitrateNone));;
    let '(id, login, email) := _parse id login email in
    set_self (set__prefix "UID");;
    i ← of_result (Nitrate___init__ id);
    set_self (set__id i);;
    match hash, login, email with
    | Some hash, _, _ => __get (Some hash)
    | None, VNone, VNone => ret ()
    | None, VNone, _ => set_self (set__email (Loaded email))
    | None, _, _ => set_self (set__login (Loaded login))
    end.

(** The [id] property. *)
Definition id : M object (lazy value) :=
  i ← attribute "_id" _id;
  (if is_NitrateNone i then __get None else ret ());;
  attribute "_id" _id.

(** The heap of [User] instances and the class attribute
    [User._users]. *)
Record t : Type := Make {
  heap : list object;
  _users : gmap key nat
}.

Definition empty : t := Make [] ∅.

Definition on {A} (self : nat) (m : M object A) : M t A :=
  λ st w,
    let '(r, heap', w') := at_ self m (heap st) w in
    (r, Make heap' (_users st), w').

Definition new : M t nat :=
  λ st w, (Ok (length (heap st)), Make (heap st ++ [blank]) (_users st), w).

Definition cache (k : key) (self : nat) : M t unit :=
  set_self (λ st, Make (heap st) (<[k := self]> (_users st))).

(** What [for hash in ...] runs over. *)
Definition iterate (reply : value) : result (list value) :=
  match reply with
  | VList l => Ok l
  | VStruct kv => Ok (VStr <$> kv.*1)
  | VStr s => Ok ((λ c, VStr (String c EmptyString)) <$> String.list_ascii_of_string s)
  | _ => Raise TypeError
  end.

(** An item of the reply as the argument [hash]: [None] is no hash. *)
Definition as_hash (item : value) : option value :=
  match item with
  | VNone => None
  | _ => Some item
  end.

Section construction.
Context `{Builtins}.

(** [User(...)] as [__new__] calls it in its loop. *)
Variable User : value → value → value → option value → M t nat.

(** The loop [for hash in ...: user = User(hash=hash);
    User._users[user.id] = user].  The loop variable is the parameter
    [hash] of [__new__]: the result is what [hash] is bound to when the
    loop is over. *)
Fixpoint fetch_all (hashes : list value) (hash : option value)
    : M t (option value) :=
  match hashes with
  | [] => ret hash
  | next :: rest =>
      user ← User VNone VNone VNone (as_hash next);
      i ← on user id;
      k ← of_result (match i with
                     | Loaded i => to_key i
                     | NitrateNone => Raise TypeError
                     end);
      cache k user;;
      fetch_all rest (as_hash next)
  end.

(** [User.__new__(cls, id, login, email, hash)]. *)
Definition __new__ (id login email : value) (hash : option value)
    : M t nat :=
  let '(id, login, email) := _parse id login email in
  w ← get_world;
  st ← get_self;
  hash ←
    (if bool_decide (hash = None) && (_cache w =? CACHE_ALL)
        && bool_decide (_users st = ∅)
     then
       reply ← xmlrpc (filter []);
       hashes ← of_result (iterate reply);
       fetch_all hashes hash
     else ret hash);
  match hash, id with
  | None, (VBool _ | VInt _ | VStr _ | VList _ | VStruct _) =>
      if bool_decide (CACHE_OBJECTS ≤ _cache w) then
        k ← of_result (to_key id);
        st ← get_self;
        match _users st !! k with
        | Some cached => ret cached
        | None => self ← new; cache k self;; ret self
        end
      else new
  | _, _ => new
  end.

(** [User(id, login, email, hash)]: [__new__], then [__init__] on the
    instance that it returns. *)
Definition construct (id login email : value) (hash : option value)
    : M t nat :=
  self ← __new__ id login email hash;
  on self (__init__ id login email hash);;
  ret self.

End construction.

(** A construction runs itself when the reply has an item [None]:
    [User(hash=None)] goes through the loop of [__new__] again while
    the cache is empty.  The interpreter ends a recursion that is too
    deep with a [RuntimeError]; [depth] is the number of nested
    constructions that it still allows. *)
Fixpoint User_within `{Builtins} (depth : nat) (id login email : value)
    (hash : option value) : M t nat :=
  match depth with
  | O => raise RuntimeError
  | S depth => construct (User_within depth) id login email hash
  end.

(** The depth that the interpreter allows: [sys.getrecursionlimit()]
    frames, 1000 unless changed.  It is counted in constructions here;
    a construction takes a frame at least, so that the interpreter
    raises no later than this. *)
Definition recursion_limit : nat := 1000.

(** [User(id, login, email, hash)]. *)
Definition User `{Builtins} (id login email : value) (hash : option value)
    : M t nat :=
  construct (User_within recursion_limit) id login email hash.

(** [User(hash=hash)] for a hash: [__new__] leaves the cache alone and
    returns a new instance, which [__init__] fills from the hash. *)
Definition from_hash `{Builtins} (hash : value) : M t nat :=
  self ← new;
  on self (__init__ VNone VNone VNone (Some hash));;
  ret self.

(** An instance whose data have been saved from a hash. *)
Definition materialized (o : object) : bool :=
  match _id o, _login o, _email o, _name o with
  | Some (Loaded _), Some (Loaded _), Some (Loaded _), Some (Loaded _) => true
  | _, _, _, _ => false
  end.

(** An instance initialized by id only. *)
Definition identity_only (i : lazy value) : object :=
  Object (Some i) (Some "UID") (Some NitrateNone) (Some NitrateNone)
    (Some NitrateNone).

End User.

(* ===================================================================== *)
(** * Mutable objects with read-write properties *)
(* ===================================================================== *)

(** An instance of a subclass of [Mutable] that declares properties
    with [property(_getter(field), _setter(field))], as [TestPlan],
    [TestRun], [TestCase] and [CaseRun] do.  [__init__] sets every
    [_<field>] to the marker class; [attributes] holds the ones that have
    a value since, under the name of their field. *)
Module Entity.

Record t : Type := Make {
  _id : lazy value;
  _prefix : string;
  _modified : bool;
  attributes : gmap string value
}.

Definition set__modified (b : bool) (self : t) : t :=
  Make (_id self) (_prefix self) b (attributes self).

(** [getattr(self, "_" + field)] and [setattr(self, "_" + field, x)]. *)
Definition getattr (name : string) (self : t) : lazy value :=
  match attributes self !! name with
  | Some v => Loaded v
  | None => NitrateNone
  end.

Definition setattr (name : string) (x : lazy value) (self : t) : t :=
  Make (_id self) (_prefix self) (_modified self)
    (match x with
     | Loaded v => <[name := v]> (attributes self)
     | NitrateNone => delete name (attributes self)
     end).

Definition attribute (name : string) : field t value :=
  Field (getattr name) (setattr name).

(** [Mutable.__init__], after which the subclass sets its attributes to
    the marker class. *)
Definition __init__ `{Builtins} (id : value) (prefix : string) : result t :=
  match Nitrate___init__ id with
  | Ok i => Ok (Make i prefix false ∅)
  | Raise e => Raise e
  end.

(** The class: the two methods the subclass implements. *)
Section class.
Variables get update : M t unit.

Definition nitrate : Nitrate t := {| the_id := _id; _get := get |}.

Definition mutable : Mutable t := {|
  modified := _modified;
  set_modified := set__modified;
  _update := update;
  modified_set := λ _ _, eq_refl
|}.

(** The property [property(_getter(field), _setter(field))]. *)
Definition read (name : string) : M t (lazy value) :=
  getter (H := nitrate) (getattr name).

Definition write (name : string) (value : value) : M t unit :=
  setter (H := nitrate) (H0 := mutable) (attribute name) value.

End class.

End Entity.

(** An instance with the read-write property [build], which [TestRun]
    and [CaseRun] declare with
    [property(_getter("build"), _setter("build"))]: the attribute
    [_build] holds a [Build].  The other attributes are those of
    [Entity]. *)
Module Run.

Record t : Type := Make {
  entity : Entity.t;
  _build : lazy Build.t
}.

Definition _id (self : t) : lazy value := Entity._id (entity self).
Definition _modified (self : t) : bool := Entity._modified (entity self).

Definition set__modified (b : bool) (self : t) : t :=
  Make (Entity.set__modified b (entity self)) (_build self).
Definition set__build (x : lazy Build.t) (self : t) : t :=
  Make (entity self) x.

Definition build_field : field t Build.t := Field _build set__build.

(** The class: the two methods the subclass implements. *)
Section class.
Context `{Builtins}.
Variables get update : M t unit.

Definition nitrate : Nitrate t := {| the_id := _id; _get := get |}.

Definition mutable : Mutable t := {|
  modified := _modified;
  set_modified := set__modified;
  _update := update;
  modified_set := λ _ _, eq_refl
|}.

(** The property [build]. *)
Definition build : M t (lazy Build.t) :=
  getter (H := nitrate) _build.

Definition set_build (value : Build.t) : M t unit :=
  setter (H := nitrate) (H0 := mutable) build_field value.

End class.

End Run.

(* ===================================================================== *)
(** * Container class *)
(* ===================================================================== *)

Module Container.

(** The argument of [add] and [remove]: a list of items or one item. *)
Inductive items (A : Type) : Type :=
  | Items (l : list A)
  | Item (a : A).
Arguments Items {A} l.
Arguments Item {A} a.

Section container.
Context {A : Type} `{Countable A}.

(** The instance: the id of the related object (read from the object
    when the container is built), the modified flag of [Mutable], and
    the two sets. *)
Record t : Type := Make {
  _id : Z;
  _modified : bool;
  _current : lazy (gset A);
  _original : lazy (gset A)
}.

Definition set__modified (b : bool) (self : t) : t :=
  Make (_id self) b (_current self) (_original self).
Definition set__current (s : lazy (gset A)) (self : t) : t :=
  Make (_id self) (_modified self) s (_original self).
Definition set__original (s : lazy (gset A)) (self : t) : t :=
  Make (_id self) (_modified self) (_current self) s.

(** [Container.__init__]. *)
Definition __init__ (object_id : Z) : t :=
  Make object_id false NitrateNone NitrateNone.

(** What the respective class implements. *)
Class Hooks : Type := {
  _get : M t unit;
  _add : gset A → M t unit;
  _remove : gset A → M t unit
}.

(** The methods of the base class. *)
Definition base : Hooks := {|
  _get := raise (NitrateError "To be implemented by respective class");
  _add := λ _, raise (NitrateError "To be implemented by respective class.");
  _remove := λ _, raise (NitrateError "To be implemented by respective class.")
|}.

Context {hooks : Hooks}.

(** The [_items] property. *)
Definition _items : M t (lazy (gset A)) :=
  self ← get_self;
  (if is_NitrateNone (_current self) then _get else ret ());;
  self ← get_self;
  ret (_current self).

(** A set operation on what [_items] returned: on the marker class the
    operation is a [TypeError]. *)
Definition as_set (x : lazy (gset A)) : M t (gset A) :=
  match x with
  | Loaded s => ret s
  | NitrateNone => raise TypeError
  end.

(** [set(items)] or [set([items])]. *)
Definition to_set (x : items A) : gset A :=
  match x with
  | Items l => list_to_set l
  | Item a => {[ a ]}
  end.

(** [Container._update]: added items, removed items, then the current
    state saved as the original. *)
Definition __update : M t unit :=
  self ← get_self;
  current ← as_set (_current self);
  original ← as_set (_original self);
  let added := current ∖ original in
  (if decide (added = ∅) then ret () else _add added);;
  let removed := original ∖ current in
  (if decide (removed = ∅) then ret () else _remove removed);;
  self ← get_self;
  set_self (set__original (_current self)).

(** [Container.add]. *)
Definition add (x : items A) : M t unit :=
  let items := to_set x in
  current ← (c ← _items; as_set c);
  if decide (items ∖ current = ∅) then ret ()
  else
    current ← (c ← _items; as_set c);
    set_self (set__current (Loaded (current ∪ items)));;
    w ← get_world;
    if caching w then set_self (set__modified true)
    else __update.

(** [Container.remove]. *)
Definition remove (x : items A) : M t unit :=
  let items := to_set x in
  current ← (c ← _items; as_set c);
  if decide (items ∩ current = ∅) then ret ()
  else
    current ← (c ← _items; as_set c);
    set_self (set__current (Loaded (current ∖ items)));;
    w ← get_world;
    if caching w then set_self (set__modified true)
    else __update.

(** [__contains__] and [__len__]. *)
Definition __contains__ (item : A) : M t bool :=
  current ← (c ← _items; as_set c);
  ret (bool_decide (item ∈ current)).

Definition __len__ : M t nat :=
  current ← (c ← _items; as_set c);
  ret (size current).

(** [Container] is a [Mutable]. *)
#[global] Instance mutable : Mutable t := {|
  modified := _modified;
  set_modified := set__modified;
  _update := __update;
  modified_set := λ _ _, eq_refl
|}.

End container.
Arguments t A {_ _}.
Arguments Hooks A {_ _}.

(** ** The tag containers [PlanTags], [RunTags] and [CaseTags]

    The three classes differ in the server namespace only:
    [TestPlan], [TestRun] and [TestCase]. *)
Section tags.
Variable namespace : string.

Definition get_tags (id : Z) : call :=
  Call (namespace +:+ ".get_tags") [VInt id].
Definition add_tag (id : Z) (tags : gset string) : call :=
  Call (namespace +:+ ".add_tag") [VInt id; VList (VStr <$> elements tags)].
Definition remove_tag (id : Z) (tags : gset string) : call :=
  Call (namespace +:+ ".remove_tag") [VInt id; VList (VStr <$> elements tags)].

(** [set([tag["name"] for tag in hash])].  The names are strings, as
    the server sends them; a name of another type is outside the sets
    of strings of this model and is refused here. *)
Fixpoint tag_names (tags : list value) : result (gset string) :=
  match tags with
  | [] => Ok ∅
  | tag :: rest =>
      match subscript tag "name" with
      | Ok (VStr name) =>
          match tag_names rest with
          | Ok s => Ok ({[ name ]} ∪ s)
          | Raise e => Raise e
          end
      | Ok _ => Raise TypeError
      | Raise e => Raise e
      end
  end.

(** The loop runs over a list; an empty dict or string gives no item,
    and an item of any other iterable has no ["name"]. *)
Definition names_of (hash : value) : result (gset string) :=
  match hash with
  | VList tags => tag_names tags
  | VStruct [] | VStr EmptyString => Ok ∅
  | _ => Raise TypeError
  end.

Definition Tags__get : M (t string) unit :=
  self ← get_self;
  hash ← xmlrpc (get_tags (_id self));
  match names_of hash with
  | Ok names =>
      set_self (set__current (Loaded names));;
      set_self (set__original (Loaded names))
  | Raise e => raise e
  end.

Definition Tags__add (tags : gset string) : M (t string) unit :=
  self ← get_self;
  xmlrpc (add_tag (_id self) tags);;
  ret ().

Definition Tags__remove (tags : gset string) : M (t string) unit :=
  self ← get_self;
  xmlrpc (remove_tag (_id self) tags);;
  ret ().

Definition Tags : Hooks string := {|
  _get := Tags__get;
  _add := Tags__add;
  _remove := Tags__remove
|}.

End tags.

Definition PlanTags : Hooks string := Tags "TestPlan".
Definition RunTags : Hooks string := Tags "TestRun".
Definition CaseTags : Hooks string := Tags "TestCase".

End Container.

(* ===================================================================== *)
(** * Scenarios of the specification *)
(* ===================================================================== *)

(** The tag container of an object once [_get] has fetched the tags. *)
Definition loaded (id : Z) (tags : gset string) : Container.t string :=
  Container.Make id false (Loaded tags) (Loaded tags).

(** [remove(b); add(c); remove(a); add(b); update()] on a tag
    container. *)
Definition reconcile (namespace a b c : string) : M (Container.t string) unit :=
  let tags := Container.Tags namespace in
  Container.remove (hooks := tags) (Container.Item b);;
  Container.add (hooks := tags) (Container.Item c);;
  Container.remove (hooks := tags) (Container.Item a);;
  Container.add (hooks := tags) (Container.Item b);;
  update (H := Container.mutable (hooks := tags)).

(** Set reconciliation as the specification words it: one add request
    with the members b and c, one remove request with the member a. *)
Definition reconcile_as_stated (namespace a b c : string) (id : Z) (w : world)
    : Prop :=
  let '(_, _, w') := reconcile namespace a b c (loaded id {[a; b]}) w in
  calls_of (namespace +:+ ".add_tag") (issued w w')
    = [Container.add_tag namespace id {[b; c]}] ∧
  calls_of (namespace +:+ ".remove_tag") (issued w w')
    = [Container.remove_tag namespace id {[a]}].


(** [update()] twice in a row, whatever the first call did. *)
Definition update_twice {T} `{Mutable T} (self : T) (w : world)
    : result unit * T * world :=
  let '(_, self1, w1) := update self w in update self1 w1.

(** Idempotent flush as the specification words it, on a tag container
    with tags to add: at most one add request in two flushes. *)
Definition flush_twice_as_stated (namespace : string)
    (self : Container.t string) (w : world) : Prop :=
  let '(_, _, w') :=
    update_twice (H := Container.mutable (hooks := Container.Tags namespace))
      self w in
  (length (calls_of (namespace +:+ ".add_tag") (issued w w')) ≤ 1)%nat.

(** Lazy loading as the specification words it: the first read of an
    attribute is one fetch, the read of another attribute after it is
    none. *)
Definition fetched_once {T A B} `{Nitrate T}
    (first_read : T → lazy A) (second_read : T → lazy B)
    (self : T) (w : world) : Prop :=
  let '(_, self1, w1) := getter first_read self w in
  let '(_, _, w2) := getter second_read self1 w1 in
  length (issued w w1) = 1%nat ∧ issued w1 w2 = [].

(** The first reference to a class fetches all its objects with one
    request. *)
Definition fetches_all {T A} (first_reference : M T A) (empty : T) (w : world)
    : Prop :=
  let '(_, _, w') := first_reference empty w in
  length (issued w w') = 1%nat.

(** ** Servers and instances for the examples *)

(** [int(s)] for the strings of the examples: decimal digits. *)
Fixpoint digits (s : string) (n : Z) : option Z :=
  match s with
  | EmptyString => Some n
  | String c rest =>
      let d := Z.of_nat (Ascii.nat_of_ascii c) - 48 in
      if bool_decide (0 ≤ d ≤ 9) then digits rest (10 * n + d) else None
  end.

Definition example_builtins : Builtins :=
  {| int_of_str := λ s, match s with
                        | EmptyString => None
                        | _ => digits s 0
                        end |}.

(** A server that accepts every request. *)
Definition accepting : list call → call → result value := λ _ _, Ok VNone.

(** A server out of reach. *)
Definition unreachable : list call → call → result value :=
  λ _ _, Raise (ProtocolError "connection refused").

(** A server that refuses to add tags and to remove tags. *)
Definition refusing : list call → call → result value :=
  λ _ c, Raise (Fault 1 "permission denied").

(** A server that adds tags and refuses to remove any. *)
Definition adding_only : list call → call → result value :=
  λ _ c, if String.eqb (method c) "TestPlan.add_tag" then Ok VNone
         else Raise (Fault 1 "permission denied").

Definition user_hash (i : Z) (login : string) : value :=
  VStruct [("id", VInt i); ("username", VStr login);
           ("email", VStr (login +:+ "@example.com"));
           ("first_name", VStr "First"); ("last_name", VStr "Last")].

(** A server with one build, one category, one product and two users. *)
Definition database : list call → call → result value :=
  λ _ c,
    if String.eqb (method c) "Build.get" then
      Ok (VStruct [("build_id", VInt 5); ("name", VStr "rc1");
                   ("product_id", VInt 9)])
    else if String.eqb (method c) "Product.get_category" then
      Ok (VStruct [("id", VInt 1); ("name", VStr "Sanity");
                   ("product_id", VInt 9)])
    else if String.eqb (method c) "Product.filter" then
      Ok (VList [VStruct [("id", VInt 9); ("name", VStr "Nitrate")]])
    else if String.eqb (method c) "User.filter" then
      Ok (VList [user_hash 5 "ann"; user_hash 6 "bob"])
    else Raise (Fault 1 "unknown method").

(** The process right after start, at a caching level. *)
Definition start (level : Z) (server : list call → call → result value)
    : world :=
  World level 0 [] server.

(** A container with the tag c to add and the tag a to remove. *)
Definition pending : Container.t string :=
  Container.Make 7 true (Loaded {["b"; "c"]}) (Loaded {["a"; "b"]}).

(** An instance of the base class, with notes. *)
Definition noted : Entity.t :=
  Entity.Make (Loaded (VInt 5)) "CR" false {["notes" := VStr "old"]}.

(** ** The cache of users after the fetch *)

(** What the cache holds after the fetch: instances with their data,
    under the key of their id. *)
Definition fetched (st : User.t) : Prop :=
  ∀ k a, User._users st !! k = Some a →
    ∃ o v, User.heap st !! a = Some o ∧ User.materialized o = true ∧
           User._id o = Some (Loaded v) ∧ to_key v = Ok k.

(** The instance that [User(hash=hash)] makes of a hash. *)
Definition made_from `{Builtins} (hash : value) (o : User.object) : Prop :=
  ∀ w, User.__init__ VNone VNone VNone (Some hash) User.blank w = (Ok (), o, w).

(** What the cache holds after the fetch of [hashes]: under every key,
    the instance made from a hash of the list, whose id gives the
    key. *)
Definition fetched_from `{Builtins} (hashes : list value) (st : User.t)
    : Prop :=
  ∀ k a, User._users st !! k = Some a →
    ∃ o hash v, User.heap st !! a = Some o ∧ hash ∈ hashes ∧
                made_from hash o ∧ User.materialized o = true ∧
                subscript hash "id" = Ok v ∧
                User._id o = Some (Loaded v) ∧ to_key v = Ok k.

(** A server whose list of users has an item [None]. *)
Definition with_None : list call → call → result value :=
  λ _ c,
    if String.eqb (method c) "User.filter" then
      Ok (VList [user_hash 5 "ann"; VNone])
    else if String.eqb (method c) "User.get_me" then Ok (user_hash 6 "bob")
    else Raise (Fault 1 "unknown method").


(* ===================================================================== *)
(** * Utilities: coloring and lists for printing *)
(* ===================================================================== *)

(** Operations on values that return or raise, in sequence. *)
#[global] Instance result_ret : MRet result := λ A, Ok.
#[global] Instance result_bind : MBind result :=
  λ A B k r, match r with Ok a => k a | Raise e => Raise e end.

(** [isinstance(x, int)]: the integers, and the booleans, which are
    integers. *)
Definition as_int (x : value) : option Z :=
  match x with
  | VBool b => Some (if b then 1 else 0)
  | VInt n => Some n
  | _ => None
  end.

(** [names.index(x)]: the position of the first name equal to [x], a
    [ValueError] when there is none. *)
Fixpoint index (names : list string) (x : value) : result Z :=
  match names with
  | [] => Raise ValueError
  | name :: rest =>
      if py_eq (VStr name) x then Ok 0
      else i ← index rest x; Ok (i + 1)
  end.

(** [items[i]]: a negative index counts from the end. *)
Definition item {A} (items : list A) (i : value) : result A :=
  match as_int i with
  | Some i =>
      let i := if bool_decide (i < 0) then i + Z.of_nat (length items) else i in
      if bool_decide (0 ≤ i) then
        match items !! Z.to_nat i with
        | Some x => Ok x
        | None => Raise IndexError
        end
      else Raise IndexError
  | None => Raise TypeError
  end.

(** [s[n:]] and [s[0:n]]. *)
Fixpoint from (n : nat) (s : string) : string :=
  match n, s with
  | O, _ => s
  | S n, String _ rest => from n rest
  | S _, EmptyString => EmptyString
  end.

Fixpoint upto (n : nat) (s : string) : string :=
  match n, s with
  | S n, String c rest => String c (upto n rest)
  | _, _ => EmptyString
  end.

(** The dict [colors] of [color]. *)
Definition colors : list (string * Z) :=
  [("black", 30); ("red", 31); ("green", 32); ("yellow", 33);
   ("blue", 34); ("magenta", 35); ("cyan", 36); ("white", 37)].

Fixpoint color_code (table : list (string * Z)) (name : string) : result Z :=
  match table with
  | [] => Raise (KeyError name)
  | (k, code) :: rest =>
      if String.eqb k name then Ok code else color_code rest name
  end.

(** The escape character, [\033]. *)
Definition ESC : string := String (Ascii.ascii_of_nat 27) EmptyString.

(** [color(text, color, background, light)]: the text in the desired
    color if coloring is enabled, which the module global [_color]
    says.  The colors are looked up before [_color] is read. *)
Definition color (_color : bool) (text : string)
    (color background : option string) (light : bool) : result string :=
  let '(light, color) :=
    match color with
    | Some c =>
        if negb (String.eqb c "") && String.prefix "light" c
        then (true, Some (from 5 c))
        else (light, color)
    | None => (light, color)
    end in
  color ← match color with
          | Some (String _ _ as c) =>
              code ← color_code colors c; Ok (";" +:+ pretty code)
          | _ => Ok ""
          end;
  background ← match background with
               | Some (String _ _ as c) =>
                   code ← color_code colors c; Ok (";" +:+ pretty (code + 10))
               | _ => Ok ""
               end;
  let light := if light then 1 else 0 in
  let start := ESC +:+ "[" +:+ pretty light +:+ color +:+ background +:+ "m" in
  let finish := ESC +:+ "[1;m" in
  if _color then Ok (String.concat "" [start; text; finish])
  else Ok text.

(** [listed(items, quote)]: a human readable list, "a, b and c". *)
Definition listed (items : list string) (quote : string) : string :=
  let items := (λ item, quote +:+ item +:+ quote) <$> items in
  if bool_decide (length items < 2)%nat then String.concat "" items
  else
    String.concat ", "
      (take (length items - 2) items
       ++ [String.concat " and " (drop (length items - 2) items)]).

(* ===================================================================== *)
(** * The classes of fixed values: types, priorities and statuses *)
(* ===================================================================== *)

(** Each class keeps the names in a list and the position of a name is
    its id; the instance holds the id it was given, or the position of
    the name it was given. *)

Module PlanType.

Definition _plantypes : list string :=
  ["Null"; "Unit"; "Integration"; "Function"; "System";
   "Acceptance"; "Installation"; "Performance"; "Product";
   "Interoperability"; "Smoke"; "Regression"; "NotExist"; "i18n/l10n";
   "Load"; "Sanity"; "Functionality"; "Stress"; "Stability";
   "Density"; "Benchmark"; "testtest"; "test11"; "Place Holder";
   "Recovery"; "Component"; "General"; "Release"].

Record t : Type := Make { _id : value }.

Definition __init__ (plantype : value) : result t :=
  match as_int plantype with
  | Some n =>
      if bool_decide (n < 1 ∨ n > 28 ∨ n = 12)
      then Raise (NitrateError "Not a valid Test Plan Type id")
      else Ok (Make plantype)
  | None =>
      match index _plantypes plantype with
      | Ok i => Ok (Make (VInt i))
      | Raise ValueError => Raise (NitrateError "Invalid Test Plan type")
      | Raise e => Raise e
      end
  end.

Definition id (self : t) : value := _id self.

Definition name (self : t) : result string := item _plantypes (_id self).

End PlanType.

Module Priority.

Definition _priorities : list string := ["P0"; "P1"; "P2"; "P3"; "P4"; "P5"].

Record t : Type := Make { _id : value }.

Definition __init__ (priority : value) : result t :=
  match as_int priority with
  | Some n =>
      if bool_decide (n < 1 ∨ n > 5)
      then Raise (NitrateError "Not a valid Priority id")
      else Ok (Make priority)
  | None =>
      match index _priorities priority with
      | Ok i => Ok (Make (VInt i))
      | Raise ValueError => Raise (NitrateError "Invalid priority")
      | Raise e => Raise e
      end
  end.

Definition id (self : t) : value := _id self.

Definition name (self : t) : result string := item _priorities (_id self).

End Priority.

Module PlanStatus.

Definition _statuses : list string := ["DISABLED"; "ENABLED"].
Definition _colors : list (option string) := [Some "red"; Some "green"].

Record t : Type := Make { _id : value }.

Definition __init__ (status : value) : result t :=
  match as_int status with
  | Some n =>
      if bool_decide (n = 0 ∨ n = 1) then Ok (Make status)
      else Raise (NitrateError "Not a valid plan status id")
  | None =>
      match index _statuses status with
      | Ok i => Ok (Make (VInt i))
      | Raise ValueError => Raise (NitrateError "Invalid plan status")
      | Raise e => Raise e
      end
  end.

(** [__nonzero__]: [self._id != 0]. *)
Definition __nonzero__ (self : t) : bool := negb (py_eq (_id self) (VInt 0)).

Definition id (self : t) : value := _id self.

Definition name (_color : bool) (self : t) : result string :=
  text ← item _statuses (id self);
  c ← item _colors (id self);
  color _color text c None false.

End PlanStatus.

Module RunStatus.

Definition _statuses : list string := ["RUNNING"; "FINISHED"].

Record t : Type := Make { _id : value }.

(** The characters of [[-0-9: ]]. *)
Definition date_char (c : Ascii.ascii) : bool :=
  let n := Ascii.nat_of_ascii c in
  bool_decide (n = 45 ∨ 48 ≤ n ≤ 57 ∨ n = 58 ∨ n = 32)%nat.

(** [re.match("^[-0-9: ]+$", status)]: characters of the class, at
    least one, up to the end of the string, or up to the newline that
    ends it. *)
Fixpoint date_tail (s : string) : bool :=
  match s with
  | EmptyString => true
  | String c rest =>
      if date_char c then date_tail rest
      else bool_decide (Ascii.nat_of_ascii c = 10%nat) && String.eqb rest ""
  end.

Definition stop_date (s : string) : bool :=
  match s with
  | EmptyString => false
  | String c rest => date_char c && date_tail rest
  end.

Definition __init__ (status : value) : result t :=
  match as_int status with
  | Some n =>
      if bool_decide (n = 0 ∨ n = 1) then Ok (Make status)
      else Raise (NitrateError "Not a valid run status id")
  | None =>
      match status with
      | VNone => Ok (Make (VInt 0))
      | VStr s =>
          if String.eqb s "RUNNING" || String.eqb s "None" then Ok (Make (VInt 0))
          else if String.eqb s "FINISHED" || stop_date s then Ok (Make (VInt 1))
          else Raise (NitrateError "Invalid run status")
      | _ => Raise TypeError
      end
  end.

Definition id (self : t) : value := _id self.

Definition name (self : t) : result string := item _statuses (_id self).

End RunStatus.

Module CaseStatus.

Definition _casestatuses : list string :=
  ["PAD"; "PROPOSED"; "CONFIRMED"; "DISABLED"; "NEED_UPDATE"].

Record t : Type := Make { _id : value }.

Definition __init__ (casestatus : value) : result t :=
  match as_int casestatus with
  | Some n =>
      if bool_decide (n < 1 ∨ n > 4)
      then Raise (NitrateError "Not a valid casestatus id")
      else Ok (Make casestatus)
  | None =>
      match index _casestatuses casestatus with
      | Ok i => Ok (Make (VInt i))
      | Raise ValueError => Raise (NitrateError "Invalid casestatus")
      | Raise e => Raise e
      end
  end.

Definition id (self : t) : value := _id self.

Definition name (self : t) : result string := item _casestatuses (_id self).

End CaseStatus.

Module Status.

Definition _statuses : list string :=
  ["PAD"; "IDLE"; "PASSED"; "FAILED"; "RUNNING"; "PAUSED";
   "BLOCKED"; "ERROR"; "WAIVED"].

Definition _colors : list (option string) :=
  [None; Some "blue"; Some "lightgreen"; Some "lightred"; Some "green";
   Some "yellow"; Some "red"; Some "magenta"; Some "lightcyan"].

Record t : Type := Make { _id : value }.

Definition __init__ (status : value) : result t :=
  match as_int status with
  | Some n =>
      if bool_decide (n < 1 ∨ n > 8)
      then Raise (NitrateError "Not a valid Status id")
      else Ok (Make status)
  | None =>
      match index _statuses status with
      | Ok i => Ok (Make (VInt i))
      | Raise ValueError => Raise (NitrateError "Invalid status")
      | Raise e => Raise e
      end
  end.

Definition id (self : t) : value := _id self.

(** The status name, plain without coloring. *)
Definition _name (self : t) : result string := item _statuses (id self).

Definition name (_color : bool) (self : t) : result string :=
  text ← _name self;
  c ← item _colors (id self);
  color _color text c None false.

(** The short status string of the same width, 4 characters. *)
Definition shortname (_color : bool) (self : t) : result string :=
  text ← _name self;
  c ← item _colors (id self);
  color _color (upto 4 text) c None false.

End Status.

(* ===================================================================== *)
(** * Version class *)
(* ===================================================================== *)

Module Version.

Definition t : Type := Version_t.

Definition _id (self : t) : lazy value :=
  match self with Version_make i _ _ _ => i end.
Definition _prefix (self : t) : string :=
  match self with Version_make _ p _ _ => p end.
Definition _name (self : t) : lazy value :=
  match self with Version_make _ _ n _ => n end.
Definition _product (self : t) : lazy Product.t :=
  match self with Version_make _ _ _ p => p end.

Definition set__id (x : lazy value) (self : t) : t :=
  Version_make x (_prefix self) (_name self) (_product self).
Definition set__name (x : lazy value) (self : t) : t :=
  Version_make (_id self) (_prefix self) x (_product self).
Definition set__product (x : lazy Product.t) (self : t) : t :=
  Version_make (_id self) (_prefix self) (_name self) x.

(** [Version.__init__(id, product, version)]. *)
Definition __init__ `{Builtins} (id : value)
    (product : Build.product_argument) (version : value) : result t :=
  match id with
  | VNone =>
      match version, product with
      | VNone, _ | _, Build.NoProduct | _, Build.Named VNone =>
          Raise (NitrateError
            "Need either version id or both product and version name to initialize the Version object.")
      | _, _ =>
          p ← Build.Product_of product;
          Ok (Version_make NitrateNone "ID" (Loaded version) (Loaded p))
      end
  | _ =>
      i ← Nitrate___init__ id;
      Ok (Version_make i "ID" NitrateNone NitrateNone)
  end.

(** A method of the product, called on [self.product]. *)
Definition on_product {A} (m : M Product.t A) : M t A :=
  λ self w,
    match _product self with
    | Loaded p =>
        let '(r, p', w') := m p w in (r, set__product (Loaded p') self, w')
    | NitrateNone => (Raise RuntimeError, self, w)
    end.

Definition filter_versions (query : list (string * value)) : call :=
  Call "Product.filter_versions" [VStruct query].

(** [Version._get]: search by id, or by product and name.  Only an
    [IndexError] becomes a [NitrateError]. *)
Definition __get `{Builtins} : M t unit :=
  self ← get_self;
  match _id self with
  | Loaded i =>
      try_except
        (hash ← xmlrpc (filter_versions [("id", i)]);
         found ← of_result (first hash);
         name ← of_result (subscript found "value");
         set_self (set__name (Loaded name));;
         found ← of_result (first hash);
         product_id ← of_result (subscript found "product_id");
         p ← of_result (Product.__init__ product_id VNone);
         set_self (set__product (Loaded p)))
        (λ e, match e with IndexError => true | _ => false end)
        (λ _, raise (NitrateError "Cannot find version"))
  | NitrateNone =>
      match _name self with
      | NitrateNone => raise RuntimeError
      | Loaded n =>
          try_except
            (on_product Product.name;;
             p ← on_product id;
             hash ← match p with
                    | Loaded p =>
                        xmlrpc (filter_versions [("product", p); ("value", n)])
                    | NitrateNone => raise TypeError
                    end;
             on_product Product.name;;
             found ← of_result (first hash);
             i ← of_result (subscript found "id");
             set_self (set__id (Loaded i)))
            (λ e, match e with IndexError => true | _ => false end)
            (λ _, raise (NitrateError "Cannot find version"))
      end
  end.

#[global] Instance nitrate `{Builtins} : Nitrate t :=
  {| the_id := _id; _get := __get |}.

(** The properties [name] and [product]. *)
Definition name `{Builtins} : M t (lazy value) := getter _name.
Definition product `{Builtins} : M t (lazy Product.t) := getter _product.

End Version.

(* ===================================================================== *)
(** * TestPlans and TestCases classes *)
(* ===================================================================== *)

(** [for item in items: body]. *)
Fixpoint for_each {T A} (items : list A) (body : A → M T unit) : M T unit :=
  match items with
  | [] => ret ()
  | item :: rest => body item;; for_each rest body
  end.

(** The test plans linked to a test case.  A plan is hashed and compared
    by its id, and the container asks a plan for its id only: the set
    holds the ids.  [_get] makes a [TestPlan] of every hash that the
    server returns; it is a parameter here. *)
Module TestPlans.

Definition link_plan (case : Z) (plans : gset Z) : call :=
  Call "TestCase.link_plan" [VInt case; VList (VInt <$> elements plans)].
Definition unlink_plan (case plan : Z) : call :=
  Call "TestCase.unlink_plan" [VInt case; VInt plan].

Definition __add (plans : gset Z) : M (Container.t Z) unit :=
  self ← get_self;
  xmlrpc (link_plan (Container._id self) plans);;
  ret ().

Definition __remove (plans : gset Z) : M (Container.t Z) unit :=
  for_each (elements plans) (λ plan,
    self ← get_self;
    xmlrpc (unlink_plan (Container._id self) plan);;
    ret ()).

Definition hooks (_get : M (Container.t Z) unit) : Container.Hooks Z := {|
  Container._get := _get;
  Container._add := __add;
  Container._remove := __remove
|}.

End TestPlans.

(** The test cases linked to a test plan, kept by their ids as well. *)
Module TestCases.

Definition link_plan (cases : gset Z) (plan : Z) : call :=
  Call "TestCase.link_plan" [VList (VInt <$> elements cases); VInt plan].
Definition unlink_plan (case plan : Z) : call :=
  Call "TestCase.unlink_plan" [VInt case; VInt plan].

Definition __add (cases : gset Z) : M (Container.t Z) unit :=
  self ← get_self;
  xmlrpc (link_plan cases (Container._id self));;
  ret ().

Definition __remove (cases : gset Z) : M (Container.t Z) unit :=
  for_each (elements cases) (λ case,
    self ← get_self;
    xmlrpc (unlink_plan case (Container._id self));;
    ret ()).

Definition hooks (_get : M (Container.t Z) unit) : Container.Hooks Z := {|
  Container._get := _get;
  Container._add := __add;
  Container._remove := __remove
|}.

End TestCases.

(** ** The cache of users: every reference is an instance *)

(** Every cached reference is a position of the heap. *)
Definition User_wf (st : User.t) : Prop :=
  ∀ k a, User._users st !! k = Some a → (a < length (User.heap st))%nat.

(* ===================================================================== *)
(** * Proofs *)
(* ===================================================================== *)

Set Warnings "-clear-no-such-hyp".

Arguments answer : simpl never.
Arguments request : simpl never.
Arguments issued : simpl never.
Arguments Container.add_tag : simpl never.
Arguments Container.remove_tag : simpl never.
Arguments Container.get_tags : simpl never.

(** Unfolding of the combinators of [M]. *)
Ltac unfold_M :=
  unfold mbind, mret, M_bind, M_ret, bind, ret, raise, of_result, get_self,
    set_self, get_world, try_except, xmlrpc in *.

(** Case analysis on what the server answers. *)
Ltac case_answer :=
  match goal with
  | |- context [answer ?c ?w] => destruct (answer c w) eqn:?
  end.

(** ** Requests of a run *)

Section requests.
Implicit Types (w : world) (c d : call).

Lemma issued_refl w : issued w w = [].
Proof. unfold issued. by rewrite drop_all. Qed.

Lemma issued_sent w w' l : sent w' = sent w ++ l → issued w w' = l.
Proof. unfold issued. intros ->. by rewrite drop_app_length. Qed.

Lemma issued_request c w : issued w (request c w) = [c].
Proof. by apply issued_sent. Qed.

Lemma issued_request2 c d w : issued w (request d (request c w)) = [c; d].
Proof. apply issued_sent. simpl. by rewrite <- app_assoc. Qed.

End requests.

(** ** Mutable.update *)

Section mutable.
Context {T : Type} `{Mutable T}.
Implicit Types (self : T) (w : world).

Lemma update_unmodified self w :
  modified self = false → update self w = (Ok (), self, w).
Proof. intros Hm. unfold update. unfold_M. by rewrite Hm. Qed.

Lemma update_modified self w :
  modified self = true →
  update self w =
    match _update self w with
    | (Ok _, self', w') => (Ok (), set_modified false self', w')
    | (Raise e, self', w') => (Raise e, self', w')
    end.
Proof.
  intros Hm. unfold update. unfold_M. rewrite Hm.
  by destruct (_update self w) as [[[] ?] ?].
Qed.

(** C8, amended.  [update] runs [_update] only when the instance is
    modified, exactly once, and clears the flag when [_update] has
    returned; a flush that returned leaves nothing to do: the next flush
    changes neither the instance nor the process state and sends no
    request.  An instance that is not modified is flushed without any
    effect.  (A flush that raised leaves the flag set: the next one runs
    [_update] again.) *)
Theorem update_idempotent self w :
  let '(r, self1, w1) := update self w in
  (modified self = false → (r, self1, w1) = (Ok (), self, w)) ∧
  (modified self = true →
     (r, self1, w1) =
       match _update self w with
       | (Ok _, self', w') => (Ok (), set_modified false self', w')
       | (Raise e, self', w') => (Raise e, self', w')
       end) ∧
  (is_Ok r → modified self1 = false ∧ update self1 w1 = (Ok (), self1, w1)).
Proof.
  destruct (modified self) eqn:Hm.
  - rewrite (update_modified _ _ Hm).
    destruct (_update self w) as [[[[]|e] self'] w'];
      (split; [done|]); (split; [done|]); [|done].
    intros _. split; [apply modified_set|apply update_unmodified, modified_set].
  - rewrite (update_unmodified _ _ Hm).
    split; [done|]. split; [done|].
    intros _. split; [done|by apply update_unmodified].
Qed.

End mutable.

(** ** Mutable.__del__ *)

Section destruction.
Context {T A : Type}.
Variables (update : M T unit) (__unicode__ : M T A).
Implicit Types (self : T) (w : world).

(** When the update attempt returns, so does [__del__], and nothing
    is formatted. *)
Lemma del_update_returned self w self1 w1 :
  update self w = (Ok (), self1, w1) →
  __del__ update __unicode__ self w = (Ok (), self1, w1).
Proof. intros Hupdate. unfold __del__, try_except. by rewrite Hupdate. Qed.

(** C9, on the code.  Whatever the update attempt raises is caught; the
    handler then formats the instance for the log message, through the
    [__unicode__] of its class, and nothing catches what that raises:
    [__del__] returns normally when [__unicode__] returns, and raises
    what [__unicode__] raises otherwise, in the state that
    [__unicode__] has left. *)
Theorem del_raises_from_handler self w e self1 w1 :
  update self w = (Raise e, self1, w1) →
  __del__ update __unicode__ self w =
    match __unicode__ self1 w1 with
    | (Ok _, self2, w2) => (Ok (), self2, w2)
    | (Raise e', self2, w2) => (Raise e', self2, w2)
    end.
Proof.
  intros Hupdate. unfold __del__, try_except, __str__. rewrite Hupdate.
  unfold_M. by destruct (__unicode__ self1 w1) as [[[] ?] ?].
Qed.

End destruction.

(** ** Container: add and remove while caching *)

Section container.
Context {A : Type} `{Countable A} {hooks : Container.Hooks A}.
Implicit Types (self : Container.t A) (w : world) (current : gset A).

Lemma items_loaded self w current :
  Container._current self = Loaded current →
  (c ← Container._items; Container.as_set c) self w = (Ok current, self, w).
Proof.
  intros Hc. unfold Container._items, Container.as_set. unfold_M.
  by rewrite Hc; simpl; rewrite Hc.
Qed.

Lemma add_buffered x self w current :
  Container._current self = Loaded current → caching w = true →
  Container.add x self w =
    (Ok (),
     if decide (Container.to_set x ∖ current = ∅) then self
     else Container.set__modified true
            (Container.set__current (Loaded (current ∪ Container.to_set x)) self),
     w).
Proof.
  intros Hc Hw. unfold Container.add.
  unfold mbind at 1, M_bind at 1, bind at 1. rewrite (items_loaded _ _ _ Hc).
  destruct (decide _) as [|_]; [done|].
  unfold mbind at 1, M_bind at 1, bind at 1. rewrite (items_loaded _ _ _ Hc).
  unfold_M. by rewrite Hw.
Qed.

Lemma remove_buffered x self w current :
  Container._current self = Loaded current → caching w = true →
  Container.remove x self w =
    (Ok (),
     if decide (Container.to_set x ∩ current = ∅) then self
     else Container.set__modified true
            (Container.set__current (Loaded (current ∖ Container.to_set x)) self),
     w).
Proof.
  intros Hc Hw. unfold Container.remove.
  unfold mbind at 1, M_bind at 1, bind at 1. rewrite (items_loaded _ _ _ Hc).
  destruct (decide _) as [|_]; [done|].
  unfold mbind at 1, M_bind at 1, bind at 1. rewrite (items_loaded _ _ _ Hc).
  unfold_M. by rewrite Hw.
Qed.

(** P6 of the specification, while caching: an item just added is in the
    container, an item just removed is not. *)
Lemma contains_after_add (x : A) self w current :
  Container._current self = Loaded current → caching w = true →
  let '(_, self', w') := Container.add (Container.Item x) self w in
  Container.__contains__ x self' w' = (Ok true, self', w').
Proof.
  intros Hc Hw. rewrite (add_buffered _ _ _ _ Hc Hw). simpl.
  unfold Container.__contains__. unfold mbind at 1, M_bind at 1, bind at 1.
  destruct (decide _) as [He|_].
  - rewrite (items_loaded _ _ current) by done. unfold_M.
    rewrite bool_decide_eq_true_2; [done|set_solver].
  - erewrite items_loaded by done. unfold_M.
    rewrite bool_decide_eq_true_2; [done|set_solver].
Qed.

Lemma contains_after_remove (x : A) self w current :
  Container._current self = Loaded current → caching w = true →
  let '(_, self', w') := Container.remove (Container.Item x) self w in
  Container.__contains__ x self' w' = (Ok false, self', w').
Proof.
  intros Hc Hw. rewrite (remove_buffered _ _ _ _ Hc Hw). simpl.
  unfold Container.__contains__. unfold mbind at 1, M_bind at 1, bind at 1.
  destruct (decide _) as [He|_].
  - rewrite (items_loaded _ _ current) by done. unfold_M.
    rewrite bool_decide_eq_false_2; [done|set_solver].
  - erewrite items_loaded by done. unfold_M.
    rewrite bool_decide_eq_false_2; [done|set_solver].
Qed.

End container.

(** ** Container: the flush of a tag container *)

Section tags.
Variable namespace : string.
Abbreviation tags := (Container.Tags namespace).
Abbreviation add_tag := (Container.add_tag namespace).
Abbreviation remove_tag := (Container.remove_tag namespace).
Implicit Types (self : Container.t string) (w : world).
Implicit Types (current original : gset string).

(** What [_update] does, request by request. *)
Lemma Tags_update self w current original :
  Container._current self = Loaded current →
  Container._original self = Loaded original →
  Container.__update (hooks := tags) self w =
    let adding := add_tag (Container._id self) (current ∖ original) in
    let removing := remove_tag (Container._id self) (original ∖ current) in
    let saved := Container.set__original (Loaded current) self in
    let finish w1 :=
      if decide (original ∖ current = ∅) then (Ok (), saved, w1)
      else match answer removing w1 with
           | Ok _ => (Ok (), saved, request removing w1)
           | Raise e => (Raise e, self, request removing w1)
           end in
    if decide (current ∖ original = ∅) then finish w
    else match answer adding w with
         | Ok _ => finish (request adding w)
         | Raise e => (Raise e, self, request adding w)
         end.
Proof.
  intros Hc Ho. unfold Container.__update, Container.as_set. simpl.
  unfold Container.Tags__add, Container.Tags__remove. unfold_M.
  rewrite Hc, Ho. simpl.
  destruct (decide (current ∖ original = ∅)) as [Ha|Ha]; simpl.
  - destruct (decide (original ∖ current = ∅)) as [Hr|Hr]; simpl.
    + by rewrite Hc.
    + case_answer; simpl; [by rewrite Hc|done].
  - case_answer; simpl; [|done].
    destruct (decide (original ∖ current = ∅)) as [Hr|Hr]; simpl.
    + by rewrite Hc.
    + case_answer; simpl; [by rewrite Hc|done].
Qed.


(** C3.  A flush in which the add request returns and the remove
    request raises: the error reaches the caller, the container is as it
    was (original keeps its value, the modified flag is still set), and
    the next flush sends the same add request again, followed (once it
    returns) by the same remove request. *)
Theorem partial_flush_retries self w current original e :
  Container._modified self = true →
  Container._current self = Loaded current →
  Container._original self = Loaded original →
  current ∖ original ≠ ∅ →
  original ∖ current ≠ ∅ →
  let adding := add_tag (Container._id self) (current ∖ original) in
  let removing := remove_tag (Container._id self) (original ∖ current) in
  is_Ok (answer adding w) →
  answer removing (request adding w) = Raise e →
  let w1 := request removing (request adding w) in
  update (H := Container.mutable (hooks := tags)) self w = (Raise e, self, w1) ∧
  let '(_, _, w2) := update (H := Container.mutable (hooks := tags)) self w1 in
  issued w1 w2 = adding :: (if is_Ok (answer adding w1) then [removing] else []).
Proof.
  intros Hm Hc Ho Ha Hr adding removing Hadd Hrem w1. split.
  - rewrite update_modified by done. cbn [_update Container.mutable].
    rewrite (Tags_update _ _ _ _ Hc Ho). cbn zeta.
    destruct (decide _) as [|_]; [done|]. fold adding.
    destruct (answer adding w); [|done].
    destruct (decide _) as [|_]; [done|]. fold removing. by rewrite Hrem.
  - rewrite update_modified by done. cbn [_update Container.mutable].
    rewrite (Tags_update _ _ _ _ Hc Ho). cbn zeta.
    destruct (decide _) as [|_]; [done|]. fold adding.
    destruct (answer adding w1); simpl; [|by rewrite issued_request].
    destruct (decide _) as [|_]; [done|]. fold removing.
    by destruct (answer removing (request adding w1)); simpl;
      rewrite issued_request2.
Qed.

(** C1, amended.  From the loaded set {a, b}, with changes cached, the
    operations remove(b), add(c), remove(a), add(b) and then a flush
    send exactly one add request, with the single member c, and then,
    once it has returned, exactly one remove request, with the single
    member a: the net change from {a, b} to {b, c}. *)
Theorem reconcile_net_delta (a b c : string) id w :
  a ≠ b → a ≠ c → b ≠ c →
  caching w = true →
  is_Ok (answer (add_tag id {[c]}) w) →
  let '(_, _, w') := reconcile namespace a b c (loaded id {[a; b]}) w in
  issued w w' = [add_tag id {[c]}; remove_tag id {[a]}].
Proof.
  intros Hab Hac Hbc Hw Hadd. unfold reconcile. cbn zeta.
  unfold mbind, M_bind, bind.
  erewrite remove_buffered by done. destruct (decide _) as [He|_]; [set_solver|].
  erewrite add_buffered by done. destruct (decide _) as [He|_]; [set_solver|].
  erewrite remove_buffered by done. destruct (decide _) as [He|_]; [set_solver|].
  erewrite add_buffered by done. destruct (decide _) as [He|_]; [set_solver|].
  rewrite update_modified by done. cbn [_update Container.mutable].
  erewrite Tags_update by done. cbn zeta.
  cbn [Container.to_set Container._id Container.set__modified
       Container.set__current loaded].
  assert (({[a; b]} ∖ {[b]} ∪ {[c]}) ∖ {[a]} ∪ {[b]} = ({[b; c]} : gset string))
    as -> by set_solver.
  assert (({[b; c]} : gset string) ∖ {[a; b]} = {[c]}) as -> by set_solver.
  assert (({[a; b]} : gset string) ∖ {[b; c]} = {[a]}) as -> by set_solver.
  destruct (decide _) as [He|_]; [set_solver|].
  destruct (answer (add_tag _ _) w); [|done].
  destruct (decide _) as [He|_]; [set_solver|].
  case_answer; by rewrite issued_request2.
Qed.

End tags.

(** Without caching every operation is flushed at once and the final
    flush finds nothing to do: four requests, none of them from
    [update]. *)
Lemma reconcile_uncached :
  let '(_, _, w') :=
    reconcile "TestPlan" "a" "b" "c" (loaded 7 {["a"; "b"]})
      (start CACHE_NONE accepting) in
  sent w' = [Container.remove_tag "TestPlan" 7 {["b"]};
             Container.add_tag "TestPlan" 7 {["c"]};
             Container.remove_tag "TestPlan" 7 {["a"]};
             Container.add_tag "TestPlan" 7 {["b"]}].
Proof. vm_compute. reflexivity. Qed.

(** C1 as stated fails: the add request carries c only, since b was in
    the loaded set and is in the final one. *)
Lemma reconcile_as_stated_fails :
  ¬ reconcile_as_stated "TestPlan" "a" "b" "c" 7 (start CACHE_OBJECTS accepting).
Proof. vm_compute. intros [Hadd _]. discriminate Hadd. Qed.

Lemma reconcile_net_delta_witness :
  let '(_, _, w') :=
    reconcile "TestPlan" "a" "b" "c" (loaded 7 {["a"; "b"]})
      (start CACHE_OBJECTS accepting) in
  issued (start CACHE_OBJECTS accepting) w'
    = [Container.add_tag "TestPlan" 7 {["c"]};
       Container.remove_tag "TestPlan" 7 {["a"]}].
Proof.
  apply (reconcile_net_delta "TestPlan" "a" "b" "c" 7
           (start CACHE_OBJECTS accepting)); done.
Defined.


Lemma partial_flush_retries_witness :
  let w := start CACHE_OBJECTS adding_only in
  let adding :=
    Container.add_tag "TestPlan" (Container._id pending)
      ({["b"; "c"]} ∖ {["a"; "b"]}) in
  let removing :=
    Container.remove_tag "TestPlan" (Container._id pending)
      ({["a"; "b"]} ∖ {["b"; "c"]}) in
  let w1 := request removing (request adding w) in
  update (H := Container.mutable (hooks := Container.PlanTags)) pending w
  = (Raise (Fault 1 "permission denied"), pending, w1) ∧
  let '(_, _, w2) :=
    update (H := Container.mutable (hooks := Container.PlanTags)) pending w1 in
  issued w1 w2 = adding :: (if is_Ok (answer adding w1) then [removing] else []).
Proof.
  refine (partial_flush_retries "TestPlan" pending
            (start CACHE_OBJECTS adding_only) {["b"; "c"]} {["a"; "b"]}
            (Fault 1 "permission denied") eq_refl eq_refl eq_refl
            _ _ _ _).
  - intros Hempty. vm_compute in Hempty. discriminate Hempty.
  - intros Hempty. vm_compute in Hempty. discriminate Hempty.
  - vm_compute. exact I.
  - vm_compute. reflexivity.
Defined.

(** C8 as stated fails: a flush that raises leaves the container
    modified, and the next flush sends the add request again. *)
Lemma flush_twice_as_stated_fails :
  ¬ flush_twice_as_stated "TestPlan" pending (start CACHE_OBJECTS refusing).
Proof. vm_compute. intros Hle. inversion Hle as [|? Hle']. inversion Hle'. Qed.

Section plan_tags.
#[local] Existing Instance Container.PlanTags.

Lemma update_idempotent_witness :
  let w := start CACHE_OBJECTS accepting in
  let '(r, self1, w1) :=
    update pending w in
  (modified pending = false → (r, self1, w1) = (Ok (), pending, w)) ∧
  (modified pending = true →
     (r, self1, w1) =
       match _update pending w with
       | (Ok _, self', w') => (Ok (), set_modified false self', w')
       | (Raise e, self', w') => (Raise e, self', w')
       end) ∧
  (is_Ok r → modified self1 = false ∧ update self1 w1 = (Ok (), self1, w1)).
Proof.
  exact (update_idempotent pending (start CACHE_OBJECTS accepting)).
Defined.

End plan_tags.

(** ** The default setter *)

Section setter.
Variables get upd : M Entity.t unit.
Implicit Types (self : Entity.t) (w : world) (name : string).

Lemma getattr_setattr name x self :
  Entity.getattr name (Entity.setattr name x self) = x.
Proof.
  unfold Entity.getattr, Entity.setattr. destruct x; simpl.
  - by rewrite lookup_delete_eq.
  - by rewrite lookup_insert_eq.
Qed.

Lemma getattr_setattr_ne name name' x self :
  name ≠ name' →
  Entity.getattr name' (Entity.setattr name x self) = Entity.getattr name' self.
Proof.
  intros Hne. unfold Entity.getattr, Entity.setattr. destruct x; simpl.
  - by rewrite lookup_delete_ne.
  - by rewrite lookup_insert_ne.
Qed.

Lemma setattr_getattr name v self :
  Entity.getattr name self = Loaded v →
  Entity.setattr name (Loaded v) self = self.
Proof.
  unfold Entity.getattr, Entity.setattr. destruct self as [i p m attrs]; cbn.
  destruct (attrs !! name) as [v'|] eqn:Hv; [|done]. intros [= ->].
  f_equal. by apply insert_id.
Qed.

(** What a write to an attribute that holds a plain value comes to:
    the comparison and the log message touch nothing. *)
Lemma write_loaded name (stored new : value) self w :
  Entity.getattr name self = Loaded stored →
  Entity.write get upd name new self w =
    if py_eq stored new then (Ok (), self, w)
    else if caching w
         then (Ok (), Entity.set__modified true
                        (Entity.setattr name (Loaded new) self), w)
         else upd (Entity.setattr name (Loaded new) self) w.
Proof.
  intros Hstored. unfold Entity.write, setter, differs, store. unfold_M.
  cbn [fget fset Entity.attribute py_ne py_format value_PyValue].
  rewrite Hstored. cbn [is_NitrateNone]. rewrite Hstored.
  rewrite (setattr_getattr _ _ _ Hstored).
  destruct (py_eq stored new); cbn [negb]; [done|].
  cbn [_update set_modified Entity.mutable]. unfold ret.
  by destruct (caching w).
Qed.

(** A write to a read-write property whose attribute holds a plain
    value.  Writing an equal value (by value equality) changes nothing:
    not the attribute, not the modified flag, and no request is sent.
    Writing a different value stores it; then, with caching of any
    level, the modified flag is set and no request is sent, while at
    level NONE the instance, with the value stored and its flag as
    before, is handed to [_update] at once, and the setter itself does
    not touch the flag: it stays as [_update] leaves it. *)
Lemma setter_spec name (stored new : value) self w :
  Entity.getattr name self = Loaded stored →
  let written := Entity.setattr name (Loaded new) self in
  let '(r, self', w') := Entity.write get upd name new self w in
  (py_eq stored new = true → (r, self', w') = (Ok (), self, w)) ∧
  (py_eq stored new = false →
     Entity.getattr name written = Loaded new ∧
     Entity._modified written = Entity._modified self ∧
     (caching w = true →
        (r, self', w') = (Ok (), Entity.set__modified true written, w) ∧
        Entity.getattr name self' = Loaded new ∧
        Entity._modified self' = true) ∧
     (caching w = false →
        (r, self', w') = upd written w ∧
        ((∀ s w0, Entity._modified (upd s w0).1.2 = Entity._modified s) →
         Entity._modified self' = Entity._modified self))).
Proof.
  intros Hstored. cbn zeta. rewrite (write_loaded _ _ _ _ _ Hstored).
  destruct (py_eq stored new) eqn:Heq.
  - split; [done|]. intros [=].
  - destruct (caching w) eqn:Hw.
    + split; [intros [=]|]. intros _.
      split; [apply getattr_setattr|]. split; [done|].
      split; [|intros [=]]. intros _.
      split; [done|]. split; [apply getattr_setattr|done].
    + destruct (upd _ w) as [[r self'] w'] eqn:Hupd.
      split; [intros [=]|]. intros _.
      split; [apply getattr_setattr|]. split; [done|].
      split; [intros [=]|]. intros _.
      split; [done|]. intros Hflag.
      specialize (Hflag (Entity.setattr name (Loaded new) self) w).
      by rewrite Hupd in Hflag.
Qed.

(** X26.  A write to an attribute that is still at the marker class
    fetches the data first and then goes on as a write to the fetched
    instance: the value written is compared with the value fetched. *)
Lemma setter_fetches_first name (stored new : value) self w self1 w1 :
  Entity.getattr name self = NitrateNone →
  get self w = (Ok (), self1, w1) →
  Entity.getattr name self1 = Loaded stored →
  Entity.write get upd name new self w = Entity.write get upd name new self1 w1.
Proof.
  intros Hnone Hget Hstored. unfold Entity.write, setter. unfold_M.
  cbn [fget fset Entity.attribute _get Entity.nitrate].
  rewrite Hnone, Hstored. cbn [is_NitrateNone]. by rewrite Hget.
Qed.

(** When the fetch raises, so does the write, and nothing is stored. *)
Lemma setter_fetch_raises name (new : value) self w e self1 w1 :
  Entity.getattr name self = NitrateNone →
  get self w = (Raise e, self1, w1) →
  Entity.write get upd name new self w = (Raise e, self1, w1).
Proof.
  intros Hnone Hget. unfold Entity.write, setter. unfold_M.
  cbn [fget fset Entity.attribute _get Entity.nitrate].
  rewrite Hnone. cbn [is_NitrateNone]. by rewrite Hget.
Qed.

(** A read of an attribute that holds a value sends no request. *)
Lemma getter_loaded name v self w :
  Entity.getattr name self = Loaded v →
  Entity.read get name self w = (Ok (Loaded v), self, w).
Proof.
  intros Hv. unfold Entity.read, getter. unfold_M. by rewrite Hv; simpl; rewrite Hv.
Qed.

End setter.

Lemma setter_spec_witness :
  let self := noted in
  let w := start CACHE_OBJECTS accepting in
  let stored := VStr "old" in
  let new := VStr "new" in
  let written := Entity.setattr "notes" (Loaded new) self in
  let '(r, self', w') :=
    Entity.write Nitrate__get Mutable__update "notes" new self w in
  (py_eq stored new = true → (r, self', w') = (Ok (), self, w)) ∧
  (py_eq stored new = false →
     Entity.getattr "notes" written = Loaded new ∧
     Entity._modified written = Entity._modified self ∧
     (caching w = true →
        (r, self', w') = (Ok (), Entity.set__modified true written, w) ∧
        Entity.getattr "notes" self' = Loaded new ∧
        Entity._modified self' = true) ∧
     (caching w = false →
        (r, self', w') = Mutable__update written w ∧
        ((∀ s w0, Entity._modified (Mutable__update s w0).1.2
                  = Entity._modified s) →
         Entity._modified self' = Entity._modified self))).
Proof.
  exact (setter_spec Nitrate__get Mutable__update "notes" (VStr "old")
           (VStr "new") noted (start CACHE_OBJECTS accepting) eq_refl).
Defined.

(** ** The default setter on an attribute that holds an object *)

Section setter_of_objects.
Context `{Builtins}.
Variables get upd : M Run.t unit.
Implicit Types (self : Run.t) (w : world) (stored new : Build.t).

(** C4, on the code.  A write of a build that differs from the stored
    one, when the new build is known by its id only: the setter stores
    it and then formats it for the log message, which reads the name of
    the build and so fetches the build from the server.  When that
    request raises, so does the write: the new build stays stored, but
    the instance is not marked as modified and [_update] is not called,
    at any caching level; on an instance that was not modified before,
    a later [update] finds nothing to save and sends nothing. *)
Theorem setter_log_raises stored new self w (i j : Z) e :
  Run._build self = Loaded stored →
  Build._id stored = Loaded (VInt i) →
  Build._id new = Loaded (VInt j) →
  i ≠ j →
  Build._name new = NitrateNone →
  answer (Call "Build.get" [VInt j]) w = Raise e →
  is_LookupError e = false →
  let written := Run.set__build (Loaded new) self in
  let w' := request (Call "Build.get" [VInt j]) w in
  Run.set_build get upd new self w = (Raise e, written, w') ∧
  Run._build written = Loaded new ∧
  Run._modified written = Run._modified self ∧
  (Run._modified self = false →
   update (H := Run.mutable upd) written w' = (Ok (), written, w')).
Proof.
  intros Hstored Hi Hj Hne Hname Hanswer He written w'.
  split; [|split; [done|split; [done|]]].
  - unfold Run.set_build, setter, differs, store. unfold_M.
    cbn [fget fset Run.build_field]. rewrite Hstored. cbn [is_NitrateNone].
    rewrite Hstored.
    cbn [py_ne py_format Build.py_value].
    unfold Nitrate_ne, __ne__, compare_ids, id, getter. unfold_M.
    cbn [the_id Build.nitrate]. rewrite Hi, Hj. cbn [is_NitrateNone].
    rewrite Hi, Hj. cbn [same]. unfold eq_values, value_PyEq. cbn [py_eq].
    assert ((i =? j) = false) as -> by lia. cbn [negb].
    unfold __str__, Build.__unicode__, Build.name, getter. unfold_M.
    rewrite Hname. cbn [is_NitrateNone _get Build.nitrate].
    unfold Build.__get. unfold_M. rewrite Hj, Hanswer, He.
    by destruct self.
  - intros Hm. by apply update_unmodified.
Qed.

End setter_of_objects.

Section setter_examples.
#[local] Existing Instance example_builtins.

(** A run whose build is the build 5, as [_get] has stored it; the
    build 7 is written while the server is out of reach. *)
Lemma setter_log_raises_witness :
  let stored := Build.Make (Loaded (VInt 5)) "ID" NitrateNone NitrateNone in
  let new := Build.Make (Loaded (VInt 7)) "ID" NitrateNone NitrateNone in
  let self := Run.Make noted (Loaded stored) in
  let w := start CACHE_OBJECTS unreachable in
  let written := Run.set__build (Loaded new) self in
  let w' := request (Call "Build.get" [VInt 7]) w in
  Run.set_build Nitrate__get Mutable__update new self w
  = (Raise (ProtocolError "connection refused"), written, w') ∧
  Run._build written = Loaded new ∧
  Run._modified written = Run._modified self ∧
  (Run._modified self = false →
   update (H := Run.mutable Mutable__update) written w' = (Ok (), written, w')).
Proof.
  refine (setter_log_raises Nitrate__get Mutable__update
            (Build.Make (Loaded (VInt 5)) "ID" NitrateNone NitrateNone)
            (Build.Make (Loaded (VInt 7)) "ID" NitrateNone NitrateNone)
            (Run.Make noted
               (Loaded (Build.Make (Loaded (VInt 5)) "ID" NitrateNone
                          NitrateNone)))
            (start CACHE_OBJECTS unreachable) 5 7
            (ProtocolError "connection refused")
            eq_refl eq_refl eq_refl _ eq_refl eq_refl eq_refl).
  lia.
Defined.

(** An instance with changes to save whose class prints the summary,
    which has not been fetched; [_update] and [_get] are the ones of
    the base classes.  The update attempt raises, the handler formats
    the instance, and what the read of the summary raises leaves
    [__del__]. *)
Lemma del_raises_from_handler_witness :
  let self := Entity.set__modified true noted in
  let w := start CACHE_OBJECTS unreachable in
  __del__ (update (H := Entity.mutable Mutable__update))
    (Entity.read Nitrate__get "summary") self w
  = match Entity.read Nitrate__get "summary" self w with
    | (Ok _, self2, w2) => (Ok (), self2, w2)
    | (Raise e', self2, w2) => (Raise e', self2, w2)
    end.
Proof.
  exact (del_raises_from_handler
           (update (H := Entity.mutable Mutable__update))
           (Entity.read Nitrate__get "summary")
           (Entity.set__modified true noted) (start CACHE_OBJECTS unreachable)
           (NitrateError "Data update not implemented")
           (Entity.set__modified true noted) (start CACHE_OBJECTS unreachable)
           eq_refl).
Defined.

Lemma del_raises_example :
  let self := Entity.set__modified true noted in
  let w := start CACHE_OBJECTS unreachable in
  __del__ (update (H := Entity.mutable Mutable__update))
    (Entity.read Nitrate__get "summary") self w
  = (Raise (NitrateError "To be implemented by respective class"), self, w).
Proof. reflexivity. Qed.

End setter_examples.

(** ** The default getter: Build and Product *)

Section build.
Context `{Builtins}.
Implicit Types (self : Build.t) (w : world).

(** [Build(id)] for an integer: the id is known, the data are not. *)
Lemma Build_by_id (n : Z) :
  Build.__init__ (VInt n) Build.NoProduct VNone
  = Ok (Build.Make (Loaded (VInt n)) "ID" NitrateNone NitrateNone).
Proof. reflexivity. Qed.

(** The first read of an attribute sends one request, whatever comes
    back. *)
Lemma Build_first_read self w i :
  Build._id self = Loaded i → Build._name self = NitrateNone →
  let '(_, _, w1) := Build.name self w in
  issued w w1 = [Call "Build.get" [i]].
Proof.
  intros Hi Hn. unfold Build.name, getter. unfold_M. rewrite Hn.
  cbn [is_NitrateNone _get Build.nitrate]. unfold Build.__get. unfold_M.
  rewrite Hi. case_answer; [|by destruct (is_LookupError e); rewrite issued_request].
  destruct (subscript a "name") as [n|e]; simpl;
    [|by destruct (is_LookupError e); rewrite issued_request].
  destruct (subscript a "product_id") as [p|e]; simpl;
    [|by destruct (is_LookupError e); rewrite issued_request].
  destruct (Product.__init__ p VNone) as [p'|e]; simpl;
    [|by destruct (is_LookupError e); rewrite issued_request].
  by rewrite issued_request.
Qed.

(** C5, amended.  A build of which only the id is known, on a server
    that knows it: the first read of the name, or of the product, sends
    exactly one request, which sets both attributes; after it the read
    of either attribute sends no request and changes nothing. *)
Theorem Build_fetched_once self w (i hash name product_id : value)
    (p : Product.t) :
  Build._id self = Loaded i →
  Build._name self = NitrateNone →
  Build._product self = NitrateNone →
  answer (Call "Build.get" [i]) w = Ok hash →
  subscript hash "name" = Ok name →
  subscript hash "product_id" = Ok product_id →
  Product.__init__ product_id VNone = Ok p →
  let fetched :=
    Build.set__product (Loaded p) (Build.set__name (Loaded name) self) in
  let w1 := request (Call "Build.get" [i]) w in
  Build.name self w = (Ok (Loaded name), fetched, w1) ∧
  Build.product self w = (Ok (Loaded p), fetched, w1) ∧
  issued w w1 = [Call "Build.get" [i]] ∧
  Build.name fetched w1 = (Ok (Loaded name), fetched, w1) ∧
  Build.product fetched w1 = (Ok (Loaded p), fetched, w1) ∧
  fetched_once Build._name Build._product self w ∧
  fetched_once Build._product Build._name self w.
Proof.
  intros Hi Hn Hp Hanswer Hname Hproduct Hinit fetched w1.
  assert (Build.__get self w = (Ok (), fetched, w1)) as Hget.
  { unfold Build.__get. unfold_M. rewrite Hi, Hanswer. simpl.
    by rewrite Hname; simpl; rewrite Hproduct; simpl; rewrite Hinit. }
  assert (Build.name self w = (Ok (Loaded name), fetched, w1)) as Hfirst.
  { unfold Build.name, getter. unfold_M. rewrite Hn.
    cbn [is_NitrateNone _get Build.nitrate]. by rewrite Hget. }
  assert (Build.product self w = (Ok (Loaded p), fetched, w1)) as Hfirst'.
  { unfold Build.product, getter. unfold_M. rewrite Hp.
    cbn [is_NitrateNone _get Build.nitrate]. by rewrite Hget. }
  assert (Build.name fetched w1 = (Ok (Loaded name), fetched, w1)) as Hnext by done.
  assert (Build.product fetched w1 = (Ok (Loaded p), fetched, w1)) as Hnext' by done.
  repeat split; try done.
  - apply issued_request.
  - unfold fetched_once. fold (Build.name self w). rewrite Hfirst.
    fold (Build.product fetched w1). rewrite Hnext'.
    unfold w1. by rewrite issued_request, issued_refl.
  - unfold fetched_once. fold (Build.product self w). rewrite Hfirst'.
    fold (Build.name fetched w1). rewrite Hnext.
    unfold w1. by rewrite issued_request, issued_refl.
Qed.

End build.

Section examples.
#[local] Existing Instance example_builtins.

(** C5 as stated fails for a product: [_get] sets the name and leaves
    the default version at the marker class, so the read of the version
    after the read of the name fetches again. *)
Lemma fetched_once_fails_for_Product :
  ¬ fetched_once Product._name Product._version
      (Product_make (Loaded (VInt 9)) "ID" NitrateNone NitrateNone)
      (start CACHE_OBJECTS database).
Proof. vm_compute. intros [_ Hnone]. discriminate Hnone. Qed.

(** The two requests of that run. *)
Lemma Product_fetched_twice :
  let w := start CACHE_OBJECTS database in
  let '(_, self1, w1) :=
    Product.name (Product_make (Loaded (VInt 9)) "ID" NitrateNone NitrateNone) w in
  let '(r2, _, w2) := Product.version self1 w1 in
  r2 = Ok NitrateNone ∧
  sent w2 = [Product.filter "id" (VInt 9); Product.filter "id" (VInt 9)].
Proof. vm_compute. done. Qed.

Lemma Build_fetched_once_witness :
  let self := Build.Make (Loaded (VInt 5)) "ID" NitrateNone NitrateNone in
  let w := start CACHE_OBJECTS database in
  let name := VStr "rc1" in
  let p := Product_make (Loaded (VInt 9)) "ID" NitrateNone NitrateNone in
  let fetched :=
    Build.set__product (Loaded p) (Build.set__name (Loaded name) self) in
  let w1 := request (Call "Build.get" [VInt 5]) w in
  Build.name self w = (Ok (Loaded name), fetched, w1) ∧
  Build.product self w = (Ok (Loaded p), fetched, w1) ∧
  issued w w1 = [Call "Build.get" [VInt 5]] ∧
  Build.name fetched w1 = (Ok (Loaded name), fetched, w1) ∧
  Build.product fetched w1 = (Ok (Loaded p), fetched, w1) ∧
  fetched_once Build._name Build._product self w ∧
  fetched_once Build._product Build._name self w.
Proof.
  exact (Build_fetched_once
           (Build.Make (Loaded (VInt 5)) "ID" NitrateNone NitrateNone)
           (start CACHE_OBJECTS database) (VInt 5)
           (VStruct [("build_id", VInt 5); ("name", VStr "rc1");
                     ("product_id", VInt 9)])
           (VStr "rc1") (VInt 9)
           (Product_make (Loaded (VInt 9)) "ID" NitrateNone NitrateNone)
           eq_refl eq_refl eq_refl eq_refl eq_refl eq_refl eq_refl).
Defined.

End examples.

(** ** Equality and hash *)

Section equality.
Context {T U : Type} `{Nitrate T} `{Nitrate U}.

Lemma id_loaded `{Nitrate V} (self : V) w i :
  the_id self = Loaded i → id self w = (Ok (Loaded i), self, w).
Proof.
  intros Hi. unfold id, getter. unfold_M. by rewrite Hi; simpl; rewrite Hi.
Qed.

(** C10.  Two instances of classes derived from [Nitrate], of whatever
    classes, whose ids are integers: they are equal exactly when the ids
    are equal, unequal exactly when the ids differ, the hash of each is
    its id, and neither comparison nor hash sends a request or changes
    an instance. *)
Theorem eq_by_id (self : T) (other : U) (w : world) (i j : Z) :
  the_id self = Loaded (VInt i) →
  the_id other = Loaded (VInt j) →
  __eq__ self (IsNitrate other) w
    = (Ok (bool_decide (i = j)), self, IsNitrate other, w) ∧
  __ne__ self (IsNitrate other) w
    = (Ok (bool_decide (i ≠ j)), self, IsNitrate other, w) ∧
  __hash__ self w = (Ok (Loaded (VInt i)), self, w) ∧
  __hash__ other w = (Ok (Loaded (VInt j)), other, w).
Proof.
  intros Hi Hj.
  assert (compare_ids self other w = (Ok (bool_decide (i = j)), self, other, w))
    as Hcompare.
  { unfold compare_ids. rewrite (id_loaded _ _ _ Hi), (id_loaded _ _ _ Hj).
    cbn [same]. unfold eq_values, value_PyEq. cbn [py_eq].
    repeat f_equal. destruct (Z.eqb_spec i j);
      [by rewrite bool_decide_eq_true_2|by rewrite bool_decide_eq_false_2]. }
  unfold __eq__, __ne__, __hash__. rewrite Hcompare.
  rewrite (id_loaded _ _ _ Hi), (id_loaded _ _ _ Hj).
  repeat split. repeat f_equal.
  destruct (decide (i = j)) as [Heq|Hne].
  - rewrite bool_decide_eq_true_2, bool_decide_eq_false_2; [done| |done].
    by intros [].
  - by rewrite bool_decide_eq_false_2, bool_decide_eq_true_2.
Qed.

(** Anything that is no instance of [Nitrate] is unequal. *)
Lemma eq_not_Nitrate (self : T) (v : value) (w : world) :
  __eq__ (U := U) self (NotNitrate v) w = (Ok false, self, NotNitrate v, w) ∧
  __ne__ (U := U) self (NotNitrate v) w = (Ok true, self, NotNitrate v, w).
Proof. done. Qed.

End equality.

Section examples_equality.
#[local] Existing Instance example_builtins.

(** A build and a category with the id 7. *)
Lemma eq_by_id_witness :
  let build := Build.Make (Loaded (VInt 7)) "ID" NitrateNone NitrateNone in
  let category := Category.identity_only (Loaded (VInt 7)) in
  let w := start CACHE_OBJECTS unreachable in
  __eq__ build (IsNitrate category) w
    = (Ok (bool_decide (7 = 7)), build, IsNitrate category, w) ∧
  __ne__ build (IsNitrate category) w
    = (Ok (bool_decide (7 ≠ 7)), build, IsNitrate category, w) ∧
  __hash__ build w = (Ok (Loaded (VInt 7)), build, w) ∧
  __hash__ category w = (Ok (Loaded (VInt 7)), category, w).
Proof.
  exact (eq_by_id
           (Build.Make (Loaded (VInt 7)) "ID" NitrateNone NitrateNone)
           (Category.identity_only (Loaded (VInt 7)))
           (start CACHE_OBJECTS unreachable) 7 7 eq_refl eq_refl).
Defined.

End examples_equality.

(** ** Category: one instance per id while objects are cached *)

Section category.
Context `{Builtins}.
Implicit Types (st : Category.t) (w : world) (n : Z).

Lemma on_initialized st w a o id product category :
  Category.heap st !! a = Some o →
  Category.initialized o = true →
  Category.on a (Category.__init__ id product category) st w = (Ok (), st, w).
Proof.
  intros Ho Hinit. unfold Category.on, at_. rewrite Ho.
  unfold Category.__init__. unfold_M. rewrite Hinit.
  rewrite list_insert_id by done. by destruct st.
Qed.

Lemma on_blank st w n :
  Category.on (length (Category.heap st))
    (Category.__init__ (VInt n) Build.NoProduct VNone)
    (Category.Make (Category.heap st ++ [Category.blank])
       (Category._categories st)) w
  = (Ok (),
     Category.Make
       (Category.heap st ++ [Category.identity_only (Loaded (VInt n))])
       (Category._categories st), w).
Proof.
  unfold Category.on, at_. cbn [Category.heap Category._categories].
  rewrite lookup_app_r, Nat.sub_diag by done. cbn [lookup list_lookup].
  unfold Category.__init__. unfold_M. cbn.
  rewrite insert_app_r_alt, Nat.sub_diag by done. done.
Qed.

(** X28.  While objects are cached, [Category(n)] twice is the same
    instance: the second construction returns the reference of the
    first, sends no request and leaves every instance as it is. *)
Lemma Category_shared st w n :
  CACHE_OBJECTS ≤ _cache w →
  Category.wf st →
  let '(r1, st1, w1) := Category.Category (VInt n) Build.NoProduct VNone st w in
  ∃ a, r1 = Ok a ∧ w1 = w ∧ Category.wf st1 ∧
       Category.Category (VInt n) Build.NoProduct VNone st1 w1 = (Ok a, st1, w1).
Proof.
  intros Hlevel Hwf.
  assert (∀ st' a o,
    Category._categories st' !! Some (inl n) = Some a →
    Category.heap st' !! a = Some o → Category.initialized o = true →
    Category.Category (VInt n) Build.NoProduct VNone st' w = (Ok a, st', w))
    as Hcached.
  { intros st' a o Ha Ho Hinit. unfold Category.Category, Category.__new__.
    unfold_M. rewrite bool_decide_eq_true_2 by done. cbn.
    rewrite Ha. by rewrite (on_initialized _ _ _ _ _ _ _ Ho Hinit). }
  destruct (Category._categories st !! Some (inl n)) as [a|] eqn:Ha.
  - destruct (lookup_lt_is_Some_2 (Category.heap st) a (Hwf _ _ Ha)) as [o Ho].
    destruct (Category.initialized o) eqn:Hinit.
    + rewrite (Hcached st a o) by done. eauto 10.
    + unfold Category.Category, Category.__new__. unfold_M.
      rewrite bool_decide_eq_true_2 by done. cbn. rewrite Ha.
      unfold Category.on, at_. rewrite Ho.
      unfold Category.__init__. unfold_M. rewrite Hinit. cbn.
      exists a. split; [done|]. split; [done|]. split.
      * intros k b Hb. cbn in *. rewrite length_insert. eauto.
      * eapply Hcached; cbn;
          [done|apply list_lookup_insert_eq; by eapply lookup_lt_Some|done].
  - unfold Category.Category, Category.__new__, Category.new, Category.cache.
    unfold_M. rewrite bool_decide_eq_true_2 by done. cbn. rewrite Ha.
    pose proof (on_blank
      (Category.Make (Category.heap st)
         (<[Some (inl n) := length (Category.heap st)]> (Category._categories st)))
      w n) as Hinit.
    cbn [Category.heap Category._categories] in Hinit. rewrite Hinit.
    exists (length (Category.heap st)). split; [done|]. split; [done|]. split.
    + intros k b. cbn. rewrite length_app. cbn.
      destruct (decide (k = Some (inl n))) as [->|Hne].
      * rewrite lookup_insert_eq. intros [= <-]. lia.
      * rewrite lookup_insert_ne by done. intros Hb. specialize (Hwf _ _ Hb). lia.
    + eapply Hcached; cbn.
      * apply lookup_insert_eq.
      * rewrite lookup_app_r, Nat.sub_diag by done. done.
      * done.
Qed.

(** X29.  Below the level OBJECTS the cache is left alone: every
    [Category(n)] is a new instance, at a new position of the heap. *)
Lemma Category_fresh st w n :
  _cache w < CACHE_OBJECTS →
  Category.Category (VInt n) Build.NoProduct VNone st w
  = (Ok (length (Category.heap st)),
     Category.Make
       (Category.heap st ++ [Category.identity_only (Loaded (VInt n))])
       (Category._categories st), w).
Proof.
  intros Hlevel. unfold Category.Category, Category.__new__, Category.new.
  unfold_M. rewrite bool_decide_eq_false_2 by lia.
  by rewrite on_blank.
Qed.

(** No level makes [Category] send a request when it is constructed by
    id: there is nothing like the fetch of all users. *)
Lemma Category_no_request st w n :
  let '(_, _, w1) := Category.Category (VInt n) Build.NoProduct VNone st w in
  w1 = w.
Proof.
  unfold Category.Category, Category.__new__, Category.new, Category.cache.
  unfold_M. cbn [to_key].
  assert (∀ a st', (Category.on a
            (Category.__init__ (VInt n) Build.NoProduct VNone) st' w).2 = w)
    as Hon.
  { intros a st'. unfold Category.on, at_.
    destruct (Category.heap st' !! a) as [o|]; [|done].
    unfold Category.__init__. unfold_M.
    by destruct (Category.initialized o). }
  destruct (bool_decide _).
  - destruct (Category._categories st !! _) as [a|].
    + specialize (Hon a st). by destruct (Category.on _ _ _ _) as [[[] ?] ?].
    + match goal with |- context [Category.on ?a _ ?st' w] =>
        specialize (Hon a st'); by destruct (Category.on a _ st' w) as [[[] ?] ?]
      end.
  - match goal with |- context [Category.on ?a _ ?st' w] =>
      specialize (Hon a st'); by destruct (Category.on a _ st' w) as [[[] ?] ?]
    end.
Qed.

End category.

(** ** User: all users fetched at the first reference *)

Section user.
Context `{Builtins}.
Implicit Types (st : User.t) (w : world) (o : User.object) (h : value).

Lemma save_spec h o :
  ∃ r o', (∀ w, User.save h o w = (r, o', w)) ∧
    (r = Ok () →
       ∃ i login email name,
         subscript h "id" = Ok i ∧
         o' = User.Object (Some (Loaded i)) (User._prefix o)
                (Some (Loaded login)) (Some (Loaded email)) (Some (Loaded name))).
Proof.
  unfold User.save. unfold_M.
  destruct (subscript h "id") as [i|e] eqn:Hi; [|by eexists _, _].
  destruct (subscript h "username") as [u|e]; [|by eexists _, _].
  destruct (subscript h "email") as [m|e]; [|by eexists _, _].
  destruct (subscript h "first_name") as [f|e]; [|by eexists _, _].
  destruct (truthy f); cbn.
  - destruct (subscript h "last_name") as [l|e]; [|by eexists _, _].
    destruct (truthy l); cbn.
    + destruct (User.full_name f l) as [n|e]; cbn; [|by eexists _, _].
      eexists _, _. split; [done|]. intros _. by eexists _, _, _, _.
    + eexists _, _. split; [done|]. intros _. by eexists _, _, _, _.
  - eexists _, _. split; [done|]. intros _. by eexists _, _, _, _.
Qed.

Lemma init_from_hash h :
  ∃ r o,
    (∀ w, User.__init__ VNone VNone VNone (Some h) User.blank w = (r, o, w)) ∧
    (r = Ok () →
       User.materialized o = true ∧
       ∃ i, User._id o = Some (Loaded i) ∧ subscript h "id" = Ok i).
Proof.
  unfold User.__init__, User.__get. unfold_M. cbn -[User.save].
  match goal with |- context [User.save h ?o _] =>
    destruct (save_spec h o) as (r & o' & Hs & Hsave)
  end.
  exists r, o'. split.
  { intros w. rewrite Hs. by destruct r as [[]|]. }
  intros ->. destruct (Hsave eq_refl) as (i & ? & ? & ? & Hi & ->). eauto.
Qed.

Lemma init_no_hash id login email o w :
  (User.__init__ id login email None o w).2 = w.
Proof.
  unfold User.__init__. unfold_M. destruct (User.initialized o); [done|].
  destruct (User._parse id login email) as [[id' login'] email']. cbn.
  destruct (Nitrate___init__ id') as [i|e]; cbn; [|done].
  by destruct login', email'.
Qed.

Lemma on_world {A} (m : M User.object A) a st w :
  (∀ o, (m o w).2 = w) → (User.on a m st w).2 = w.
Proof.
  intros Hm. unfold User.on, at_. destruct (User.heap st !! a) as [o|]; [|done].
  specialize (Hm o). by destruct (m o w) as [[? ?] ?].
Qed.

Lemma from_hash_spec h st :
  ∃ r o,
    (∀ w, User.from_hash h st w
          = (r, User.Make (User.heap st ++ [o]) (User._users st), w)) ∧
    (is_Ok r →
       r = Ok (length (User.heap st)) ∧ made_from h o ∧
       User.materialized o = true ∧
       ∃ i, User._id o = Some (Loaded i) ∧ subscript h "id" = Ok i).
Proof.
  destruct (init_from_hash h) as (r & o & Hrun & Hinit).
  exists (match r with Ok _ => Ok (length (User.heap st)) | Raise e => Raise e end), o.
  split.
  { intros w. unfold User.from_hash, User.new, User.on, at_. unfold_M.
    cbn [User.heap User._users].
    rewrite lookup_app_r, Nat.sub_diag by done. cbn [lookup list_lookup].
    rewrite Hrun.
    rewrite insert_app_r_alt, Nat.sub_diag by done. cbn [insert list_insert].
    by destruct r as [[]|]. }
  destruct r as [[]|]; [|done]. intros _. split; [done|].
  split; [exact Hrun|]. by apply Hinit.
Qed.

(** [User(hash=hash)] for a hash, nested in a construction: a new
    instance made from the hash. *)
Lemma User_of_hash depth h st w :
  h ≠ VNone →
  User.User_within (S depth) VNone VNone VNone (User.as_hash h) st w
  = User.from_hash h st w.
Proof.
  intros Hh. cbn [User.User_within].
  unfold User.construct, User.__new__, User.from_hash. cbn [User._parse].
  assert (User.as_hash h = Some h) as -> by (by destruct h).
  unfold_M. rewrite bool_decide_eq_false_2 by done. by cbn [andb].
Qed.

Lemma fetched_from_fetched hashes st : fetched_from hashes st → fetched st.
Proof.
  intros Hst k a Ha.
  destruct (Hst k a Ha) as (o & h & v & ? & _ & _ & ? & _ & ? & ?).
  by exists o, v.
Qed.

Lemma fetched_extend hashes st o :
  fetched_from hashes st →
  fetched_from hashes (User.Make (User.heap st ++ [o]) (User._users st)).
Proof.
  intros Hst k a Ha. destruct (Hst k a Ha) as (o' & h & v & Ho' & ?).
  exists o', h, v. split; [|done]. cbn. by apply lookup_app_l_Some.
Qed.

Lemma fetched_cache hashes st o h v k :
  fetched_from hashes st → h ∈ hashes → made_from h o →
  User.materialized o = true → subscript h "id" = Ok v →
  User._id o = Some (Loaded v) → to_key v = Ok k →
  fetched_from hashes
    (User.Make (User.heap st ++ [o])
       (<[k := length (User.heap st)]> (User._users st))).
Proof.
  intros Hst Hh Hmade Hm Hid Hv Hk k' a. cbn.
  destruct (decide (k = k')) as [<-|Hne].
  - rewrite lookup_insert_eq. intros [= <-]. exists o, h, v.
    by rewrite lookup_app_r, Nat.sub_diag.
  - rewrite lookup_insert_ne by done. intros Ha.
    destruct (Hst k' a Ha) as (o' & h' & v' & Ho' & ?).
    exists o', h', v'. split; [|done]. by apply lookup_app_l_Some.
Qed.

(** The loop over hashes, none of them [None]: no request, and the
    cache holds the users made from the hashes, one for every id. *)
Lemma fetch_all_spec depth all hashes hash st w :
  VNone ∉ hashes → hashes ⊆ all →
  fetched_from all st →
  ∃ r st',
    User.fetch_all (User.User_within (S depth)) hashes hash st w = (r, st', w) ∧
    (is_Ok r →
       fetched_from all st' ∧
       (∀ k, is_Some (User._users st !! k) → is_Some (User._users st' !! k)) ∧
       (∀ h, h ∈ hashes →
          ∃ v k, subscript h "id" = Ok v ∧ to_key v = Ok k ∧
                 is_Some (User._users st' !! k)) ∧
       (User._users st ≠ ∅ ∨ hashes ≠ [] → User._users st' ≠ ∅) ∧
       (is_Some hash ∨ hashes ≠ [] → ∃ last, r = Ok (Some last))).
Proof.
  revert hash st. induction hashes as [|next rest IH]; intros hash st Hnone Hall Hst.
  { exists (Ok hash), st. split; [done|]. intros _. split; [done|].
    split; [done|]. split; [by intros h ?%elem_of_nil|].
    split; [by intros [|]|]. intros [[last ->]|]; [by eauto|done]. }
  assert (next ≠ VNone) as Hnext by (intros ->; apply Hnone; left).
  assert (VNone ∉ rest) as Hnone' by (intros ?; apply Hnone; by right).
  assert (rest ⊆ all) as Hall' by (intros x ?; apply Hall; by right).
  assert (next ∈ all) as Hin by (apply Hall; left).
  cbn [User.fetch_all]. unfold mbind at 1, M_bind at 1, bind at 1.
  rewrite (User_of_hash _ _ _ _ Hnext).
  destruct (from_hash_spec next st) as (r & o & -> & Hfrom).
  destruct r as [a|e]; [|by eexists _, _].
  destruct (Hfrom I) as ([= ->] & Hmade & Hm & i & Hi & Hid).
  unfold_M. unfold User.on, at_. cbn [User.heap User._users].
  rewrite lookup_app_r, Nat.sub_diag by done. cbn [lookup list_lookup].
  unfold User.id, attribute. unfold_M. rewrite Hi. cbn [is_NitrateNone].
  rewrite Hi. rewrite list_insert_id
    by (by rewrite lookup_app_r, Nat.sub_diag).
  destruct (to_key i) as [k|e] eqn:Hk; [|by eexists _, _].
  unfold User.cache. unfold_M. cbn [User.heap User._users].
  assert (User.as_hash next = Some next) as -> by (by destruct next).
  destruct (IH (Some next)
              (User.Make (User.heap st ++ [o])
                 (<[k := length (User.heap st)]> (User._users st)))
              Hnone' Hall')
    as (r & st' & -> & Hrest).
  { by eapply fetched_cache. }
  exists r, st'. split; [done|]. intros Hr.
  destruct (Hrest Hr) as (Hfetched & Hkeys & Hcovered & Hnonempty & Hlast).
  cbn [User._users] in *.
  split; [done|]. split; [|split; [|split]].
  - intros k' Hk'. apply Hkeys.
    destruct (decide (k = k')) as [<-|Hne];
      [by rewrite lookup_insert_eq|by rewrite lookup_insert_ne].
  - intros h [->|Hh]%elem_of_cons; [|by apply Hcovered].
    exists i, k. split; [done|]. split; [done|].
    apply Hkeys. by rewrite lookup_insert_eq.
  - intros _. apply Hnonempty. left. apply insert_non_empty.
  - intros _. apply Hlast. left. by eauto.
Qed.

Lemma on_new {A} (m : M User.object A) heap users w :
  User.on (length heap) m (User.Make (heap ++ [User.blank]) users) w =
    let '(r, o, w') := m User.blank w in
    (r, User.Make (heap ++ [o]) users, w').
Proof.
  unfold User.on, at_. cbn [User.heap User._users].
  rewrite lookup_app_r, Nat.sub_diag by done. cbn [lookup list_lookup].
  destruct (m User.blank w) as [[r o] w'].
  by rewrite insert_app_r_alt, Nat.sub_diag.
Qed.

Lemma key_initialized o v k :
  User._id o = Some (Loaded v) → to_key v = Ok (Some k) →
  User.initialized o = true.
Proof. intros Hv Hk. unfold User.initialized. rewrite Hv. by destruct v. Qed.

(** A user that the cache holds under an integer id: [User(id)]
    returns it, sends no request and changes nothing. *)
Lemma User_cached st w (j : Z) a :
  CACHE_OBJECTS ≤ _cache w →
  fetched st → User._users st ≠ ∅ →
  User._users st !! Some (inl j) = Some a →
  User.User (VInt j) VNone VNone None st w = (Ok a, st, w).
Proof.
  intros Hlevel Hst Hnonempty Ha.
  destruct (Hst _ _ Ha) as (o & v & Ho & _ & Hv & Hk).
  unfold User.User, User.construct, User.__new__. cbn [User._parse]. unfold_M.
  rewrite (bool_decide_eq_false_2 (User._users st = ∅)) by done.
  rewrite andb_false_r. rewrite bool_decide_eq_true_2 by done.
  cbn [to_key]. rewrite Ha.
  unfold User.on, at_. rewrite Ho. unfold User.__init__. unfold_M.
  rewrite (key_initialized _ _ _ Hv Hk).
  rewrite list_insert_id by done. by destruct st.
Qed.

(** Once the cache holds a user, no construction without a hash sends
    a request. *)
Lemma User_no_fetch st w id login email :
  User._users st ≠ ∅ →
  (User.User id login email None st w).2 = w.
Proof.
  intros Hnonempty. unfold User.User, User.construct, User.__new__.
  destruct (User._parse id login email) as [[id' login'] email'].
  unfold_M.
  rewrite (bool_decide_eq_false_2 (User._users st = ∅)) by done.
  rewrite andb_false_r.
  assert (∀ (m : M User.t nat), (m st w).2 = w →
    (let '(p, w') := m st w in
     let '(r, self') := p in
     match r with
     | Ok a =>
         let '(p0, w'0) :=
           User.on a (User.__init__ id login email None) self' w' in
         let '(r0, self'0) := p0 in
         match r0 with
         | Ok _ => (Ok a, self'0, w'0)
         | Raise e => (Raise e, self'0, w'0)
         end
     | Raise e => (Raise e, self', w')
     end).2 = w) as Hquiet.
  { intros m Hm. destruct (m st w) as [[[a|e] st'] w']; cbn in Hm; subst w';
      [|done].
    pose proof (on_world (User.__init__ id login email None) a st' w
                  (λ o, init_no_hash id login email o w)) as Hon.
    by destruct (User.on a _ st' w) as [[[] ?] ?]. }
  apply Hquiet. unfold User.new, User.cache. unfold_M.
  destruct id'; try done;
    (destruct (bool_decide (CACHE_OBJECTS ≤ _cache w)); [|done]);
    cbn [to_key]; try done;
    by destruct (User._users st !! _).
Qed.

(** C7, amended.  At level ALL, the first construction of a user
    without a hash, while the cache of users is empty, sends exactly one
    request: the filter without conditions, for all users (the answer
    being a list of hashes, none of them [None]).  When the
    construction returns, the cache holds every user of the answer
    under the key of its id, and nothing else: what it holds under a key
    is the instance made from a hash of the answer with that id, with
    its data.  The cache is then not empty, which is what guards the
    fetch: no later construction sends a request, and the construction
    by an id that the cache holds returns the cached instance and
    changes nothing. *)
Theorem User_fetch_all st w (id login email reply : value) hashes :
  _cache w = CACHE_ALL →
  User._users st = ∅ →
  answer (User.filter []) w = Ok reply →
  User.iterate reply = Ok hashes →
  hashes ≠ [] →
  VNone ∉ hashes →
  let '(r1, st1, w1) := User.User id login email None st w in
  issued w w1 = [User.filter []] ∧
  (is_Ok r1 →
     User._users st1 ≠ ∅ ∧
     (∀ hash, hash ∈ hashes →
        ∃ v k, subscript hash "id" = Ok v ∧ to_key v = Ok k ∧
               is_Some (User._users st1 !! k)) ∧
     (∀ k a, User._users st1 !! k = Some a →
        ∃ o hash v,
          User.heap st1 !! a = Some o ∧ hash ∈ hashes ∧
          made_from hash o ∧ User.materialized o = true ∧
          subscript hash "id" = Ok v ∧
          User._id o = Some (Loaded v) ∧ to_key v = Ok k) ∧
     (∀ (j : Z) a, User._users st1 !! Some (inl j) = Some a →
        User.User (VInt j) VNone VNone None st1 w1 = (Ok a, st1, w1)) ∧
     (∀ id' login' email',
        (User.User id' login' email' None st1 w1).2 = w1)).
Proof.
  intros Hlevel Hempty Hanswer Hiterate Hhashes Hnone.
  assert (fetched_from hashes st) as Hst.
  { intros k a. by rewrite Hempty, lookup_empty. }
  unfold User.User at 1, User.construct, User.__new__.
  destruct (User._parse id login email) as [[id' login'] email'].
  unfold_M. rewrite Hlevel, Hempty.
  rewrite !bool_decide_eq_true_2 by done. cbn [andb Z.eqb CACHE_ALL Pos.eqb].
  rewrite Hanswer, Hiterate.
  change User.recursion_limit with (S (pred User.recursion_limit)).
  destruct (fetch_all_spec (pred User.recursion_limit) hashes hashes None st
              (request (User.filter []) w) Hnone (λ _ Hx, Hx) Hst)
    as (r & st' & -> & Hloop).
  destruct r as [last|e]; [|by rewrite issued_request].
  destruct (Hloop I) as (Hst' & _ & Hcovered & Hnonempty & Hlast).
  destruct Hlast as (l & [= ->]); [by right|].
  assert (User._users st' ≠ ∅) as Hnonempty' by (apply Hnonempty; by right).
  replace (match id' with
           | VNone => User.new
           | VBool _ | VInt _ | VStr _ | VList _ | VStruct _ => User.new
           end) with (User.new) by (by destruct id').
  unfold User.new at 1. rewrite on_new.
  pose proof (init_no_hash id login email User.blank (request (User.filter []) w))
    as Hworld.
  destruct (User.__init__ id login email None User.blank _) as [[r o] w1].
  cbn in Hworld. subst w1.
  assert (fetched_from hashes
            (User.Make (User.heap st' ++ [o]) (User._users st'))) as Hst1
    by (by apply fetched_extend).
  destruct r as [[]|e]; (split; [by rewrite issued_request|]); [|done].
  intros _. split; [done|]. split; [exact Hcovered|]. split; [exact Hst1|].
  split.
  { intros j a Ha. apply User_cached; try done.
    - unfold request. cbn [_cache]. rewrite Hlevel. by compute.
    - by eapply fetched_from_fetched. }
  intros id2 login2 email2. by apply User_no_fetch.
Qed.

End user.

Section examples_cache.
#[local] Existing Instance example_builtins.

(** C7 as stated fails for categories: at level ALL the first
    reference to a category sends no request; only users are fetched
    all at once. *)
Lemma fetches_all_fails_for_Category :
  ¬ fetches_all (Category.Category (VInt 1) Build.NoProduct VNone)
      Category.empty (start CACHE_ALL database).
Proof. vm_compute. discriminate. Qed.

Lemma User_fetch_all_witness :
  let w := start CACHE_ALL database in
  let hashes := [user_hash 5 "ann"; user_hash 6 "bob"] in
  let '(r1, st1, w1) := User.User (VInt 5) VNone VNone None User.empty w in
  issued w w1 = [User.filter []] ∧
  (is_Ok r1 →
     User._users st1 ≠ ∅ ∧
     (∀ hash, hash ∈ hashes →
        ∃ v k, subscript hash "id" = Ok v ∧ to_key v = Ok k ∧
               is_Some (User._users st1 !! k)) ∧
     (∀ k a, User._users st1 !! k = Some a →
        ∃ o hash v,
          User.heap st1 !! a = Some o ∧ hash ∈ hashes ∧
          made_from hash o ∧ User.materialized o = true ∧
          subscript hash "id" = Ok v ∧
          User._id o = Some (Loaded v) ∧ to_key v = Ok k) ∧
     (∀ (j : Z) a, User._users st1 !! Some (inl j) = Some a →
        User.User (VInt j) VNone VNone None st1 w1 = (Ok a, st1, w1)) ∧
     (∀ id' login' email',
        (User.User id' login' email' None st1 w1).2 = w1)).
Proof.
  refine (User_fetch_all User.empty (start CACHE_ALL database) (VInt 5) VNone
            VNone (VList [user_hash 5 "ann"; user_hash 6 "bob"])
            [user_hash 5 "ann"; user_hash 6 "bob"]
            eq_refl eq_refl eq_refl eq_refl _ _).
  - discriminate.
  - intros Hin. apply elem_of_cons in Hin as [Hin|Hin]; [discriminate Hin|].
    apply elem_of_cons in Hin as [Hin|Hin]; [discriminate Hin|].
    by apply elem_of_nil in Hin.
Defined.

(** An item [None] in the answer: [User(hash=None)] is a construction
    without a hash.  While the cache is empty it starts the fetch again;
    once the cache holds a user it makes a new instance, whose id is
    then fetched with [User.get_me]. *)
Lemma User_fetch_all_None_item :
  let w := start CACHE_ALL with_None in
  let '(r1, st1, w1) := User.User (VInt 5) VNone VNone None User.empty w in
  issued w w1 = [User.filter []; Call "User.get_me" []] ∧
  is_Some (User._users st1 !! Some (inl 5)) ∧
  is_Some (User._users st1 !! Some (inl 6)).
Proof. vm_compute. repeat split; by eexists. Qed.

(** C6 on the failing input.  At level ALL, with the cache of users
    empty, [User(5)] twice: the first construction fetches all users
    and then returns a new instance, which knows its id only and is not
    in the cache; the second returns the instance of the cache.  The
    two references differ. *)
Theorem User_not_shared_after_fetch :
  let w := start CACHE_ALL database in
  let '(r1, st1, w1) := User.User (VInt 5) VNone VNone None User.empty w in
  let '(r2, st2, w2) := User.User (VInt 5) VNone VNone None st1 w1 in
  ∃ first second,
    r1 = Ok first ∧ r2 = Ok second ∧ first ≠ second ∧
    User.heap st2 !! first = Some (User.identity_only (Loaded (VInt 5))) ∧
    User._users st2 !! Some (inl 5) = Some second ∧
    (User.materialized <$> User.heap st2 !! second) = Some true.
Proof. vm_compute. exists 2%nat, 0%nat. repeat split; discriminate. Qed.

(** The sibling class does what the claim says: at level ALL, and at
    level OBJECTS, [Category(5)] twice is one instance. *)
Lemma Category_shared_example :
  let w := start CACHE_ALL database in
  let '(r1, st1, w1) :=
    Category.Category (VInt 5) Build.NoProduct VNone Category.empty w in
  let '(r2, st2, w2) :=
    Category.Category (VInt 5) Build.NoProduct VNone st1 w1 in
  r1 = Ok 0%nat ∧ r2 = Ok 0%nat ∧ st2 = st1 ∧ sent w2 = [].
Proof. vm_compute. done. Qed.

End examples_cache.

(** ** The classes of fixed values *)

Section names.
Implicit Types (names : list string) (x v : value) (i n : Z).

Lemma py_eq_VStr s x : py_eq (VStr s) x = true → x = VStr s.
Proof. destruct x; simpl; try done. by intros ->%String.eqb_eq. Qed.

Lemma py_eq_as_int v n : as_int v = Some n → py_eq (VInt n) v = true.
Proof.
  destruct v as [|[]| | | |]; simpl; intros [= <-]; try done. apply Z.eqb_refl.
Qed.

Lemma index_spec names x i :
  index names x = Ok i →
  0 ≤ i ∧ ∃ name, names !! Z.to_nat i = Some name ∧ x = VStr name.
Proof.
  revert i. induction names as [|n names IH]; intros i; cbn [index]; [done|].
  destruct (py_eq (VStr n) x) eqn:Heq.
  - intros [= <-]. split; [done|]. exists n. split; [done|]. by apply py_eq_VStr.
  - unfold mbind, result_bind. destruct (index names x) as [j|e]; [|done].
    intros [= <-]. destruct (IH j eq_refl) as (Hj & name & Hname & ->).
    split; [lia|]. exists name. split; [|done].
    by replace (Z.to_nat (j + 1)) with (S (Z.to_nat j)) by lia.
Qed.

Lemma index_lookup names (k : nat) name :
  NoDup names → names !! k = Some name →
  index names (VStr name) = Ok (Z.of_nat k).
Proof.
  intros Hnd. revert k. induction Hnd as [|n names Hn Hnd IH]; intros k; [done|].
  destruct k as [|k]; simpl.
  - intros [= ->]. by rewrite String.eqb_refl.
  - intros Hk. destruct (String.eqb_spec n name) as [->|_].
    + exfalso. apply Hn. by eapply list_elem_of_lookup_2.
    + rewrite (IH _ Hk). unfold mbind, result_bind. f_equal. lia.
Qed.

Lemma item_lookup {A} (items : list A) v n a :
  as_int v = Some n → 0 ≤ n → items !! Z.to_nat n = Some a →
  item items v = Ok a.
Proof.
  intros Hv Hn Ha. unfold item. rewrite Hv.
  rewrite (bool_decide_eq_false_2 (n < 0)) by lia.
  rewrite bool_decide_eq_true_2 by done. by rewrite Ha.
Qed.

(** A name of the list is found at its position, and the name at a
    position is found there, when no name is listed twice. *)
Lemma names_round_trip names x i :
  NoDup names → index names x = Ok i →
  ∃ name, x = VStr name ∧ item names (VInt i) = Ok name ∧
          index names (VStr name) = Ok i.
Proof.
  intros Hnd Hi. destruct (index_spec _ _ _ Hi) as (H0 & name & Hname & ->).
  exists name. split; [done|]. split; [by eapply item_lookup|done].
Qed.

Lemma ids_round_trip names v n :
  NoDup names → as_int v = Some n → 0 ≤ n < Z.of_nat (length names) →
  ∃ name, item names v = Ok name ∧ index names (VStr name) = Ok n.
Proof.
  intros Hnd Hv Hn.
  destruct (lookup_lt_is_Some_2 names (Z.to_nat n)) as [name Hname]; [lia|].
  exists name. split; [apply (item_lookup _ _ n); [done|lia|done]|].
  rewrite (index_lookup _ _ _ Hnd Hname). f_equal. lia.
Qed.

End names.

Ltac names_NoDup := apply (bool_decide_unpack _); by vm_compute.

(** X1.  A test plan type made from an id, or from a name of the list,
    has its id at the position of its name: for every accepted argument
    but the id 28, [name] returns a name of the list, the name given if
    one was given, and the type made from that name has the same id.
    The id 28 is accepted, and the list has 28 names, at the positions
    0 to 27: the name of that type is an [IndexError]. *)
Theorem PlanType_name plantype self :
  PlanType.__init__ plantype = Ok self →
  (as_int plantype ≠ Some 28 →
     ∃ name self',
       PlanType.name self = Ok name ∧
       (∀ s, plantype = VStr s → name = s) ∧
       PlanType.__init__ (VStr name) = Ok self' ∧
       py_eq (PlanType.id self') (PlanType.id self) = true) ∧
  (as_int plantype = Some 28 → PlanType.name self = Raise IndexError).
Proof.
  unfold PlanType.__init__, PlanType.name, PlanType.id.
  destruct (as_int plantype) as [n|] eqn:Hv.
  - case_bool_decide as Hn; [done|]. intros [= <-]. cbn [PlanType._id]. split.
    + intros Hne.
      destruct (ids_round_trip PlanType._plantypes _ _ ltac:(names_NoDup) Hv)
        as (name & Hname & Hindex).
      { cbn. assert (n ≠ 28) by congruence. lia. }
      exists name, (PlanType.Make (VInt n)).
      split; [done|]. split; [by intros s ->|].
      cbn [as_int]. rewrite Hindex. split; [done|]. by apply py_eq_as_int.
    + intros [= ->]. unfold item. rewrite Hv. done.
  - destruct (index PlanType._plantypes plantype) as [i|e] eqn:Hi;
      [|by destruct e].
    intros [= <-]. split; [|done]. intros _.
    destruct (names_round_trip PlanType._plantypes _ _ ltac:(names_NoDup) Hi)
      as (name & -> & Hname & Hindex).
    exists name, (PlanType.Make (VInt i)).
    split; [done|]. split; [by intros s [= ->]|].
    cbn [as_int]. rewrite Hindex. split; [done|]. apply Z.eqb_refl.
Qed.

Lemma PlanType_name_witness :
  (as_int (VInt 28) ≠ Some 28 →
     ∃ name self',
       PlanType.name (PlanType.Make (VInt 28)) = Ok name ∧
       (∀ s, VInt 28 = VStr s → name = s) ∧
       PlanType.__init__ (VStr name) = Ok self' ∧
       py_eq (PlanType.id self') (PlanType.id (PlanType.Make (VInt 28))) = true) ∧
  (as_int (VInt 28) = Some 28 →
     PlanType.name (PlanType.Make (VInt 28)) = Raise IndexError).
Proof.
  exact (PlanType_name (VInt 28) (PlanType.Make (VInt 28)) eq_refl).
Defined.

(** The proof for a class whose ids are the positions of its names,
    from a first id on. *)
Ltac fixed_values names Make :=
  let n := fresh "n" in
  let Hv := fresh "Hv" in
  let Hn := fresh "Hn" in
  let i := fresh "i" in
  let e := fresh "e" in
  let Hi := fresh "Hi" in
  let name := fresh "name" in
  let Hname := fresh "Hname" in
  let Hindex := fresh "Hindex" in
  match goal with
  | |- context [as_int ?x] => destruct (as_int x) as [n|] eqn:Hv
  end;
  [ case_bool_decide as Hn; try done; intros [= <-];
    destruct (ids_round_trip names _ _ ltac:(names_NoDup) Hv)
      as (name & Hname & Hindex); [cbn; lia|];
    exists name, (Make (VInt n));
    split; [done|]; split; [by intros ? ->|];
    cbn [as_int]; rewrite Hindex; split; [done|]; by apply py_eq_as_int
  | match goal with
    | |- context [index names ?x] =>
        destruct (index names x) as [i|e] eqn:Hi; [|by destruct e]
    end;
    intros [= <-];
    destruct (names_round_trip names _ _ ltac:(names_NoDup) Hi)
      as (name & -> & Hname & Hindex);
    exists name, (Make (VInt i));
    split; [done|]; split; [by intros ? [= ->]|];
    cbn [as_int]; rewrite Hindex; split; [done|]; apply Z.eqb_refl ].

(** X2.  A priority made from an id from 1 to 5, or from a name of the
    list, has a name, the one given if one was given, and the priority
    made from that name has the same id: [name] raises no [IndexError]
    on a priority that [__init__] has accepted. *)
Theorem Priority_round_trip priority self :
  Priority.__init__ priority = Ok self →
  ∃ name self',
    Priority.name self = Ok name ∧
    (∀ s, priority = VStr s → name = s) ∧
    Priority.__init__ (VStr name) = Ok self' ∧
    py_eq (Priority.id self') (Priority.id self) = true.
Proof.
  unfold Priority.__init__, Priority.name, Priority.id.
  fixed_values Priority._priorities Priority.Make.
Qed.

Lemma Priority_round_trip_witness :
  ∃ name self',
    Priority.name (Priority.Make (VInt 3)) = Ok name ∧
    (∀ s, VInt 3 = VStr s → name = s) ∧
    Priority.__init__ (VStr name) = Ok self' ∧
    py_eq (Priority.id self') (Priority.id (Priority.Make (VInt 3))) = true.
Proof.
  exact (Priority_round_trip (VInt 3) (Priority.Make (VInt 3)) eq_refl).
Defined.

(** X3.  The same for the status of a test case, with the ids from 1
    to 4. *)
Theorem CaseStatus_round_trip casestatus self :
  CaseStatus.__init__ casestatus = Ok self →
  ∃ name self',
    CaseStatus.name self = Ok name ∧
    (∀ s, casestatus = VStr s → name = s) ∧
    CaseStatus.__init__ (VStr name) = Ok self' ∧
    py_eq (CaseStatus.id self') (CaseStatus.id self) = true.
Proof.
  unfold CaseStatus.__init__, CaseStatus.name, CaseStatus.id.
  fixed_values CaseStatus._casestatuses CaseStatus.Make.
Qed.

Lemma CaseStatus_round_trip_witness :
  ∃ name self',
    CaseStatus.name (CaseStatus.Make (VInt 2)) = Ok name ∧
    (∀ s, VStr "CONFIRMED" = VStr s → name = s) ∧
    CaseStatus.__init__ (VStr name) = Ok self' ∧
    py_eq (CaseStatus.id self') (CaseStatus.id (CaseStatus.Make (VInt 2))) = true.
Proof.
  exact (CaseStatus_round_trip (VStr "CONFIRMED") (CaseStatus.Make (VInt 2))
           eq_refl).
Defined.

(** ** Coloring *)

(** With coloring enabled the text stands between the starting and the
    finishing sequence; what the call raises does not depend on the
    coloring. *)
Lemma color_spec text c background light :
  match color true text c background light with
  | Ok r =>
      (∃ start, r = start +:+ text +:+ ESC +:+ "[1;m") ∧
      color false text c background light = Ok text
  | Raise e => color false text c background light = Raise e
  end.
Proof.
  unfold color.
  destruct (match c with
            | Some c' =>
                if negb (String.eqb c' "") && String.prefix "light" c'
                then (true, Some (from 5 c')) else (light, c)
            | None => (light, c)
            end) as [light' c'].
  unfold mbind, result_bind.
  destruct (match c' with
            | Some (String _ _ as c0) => _
            | _ => Ok ""
            end) as [code|e]; [|done].
  destruct (match background with
            | Some (String _ _ as c0) => _
            | _ => Ok ""
            end) as [code'|e]; [|done].
  split; [|done]. eexists. cbn [String.concat]. reflexivity.
Qed.

Lemma item_as_int {A} (items : list A) v n :
  as_int v = Some n → item items v = item items (VInt n).
Proof. intros Hv. unfold item. by rewrite Hv. Qed.

(** What [Status.__init__] accepts: an id from 1 to 8, or the position
    of a name, from 0 to 8. *)
Lemma Status_ids status self :
  Status.__init__ status = Ok self →
  ∃ n, as_int (Status.id self) = Some n ∧ 0 ≤ n ≤ 8 ∧
       (as_int status = Some n ∨ index Status._statuses status = Ok n).
Proof.
  unfold Status.__init__, Status.id.
  destruct (as_int status) as [n|] eqn:Hv.
  - case_bool_decide as Hn; [done|]. intros [= <-]. exists n.
    split; [done|]. split; [lia|by left].
  - destruct (index Status._statuses status) as [i|e] eqn:Hi; [|by destruct e].
    intros [= <-]. exists i. split; [done|].
    destruct (index_spec _ _ _ Hi) as (H0 & name & Hname & _).
    apply lookup_lt_Some in Hname. cbn in Hname. split; [lia|by right].
Qed.

(** X4.  A case run status made from an id from 1 to 8, or from a name
    other than the padding name at position 0: [shortname] is the name
    cut to its first 4 characters, so that all statuses print with the
    same width; with coloring enabled the 4 characters stand between the
    color sequence and the finishing sequence. *)
Theorem Status_shortname status self :
  Status.__init__ status = Ok self →
  py_eq (Status.id self) (VInt 0) = false →
  ∃ name short start,
    Status._name self = Ok name ∧
    Status.name false self = Ok name ∧
    Status.shortname false self = Ok short ∧
    short = upto 4 name ∧ String.length short = 4%nat ∧
    Status.shortname true self = Ok (start +:+ short +:+ ESC +:+ "[1;m").
Proof.
  intros Hinit Hid. destruct (Status_ids _ _ Hinit) as (n & Hn & Hbounds & _).
  assert (n ≠ 0) as Hn0.
  { intros ->. destruct self as [[|[]| | | |]]; simplify_eq/=. }
  unfold Status.shortname, Status.name, Status._name.
  rewrite !(item_as_int _ _ _ Hn).
  assert (∃ name c,
    item Status._statuses (VInt n) = Ok name ∧
    item Status._colors (VInt n) = Ok (Some c) ∧
    String.length (upto 4 name) = 4%nat ∧
    is_Ok (color true (upto 4 name) (Some c) None false) ∧
    is_Ok (color true name (Some c) None false))
    as (name & c & -> & -> & Hlength & Hshort & Hname).
  { assert (n = 1 ∨ n = 2 ∨ n = 3 ∨ n = 4 ∨ n = 5 ∨ n = 6 ∨ n = 7 ∨ n = 8)
      as Hcases by lia.
    destruct Hcases as [->|[->|[->|[->|[->|[->|[->| ->]]]]]]];
      do 2 eexists; (split; [reflexivity|]); (split; [reflexivity|]);
      by vm_compute. }
  unfold mbind, result_bind.
  pose proof (color_spec (upto 4 name) (Some c) None false) as Hcolor.
  pose proof (color_spec name (Some c) None false) as Hcolor'.
  destruct (color true (upto 4 name) (Some c) None false) as [r|]; [|done].
  destruct (color true name (Some c) None false) as [r'|]; [|done].
  destruct Hcolor as [[start ->] ->]. destruct Hcolor' as [_ ->].
  by exists name, (upto 4 name), start.
Qed.

Lemma Status_shortname_witness :
  ∃ name short start,
    Status._name (Status.Make (VInt 3)) = Ok name ∧
    Status.name false (Status.Make (VInt 3)) = Ok name ∧
    Status.shortname false (Status.Make (VInt 3)) = Ok short ∧
    short = upto 4 name ∧ String.length short = 4%nat ∧
    Status.shortname true (Status.Make (VInt 3))
      = Ok (start +:+ short +:+ ESC +:+ "[1;m").
Proof.
  exact (Status_shortname (VStr "FAILED") (Status.Make (VInt 3))
           eq_refl eq_refl).
Defined.

(** X5.  [color] returns the text as it is when coloring is disabled
    and between the starting and the finishing sequence when it is
    enabled; it raises in the one mode exactly when it does in the
    other, and only a [KeyError], for a color that is not in the table:
    every color of the table is accepted, also with the prefix
    [light]. *)
Theorem color_text text c background light :
  (∀ r, color false text c background light = Ok r → r = text) ∧
  (∀ r, color true text c background light = Ok r →
        ∃ start, r = start +:+ text +:+ ESC +:+ "[1;m") ∧
  (∀ e, color true text c background light = Raise e ↔
        color false text c background light = Raise e) ∧
  (∀ _color e, color _color text c background light = Raise e →
        ∃ name, e = KeyError name) ∧
  (∀ _color name code, color_code colors name = Ok code →
     is_Ok (color _color text (Some name) None light) ∧
     is_Ok (color _color text (Some ("light" +:+ name)) None light)).
Proof.
  pose proof (color_spec text c background light) as Hspec.
  split; [|split; [|split; [|split]]].
  - intros r Hr. destruct (color true _ _ _ _); [destruct Hspec|]; congruence.
  - intros r Hr. rewrite Hr in Hspec. by destruct Hspec.
  - intros e. destruct (color true _ _ _ _) as [r|e'].
    + destruct Hspec as [_ ->]. done.
    + rewrite Hspec. done.
  - assert (∀ name e, color_code colors name = Raise e → e = KeyError name)
      as Hcode.
    { intros name e. unfold colors. cbn [color_code].
      repeat (destruct (String.eqb _ name); [done|]). by intros [= <-]. }
    intros _color e. unfold color.
    destruct (match c with
              | Some c' =>
                  if negb (String.eqb c' "") && String.prefix "light" c'
                  then (true, Some (from 5 c')) else (light, c)
              | None => (light, c)
              end) as [light' c'].
    unfold mbind, result_bind.
    destruct c' as [[|a c']|]; cbn beta iota.
    2: { destruct (color_code colors (String a c')) as [code|e'] eqn:He.
         2: { intros [= <-]. apply Hcode in He. eauto. }
         destruct background as [[|b bg]|]; cbn beta iota.
         2: { destruct (color_code colors (String b bg)) as [code'|e'] eqn:He'.
              - by destruct _color.
              - intros [= <-]. apply Hcode in He'. eauto. }
         all: by destruct _color. }
    all: destruct background as [[|b bg]|]; cbn beta iota;
      try (by destruct _color);
      destruct (color_code colors (String b bg)) as [code'|e'] eqn:He';
      [by destruct _color|intros [= <-]; apply Hcode in He'; eauto].
  - intros _color name code. unfold colors. cbn [color_code].
    repeat match goal with
           | |- context [String.eqb ?k name] =>
               destruct (String.eqb_spec k name) as [<-|_];
               [intros _; destruct _color, light; split; by vm_compute|]
           end.
    done.
Qed.

(** ** Lists for printing *)

(** X6.  [listed]: nothing for no item, the item for one, the two
    items joined by [and] for two, and for more the first item, a
    comma, and the rest listed; every item stands between quotes. *)
Theorem listed_items (x y z : string) (l : list string) (quote : string) :
  let quoted item := quote +:+ item +:+ quote in
  listed [] quote = "" ∧
  listed [x] quote = quoted x ∧
  listed [x; y] quote = quoted x +:+ " and " +:+ quoted y ∧
  listed (x :: y :: z :: l) quote
    = quoted x +:+ ", " +:+ listed (y :: z :: l) quote.
Proof.
  intros quoted. split; [done|]. split; [done|]. split; [done|].
  unfold listed. rewrite !fmap_cons.
  set (l' := (λ item, quote +:+ item +:+ quote) <$> l).
  rewrite !bool_decide_eq_false_2 by (cbn; lia).
  cbn [length Nat.sub take drop app].
  rewrite Nat.sub_0_r.
  by destruct (take (length l') _).
Qed.

(** ** Run status and plan status *)

(** X7.  A run status is made from the id 0 or 1, from a name, or from
    the stop date of the run: no stop date ([None], also as a string) is
    a running run and a stop date (digits, dashes, colons and spaces) is
    a finished one.  The name is one of the two names and leads back to
    the same id. *)
Theorem RunStatus_round_trip status self :
  RunStatus.__init__ status = Ok self →
  ∃ name self',
    RunStatus.name self = Ok name ∧
    (name = "RUNNING" ∨ name = "FINISHED") ∧
    (status = VNone ∨ status = VStr "None" → name = "RUNNING") ∧
    (∀ s, status = VStr s → RunStatus.stop_date s = true → name = "FINISHED") ∧
    RunStatus.__init__ (VStr name) = Ok self' ∧
    py_eq (RunStatus.id self') (RunStatus.id self) = true.
Proof.
  unfold RunStatus.__init__.
  destruct (as_int status) as [n|] eqn:Hv.
  - case_bool_decide as Hn; [|done]. intros [= <-].
    unfold RunStatus.name, RunStatus.id. cbn [RunStatus._id].
    rewrite (item_as_int _ _ _ Hv).
    destruct Hn as [->| ->]; eexists _, _;
      (split; [reflexivity|]);
      (split; [by (left + right)|]);
      (split; [by intros [->| ->]|]);
      (split; [by intros s ->|]);
      (split; [reflexivity|]); by apply (py_eq_as_int _ _ Hv).
  - destruct status as [| | |s| |]; try done.
    + intros [= <-]. eexists _, _. split; [reflexivity|].
      split; [by left|]. split; [done|]. split; [by intros s [=]|].
      split; reflexivity.
    + destruct (String.eqb_spec s "RUNNING") as [->|_].
      { intros [= <-]. eexists _, _. split; [reflexivity|].
        split; [by left|]. split; [done|].
        split; [by intros s [= <-]|]. split; reflexivity. }
      destruct (String.eqb_spec s "None") as [->|Hnone].
      { intros [= <-]. eexists _, _. split; [reflexivity|].
        split; [by left|]. split; [done|].
        split; [by intros s [= <-]|]. split; reflexivity. }
      cbn [orb].
      destruct (String.eqb s "FINISHED" || RunStatus.stop_date s); [|done].
      intros [= <-]. eexists _, _. split; [reflexivity|].
      split; [by right|]. split; [by intros [|[= ->]]|].
      split; [done|]. split; reflexivity.
Qed.

Lemma RunStatus_round_trip_witness :
  ∃ name self',
    RunStatus.name (RunStatus.Make (VInt 1)) = Ok name ∧
    (name = "RUNNING" ∨ name = "FINISHED") ∧
    (VStr "2011-07-27 15:14" = VNone ∨ VStr "2011-07-27 15:14" = VStr "None" →
     name = "RUNNING") ∧
    (∀ s, VStr "2011-07-27 15:14" = VStr s → RunStatus.stop_date s = true →
          name = "FINISHED") ∧
    RunStatus.__init__ (VStr name) = Ok self' ∧
    py_eq (RunStatus.id self') (RunStatus.id (RunStatus.Make (VInt 1))) = true.
Proof.
  exact (RunStatus_round_trip (VStr "2011-07-27 15:14")
           (RunStatus.Make (VInt 1)) eq_refl).
Defined.

(** X8.  A plan status is made from a boolean, from the id 0 or 1, or
    from a name; its truth value tells the name.  With coloring off, the
    name of an enabled plan, which is true, is ENABLED and the name of a
    disabled plan, which is false, is DISABLED, and the name leads back
    to the same id.  With coloring on, [name] is that text between a
    color sequence and the finishing sequence, which [__init__] takes
    for no name. *)
Theorem PlanStatus_truth status self :
  PlanStatus.__init__ status = Ok self →
  ∃ name self' start,
    PlanStatus.name false self = Ok name ∧
    (PlanStatus.__nonzero__ self = true ↔ name = "ENABLED") ∧
    (PlanStatus.__nonzero__ self = false ↔ name = "DISABLED") ∧
    PlanStatus.__init__ (VStr name) = Ok self' ∧
    py_eq (PlanStatus.id self') (PlanStatus.id self) = true ∧
    PlanStatus.name true self = Ok (start +:+ name +:+ ESC +:+ "[1;m") ∧
    PlanStatus.__init__ (VStr (start +:+ name +:+ ESC +:+ "[1;m"))
    = Raise (NitrateError "Invalid plan status").
Proof.
  unfold PlanStatus.__init__ at 1.
  destruct (as_int status) as [n|] eqn:Hv.
  - case_bool_decide as Hn; [|done]. intros [= <-].
    unfold PlanStatus.name, PlanStatus.id, PlanStatus.__nonzero__.
    cbn [PlanStatus._id]. rewrite !(item_as_int _ _ _ Hv).
    assert (py_eq status (VInt 0) = (n =? 0)) as ->.
    { by destruct status as [|[]| | | |]; simplify_eq/=. }
    destruct Hn as [->| ->]; eexists _, _, _;
      (split; [reflexivity|]); (split; [done|]); (split; [done|]);
      (split; [reflexivity|]);
      (split; [by apply (py_eq_as_int _ _ Hv)|]);
      (split; [reflexivity|]); by vm_compute.
  - destruct (index PlanStatus._statuses status) as [i|e] eqn:Hi;
      [|by destruct e].
    intros [= <-].
    destruct (names_round_trip PlanStatus._statuses _ _ ltac:(names_NoDup) Hi)
      as (name & Hitem & Hname & Hindex).
    destruct (index_spec _ _ _ Hi) as (H0 & name' & Hname' & _).
    apply lookup_lt_Some in Hname'. cbn in Hname'.
    unfold PlanStatus.name, PlanStatus.id. cbn [PlanStatus._id].
    assert (i = 0 ∨ i = 1) as [->| ->] by lia;
      vm_compute in Hname; simplify_eq;
      eexists _, _, _;
      (split; [reflexivity|]); (split; [done|]); (split; [done|]);
      (split; [reflexivity|]); (split; [done|]);
      (split; [reflexivity|]); by vm_compute.
Qed.

Lemma PlanStatus_truth_witness :
  ∃ name self' start,
    PlanStatus.name false (PlanStatus.Make (VBool true)) = Ok name ∧
    (PlanStatus.__nonzero__ (PlanStatus.Make (VBool true)) = true
     ↔ name = "ENABLED") ∧
    (PlanStatus.__nonzero__ (PlanStatus.Make (VBool true)) = false
     ↔ name = "DISABLED") ∧
    PlanStatus.__init__ (VStr name) = Ok self' ∧
    py_eq (PlanStatus.id self')
      (PlanStatus.id (PlanStatus.Make (VBool true))) = true ∧
    PlanStatus.name true (PlanStatus.Make (VBool true))
    = Ok (start +:+ name +:+ ESC +:+ "[1;m") ∧
    PlanStatus.__init__ (VStr (start +:+ name +:+ ESC +:+ "[1;m"))
    = Raise (NitrateError "Invalid plan status").
Proof.
  exact (PlanStatus_truth (VBool true) (PlanStatus.Make (VBool true)) eq_refl).
Defined.

(** ** Containers: what add, remove and the first use do *)

Section container_more.
Context {A : Type} `{Countable A} {hooks : Container.Hooks A}.
Implicit Types (self : Container.t A) (w : world) (current : gset A).

(** X9.  Adding items that the container holds already, or removing
    items that it does not hold, does nothing at any caching level: the
    container is not marked as modified and no request is sent. *)
Theorem add_remove_nothing x self w current :
  Container._current self = Loaded current →
  (Container.to_set x ⊆ current → Container.add x self w = (Ok (), self, w)) ∧
  (Container.to_set x ## current →
     Container.remove x self w = (Ok (), self, w)).
Proof.
  intros Hc. split; intros Hx.
  - unfold Container.add.
    unfold mbind at 1, M_bind at 1, bind at 1. rewrite (items_loaded _ _ _ Hc).
    destruct (decide _) as [|Hne]; [done|]. exfalso. apply Hne. set_solver.
  - unfold Container.remove.
    unfold mbind at 1, M_bind at 1, bind at 1. rewrite (items_loaded _ _ _ Hc).
    destruct (decide _) as [|Hne]; [done|]. exfalso. apply Hne. set_solver.
Qed.

(** X10.  While changes are cached, adding a new item and removing it
    again leaves nothing to save: the flush that follows sends no
    request, and the container is as it was when loaded. *)
Theorem add_remove_cancel (x : A) id (items : gset A) w :
  x ∉ items → caching w = true →
  let loaded := Container.Make id false (Loaded items) (Loaded items) in
  (Container.add (Container.Item x);;
   Container.remove (Container.Item x);;
   update) loaded w = (Ok (), loaded, w).
Proof.
  intros Hx Hw loaded. unfold mbind, M_bind, bind.
  erewrite add_buffered by done. destruct (decide _) as [He|_]; [set_solver|].
  erewrite remove_buffered by done. destruct (decide _) as [He|_]; [set_solver|].
  rewrite update_modified by done. cbn [_update Container.mutable].
  unfold Container.__update, Container.as_set. unfold_M.
  cbn [Container._current Container._original Container.set__current
       Container.set__modified Container.to_set loaded].
  assert ((items ∪ {[x]}) ∖ {[x]} = items) as -> by set_solver.
  destruct (decide (items ∖ items = ∅)) as [_|Hne]; [|set_solver].
  done.
Qed.

End container_more.

Lemma add_remove_nothing_witness :
  (Container.to_set (Container.Item "b") ⊆ ({["a"; "b"]} : gset string) →
   Container.add (hooks := Container.PlanTags) (Container.Item "b")
     (loaded 7 {["a"; "b"]}) (start CACHE_NONE unreachable)
   = (Ok (), loaded 7 {["a"; "b"]}, start CACHE_NONE unreachable)) ∧
  (Container.to_set (Container.Item "b") ## ({["a"; "b"]} : gset string) →
   Container.remove (hooks := Container.PlanTags) (Container.Item "b")
     (loaded 7 {["a"; "b"]}) (start CACHE_NONE unreachable)
   = (Ok (), loaded 7 {["a"; "b"]}, start CACHE_NONE unreachable)).
Proof.
  exact (add_remove_nothing (hooks := Container.PlanTags) (Container.Item "b")
           (loaded 7 {["a"; "b"]}) (start CACHE_NONE unreachable)
           {["a"; "b"]} eq_refl).
Defined.

Lemma add_remove_cancel_witness :
  (Container.add (hooks := Container.PlanTags) (Container.Item "c");;
   Container.remove (hooks := Container.PlanTags) (Container.Item "c");;
   update (H := Container.mutable (hooks := Container.PlanTags)))
    (Container.Make 7 false (Loaded {["a"; "b"]}) (Loaded {["a"; "b"]}))
    (start CACHE_OBJECTS unreachable)
  = (Ok (), Container.Make 7 false (Loaded {["a"; "b"]}) (Loaded {["a"; "b"]}),
     start CACHE_OBJECTS unreachable).
Proof.
  apply (add_remove_cancel (hooks := Container.PlanTags) "c" 7 {["a"; "b"]}
           (start CACHE_OBJECTS unreachable)).
  - apply (bool_decide_unpack _). by vm_compute.
  - reflexivity.
Defined.

(** ** Tag containers: the first use and the save without caching *)

Section tags_more.
Variable namespace : string.
Implicit Types (w : world) (names : gset string).

(** The names that [_get] keeps are the names of the tags returned. *)
Lemma tag_names_spec tags names :
  Container.tag_names tags = Ok names →
  ∀ s, s ∈ names ↔ ∃ tag, tag ∈ tags ∧ subscript tag "name" = Ok (VStr s).
Proof.
  revert names. induction tags as [|tag tags IH]; intros names; cbn.
  - intros [= <-] s. split; [set_solver|]. intros (tag & Htag & _).
    by apply elem_of_nil in Htag.
  - destruct (subscript tag "name") as [[| | |name| |]|e] eqn:Htag; try done.
    destruct (Container.tag_names tags) as [rest|e]; [|done].
    intros [= <-] s. rewrite elem_of_union, elem_of_singleton, (IH rest eq_refl).
    split.
    + intros [->|(tag' & Hin & Hname)].
      * exists tag. split; [by left|done].
      * exists tag'. split; [by right|done].
    + intros (tag' & Hin & Hname). apply elem_of_cons in Hin as [->|Hin].
      * left. congruence.
      * right. eauto.
Qed.

(** X11.  The first use of a tag container fetches the tags with one
    request and keeps their names as the current and as the original
    set; membership and length are answered from the names, and no use
    after the first one sends a request. *)
Theorem Tags_fetched_once id w tags names (x : string) :
  answer (Container.get_tags namespace id) w = Ok (VList tags) →
  Container.tag_names tags = Ok names →
  let w1 := request (Container.get_tags namespace id) w in
  Container.__contains__ (hooks := Container.Tags namespace) x
    (Container.__init__ id) w
  = (Ok (bool_decide (x ∈ names)), loaded id names, w1) ∧
  Container.__len__ (hooks := Container.Tags namespace) (Container.__init__ id) w
  = (Ok (size names), loaded id names, w1) ∧
  Container.__contains__ (hooks := Container.Tags namespace) x
    (loaded id names) w1
  = (Ok (bool_decide (x ∈ names)), loaded id names, w1) ∧
  Container.__len__ (hooks := Container.Tags namespace) (loaded id names) w1
  = (Ok (size names), loaded id names, w1) ∧
  (x ∈ names ↔ ∃ tag, tag ∈ tags ∧ subscript tag "name" = Ok (VStr x)).
Proof.
  intros Hanswer Hnames w1.
  assert ((c ← Container._items (hooks := Container.Tags namespace);
           Container.as_set c) (Container.__init__ id) w
          = (Ok names, loaded id names, w1)) as Hfirst.
  { unfold Container._items, Container.as_set, Container.__init__. unfold_M.
    cbn [Container._current is_NitrateNone Container._get Container.Tags].
    unfold Container.Tags__get. unfold_M. cbn [Container._id].
    rewrite Hanswer. cbn [Container.names_of]. by rewrite Hnames. }
  assert ((c ← Container._items (hooks := Container.Tags namespace);
           Container.as_set c) (loaded id names) w1
          = (Ok names, loaded id names, w1)) as Hnext
    by (by apply items_loaded).
  assert (∀ self w0 self' w',
    (c ← Container._items (hooks := Container.Tags namespace);
     Container.as_set c) self w0 = (Ok names, self', w') →
    Container.__contains__ (hooks := Container.Tags namespace) x self w0
    = (Ok (bool_decide (x ∈ names)), self', w') ∧
    Container.__len__ (hooks := Container.Tags namespace) self w0
    = (Ok (size names), self', w')) as Huse.
  { intros self w0 self' w' Hitems.
    split; [unfold Container.__contains__|unfold Container.__len__];
      unfold mbind at 1, M_bind at 1, bind at 1; by rewrite Hitems. }
  destruct (Huse _ _ _ _ Hfirst) as [-> ->].
  destruct (Huse _ _ _ _ Hnext) as [-> ->].
  repeat split; try done; by apply tag_names_spec.
Qed.

(** X12.  Without caching an added tag is saved at once, with one
    request that carries the new tag only.  When the request returns,
    the original set has caught up; when it raises, the error reaches
    the caller and the container keeps the tag that the server has not
    got, without being marked as modified. *)
Theorem add_uncached id names (x : string) w :
  x ∉ names → caching w = false →
  let adding := Container.add_tag namespace id {[x]} in
  Container.add (hooks := Container.Tags namespace) (Container.Item x)
    (loaded id names) w
  = match answer adding w with
    | Ok _ => (Ok (), loaded id (names ∪ {[x]}), request adding w)
    | Raise e =>
        (Raise e,
         Container.Make id false (Loaded (names ∪ {[x]})) (Loaded names),
         request adding w)
    end.
Proof.
  intros Hx Hw adding. unfold Container.add.
  unfold mbind at 1, M_bind at 1, bind at 1.
  rewrite (items_loaded _ _ names) by done.
  destruct (decide _) as [He|_]; [set_solver|].
  unfold mbind at 1, M_bind at 1, bind at 1.
  rewrite (items_loaded _ _ names) by done.
  unfold mbind at 1 2, M_bind at 1 2, bind at 1 2. unfold set_self at 1.
  unfold get_world at 1. rewrite Hw.
  erewrite Tags_update by done. cbn zeta.
  cbn [Container.to_set Container._id Container.set__current loaded
       Container._current Container._original Container._modified].
  assert ((names ∪ {[x]}) ∖ names = {[x]}) as -> by set_solver.
  assert (names ∖ (names ∪ {[x]}) = ∅) as -> by set_solver.
  destruct (decide (({[x]} : gset string) = ∅)) as [He|_]; [set_solver|].
  destruct (decide ((∅ : gset string) = ∅)) as [_|Hne]; [|done].
  fold adding. by destruct (answer adding w).
Qed.

End tags_more.

Lemma Tags_fetched_once_witness :
  let w := start CACHE_OBJECTS
             (λ _ _, Ok (VList [VStruct [("id", VInt 1); ("name", VStr "a")]])) in
  let w1 := request (Container.get_tags "TestPlan" 7) w in
  let names : gset string := {["a"]} ∪ ∅ in
  let tags := [VStruct [("id", VInt 1); ("name", VStr "a")]] in
  Container.__contains__ (hooks := Container.Tags "TestPlan") "a"
    (Container.__init__ 7) w
  = (Ok (bool_decide ("a" ∈ names)), loaded 7 names, w1) ∧
  Container.__len__ (hooks := Container.Tags "TestPlan") (Container.__init__ 7) w
  = (Ok (size names), loaded 7 names, w1) ∧
  Container.__contains__ (hooks := Container.Tags "TestPlan") "a"
    (loaded 7 names) w1
  = (Ok (bool_decide ("a" ∈ names)), loaded 7 names, w1) ∧
  Container.__len__ (hooks := Container.Tags "TestPlan") (loaded 7 names) w1
  = (Ok (size names), loaded 7 names, w1) ∧
  ("a" ∈ names ↔ ∃ tag, tag ∈ tags ∧ subscript tag "name" = Ok (VStr "a")).
Proof.
  exact (Tags_fetched_once "TestPlan" 7
           (start CACHE_OBJECTS
              (λ _ _, Ok (VList [VStruct [("id", VInt 1); ("name", VStr "a")]])))
           [VStruct [("id", VInt 1); ("name", VStr "a")]]
           ({["a"]} ∪ ∅) "a" eq_refl eq_refl).
Defined.

Lemma add_uncached_witness :
  let w := start CACHE_NONE refusing in
  let adding := Container.add_tag "TestPlan" 7 {["c"]} in
  Container.add (hooks := Container.Tags "TestPlan") (Container.Item "c")
    (loaded 7 {["a"; "b"]}) w
  = match answer adding w with
    | Ok _ => (Ok (), loaded 7 ({["a"; "b"]} ∪ {["c"]}), request adding w)
    | Raise e =>
        (Raise e,
         Container.Make 7 false (Loaded ({["a"; "b"]} ∪ {["c"]}))
           (Loaded {["a"; "b"]}),
         request adding w)
    end.
Proof.
  refine (add_uncached "TestPlan" 7 {["a"; "b"]} "c" (start CACHE_NONE refusing)
            _ eq_refl).
  apply (bool_decide_unpack _). by vm_compute.
Defined.

(** ** TestPlans and TestCases: one request per item removed *)

Section links.
Implicit Types (self : Container.t Z) (w : world) (current original : gset Z).



End links.





(** ** Container: the flush of every container class *)



(** ** Build: what a fetch leaves behind when it fails *)

Section build_more.
Context `{Builtins}.
Implicit Types (self : Build.t) (w : world).

(** X15.  A build known by its id, on a server that answers with a hash
    without the key [product_id]: the fetch raises a [NitrateError], but
    the name of the hash has been stored before the product was looked
    up.  The build is half fetched: the name is read without a request
    from then on, and every read of the product fetches again. *)
Theorem Build_fetch_not_atomic self w (i hash name : value) :
  Build._id self = Loaded i →
  Build._name self = NitrateNone →
  Build._product self = NitrateNone →
  answer (Call "Build.get" [i]) w = Ok hash →
  subscript hash "name" = Ok name →
  subscript hash "product_id" = Raise (KeyError "product_id") →
  let half := Build.set__name (Loaded name) self in
  let w1 := request (Call "Build.get" [i]) w in
  Build.name self w = (Raise (NitrateError "Cannot find build"), half, w1) ∧
  Build.name half w1 = (Ok (Loaded name), half, w1) ∧
  let '(_, _, w2) := Build.product half w1 in
  issued w1 w2 = [Call "Build.get" [i]].
Proof.
  intros Hi Hn Hp Hanswer Hname Hproduct half w1.
  assert (Build.__get self w
          = (Raise (NitrateError "Cannot find build"), half, w1)) as Hget.
  { unfold Build.__get. unfold_M. rewrite Hi, Hanswer. cbn.
    by rewrite Hname; cbn; rewrite Hproduct. }
  split; [|split].
  - unfold Build.name, getter. unfold_M. rewrite Hn.
    cbn [is_NitrateNone _get Build.nitrate]. by rewrite Hget.
  - done.
  - subst half. unfold Build.product, getter. unfold_M.
    cbn [Build._product Build.set__name]. rewrite Hp.
    cbn [is_NitrateNone _get Build.nitrate].
    unfold Build.__get. unfold_M. cbn [Build._id Build.set__name]. rewrite Hi.
    case_answer; [|by destruct (is_LookupError e); rewrite issued_request].
    destruct (subscript a "name") as [n|e]; cbn;
      [|by destruct (is_LookupError e); rewrite issued_request].
    destruct (subscript a "product_id") as [p|e]; cbn;
      [|by destruct (is_LookupError e); rewrite issued_request].
    destruct (Product.__init__ p VNone) as [p'|e]; cbn;
      [|by destruct (is_LookupError e); rewrite issued_request].
    by rewrite issued_request.
Qed.

(** X16.  The fetch of a build by its id never raises a [KeyError] or
    an [IndexError]: whatever the server answers, a failed lookup in the
    answer reaches the caller as a [NitrateError]. *)
Theorem Build_get_no_LookupError self w (i : value) :
  Build._id self = Loaded i →
  let '(r, _, w') := Build.__get self w in
  issued w w' = [Call "Build.get" [i]] ∧
  ∀ e, r = Raise e → is_LookupError e = false.
Proof.
  intros Hi. unfold Build.__get. unfold_M. rewrite Hi.
  case_answer.
  2: { destruct (is_LookupError e) eqn:He; rewrite issued_request;
         (split; [done|]); intros e' [= <-]; done. }
  destruct (subscript a "name") as [n|e]; cbn.
  2: { destruct (is_LookupError e) eqn:He; rewrite issued_request;
         (split; [done|]); intros e' [= <-]; done. }
  destruct (subscript a "product_id") as [p|e]; cbn.
  2: { destruct (is_LookupError e) eqn:He; rewrite issued_request;
         (split; [done|]); intros e' [= <-]; done. }
  destruct (Product.__init__ p VNone) as [p'|e]; cbn.
  2: { destruct (is_LookupError e) eqn:He; rewrite issued_request;
         (split; [done|]); intros e' [= <-]; done. }
  rewrite issued_request. by split.
Qed.

End build_more.

Section build_examples.
#[local] Existing Instance example_builtins.

Lemma Build_fetch_not_atomic_witness :
  let self := Build.Make (Loaded (VInt 5)) "ID" NitrateNone NitrateNone in
  let w := start CACHE_OBJECTS
             (λ _ _, Ok (VStruct [("build_id", VInt 5); ("name", VStr "rc1")])) in
  let half := Build.set__name (Loaded (VStr "rc1")) self in
  let w1 := request (Call "Build.get" [VInt 5]) w in
  Build.name self w = (Raise (NitrateError "Cannot find build"), half, w1) ∧
  Build.name half w1 = (Ok (Loaded (VStr "rc1")), half, w1) ∧
  let '(_, _, w2) := Build.product half w1 in
  issued w1 w2 = [Call "Build.get" [VInt 5]].
Proof.
  exact (Build_fetch_not_atomic
           (Build.Make (Loaded (VInt 5)) "ID" NitrateNone NitrateNone)
           (start CACHE_OBJECTS
              (λ _ _, Ok (VStruct [("build_id", VInt 5); ("name", VStr "rc1")])))
           (VInt 5) (VStruct [("build_id", VInt 5); ("name", VStr "rc1")])
           (VStr "rc1") eq_refl eq_refl eq_refl eq_refl eq_refl eq_refl).
Defined.

Lemma Build_get_no_LookupError_witness :
  let self := Build.Make (Loaded (VInt 5)) "ID" NitrateNone NitrateNone in
  let w := start CACHE_OBJECTS database in
  let '(r, _, w') := Build.__get self w in
  issued w w' = [Call "Build.get" [VInt 5]] ∧
  ∀ e, r = Raise e → is_LookupError e = false.
Proof.
  exact (Build_get_no_LookupError
           (Build.Make (Loaded (VInt 5)) "ID" NitrateNone NitrateNone)
           (start CACHE_OBJECTS database) (VInt 5) eq_refl).
Defined.

End build_examples.

(** ** Product and Version: the search by name and a missing record *)

Section product_more.
Context `{Builtins}.
Implicit Types (w : world).

(** X17.  A product made from its name has no id yet.  The first read
    of the id searches the products by name with one request and takes
    the id of the first one found, after which the id is read without a
    request; when the server finds none, the read raises a
    [NitrateError] and the product is as before. *)
Theorem Product_by_name (n : value) w reply :
  n ≠ VNone →
  answer (Product.filter "name" n) w = Ok reply →
  let self := Product_make NitrateNone "ID" (Loaded n) NitrateNone in
  let w1 := request (Product.filter "name" n) w in
  Product.__init__ VNone n = Ok self ∧
  (∀ hash i, first reply = Ok hash → subscript hash "id" = Ok i →
     id self w = (Ok (Loaded i), Product.set__id (Loaded i) self, w1) ∧
     id (Product.set__id (Loaded i) self) w1
     = (Ok (Loaded i), Product.set__id (Loaded i) self, w1)) ∧
  (first reply = Raise IndexError →
     id self w = (Raise (NitrateError "Cannot find product"), self, w1)).
Proof.
  intros Hn Hanswer self w1. subst self. split; [by destruct n|]. split.
  - intros hash i Hfirst Hid. split; [|done].
    unfold id, getter. unfold_M.
    cbn [the_id Product.nitrate Product._id is_NitrateNone _get].
    unfold Product.__get. unfold_M. cbn [Product._id Product._name].
    rewrite Hanswer. cbn. by rewrite Hfirst; cbn; rewrite Hid.
  - intros Hfirst. unfold id, getter. unfold_M.
    cbn [the_id Product.nitrate Product._id is_NitrateNone _get].
    unfold Product.__get. unfold_M. cbn [Product._id Product._name].
    rewrite Hanswer. cbn. by rewrite Hfirst.
Qed.

Implicit Types (self : Version.t).

(** X18.  A version known by its id: the first read of the name, or of
    the product, sends one request, which sets both; after it either is
    read without a request. *)
Theorem Version_fetched_once self w (i hash found name product_id : value)
    (p : Product.t) :
  Version._id self = Loaded i →
  Version._name self = NitrateNone →
  Version._product self = NitrateNone →
  answer (Version.filter_versions [("id", i)]) w = Ok hash →
  first hash = Ok found →
  subscript found "value" = Ok name →
  subscript found "product_id" = Ok product_id →
  Product.__init__ product_id VNone = Ok p →
  let fetched :=
    Version.set__product (Loaded p) (Version.set__name (Loaded name) self) in
  let w1 := request (Version.filter_versions [("id", i)]) w in
  Version.name self w = (Ok (Loaded name), fetched, w1) ∧
  Version.product self w = (Ok (Loaded p), fetched, w1) ∧
  Version.name fetched w1 = (Ok (Loaded name), fetched, w1) ∧
  Version.product fetched w1 = (Ok (Loaded p), fetched, w1).
Proof.
  intros Hi Hn Hp Hanswer Hfirst Hname Hproduct Hinit fetched w1.
  assert (Version.__get self w = (Ok (), fetched, w1)) as Hget.
  { unfold Version.__get. unfold_M. rewrite Hi, Hanswer. cbn.
    rewrite Hfirst. cbn. rewrite Hname. cbn. rewrite Hproduct. cbn.
    by rewrite Hinit. }
  split; [|split; [|done]].
  - unfold Version.name, getter. unfold_M. rewrite Hn.
    cbn [is_NitrateNone _get Version.nitrate]. by rewrite Hget.
  - unfold Version.product, getter. unfold_M. rewrite Hp.
    cbn [is_NitrateNone _get Version.nitrate]. by rewrite Hget.
Qed.

(** X19.  A version that the server does not know: an empty answer is a
    [NitrateError], and the version is as before.  Only the
    [IndexError] is caught: an answer whose first hash has no key
    [value] reaches the caller as the [KeyError]. *)
Theorem Version_not_found self w (i hash : value) :
  Version._id self = Loaded i →
  Version._name self = NitrateNone →
  answer (Version.filter_versions [("id", i)]) w = Ok hash →
  let w1 := request (Version.filter_versions [("id", i)]) w in
  (first hash = Raise IndexError →
     Version.name self w = (Raise (NitrateError "Cannot find version"), self, w1)) ∧
  (∀ found, first hash = Ok found →
     subscript found "value" = Raise (KeyError "value") →
     Version.name self w = (Raise (KeyError "value"), self, w1)).
Proof.
  intros Hi Hn Hanswer w1.
  split; [intros Hfirst|intros found Hfirst Hvalue];
    unfold Version.name, getter; unfold_M; rewrite Hn;
    cbn [is_NitrateNone _get Version.nitrate];
    unfold Version.__get; unfold_M; rewrite Hi, Hanswer; cbn;
    rewrite Hfirst; cbn; [done|by rewrite Hvalue].
Qed.

End product_more.

Section product_examples.
#[local] Existing Instance example_builtins.

Lemma Product_by_name_witness :
  let n := VStr "Nitrate" in
  let w := start CACHE_OBJECTS database in
  let reply := VList [VStruct [("id", VInt 9); ("name", VStr "Nitrate")]] in
  let self := Product_make NitrateNone "ID" (Loaded n) NitrateNone in
  let w1 := request (Product.filter "name" n) w in
  Product.__init__ VNone n = Ok self ∧
  (∀ hash i, first reply = Ok hash → subscript hash "id" = Ok i →
     id self w = (Ok (Loaded i), Product.set__id (Loaded i) self, w1) ∧
     id (Product.set__id (Loaded i) self) w1
     = (Ok (Loaded i), Product.set__id (Loaded i) self, w1)) ∧
  (first reply = Raise IndexError →
     id self w = (Raise (NitrateError "Cannot find product"), self, w1)).
Proof.
  refine (Product_by_name (VStr "Nitrate") (start CACHE_OBJECTS database)
            (VList [VStruct [("id", VInt 9); ("name", VStr "Nitrate")]])
            _ eq_refl).
  discriminate.
Defined.

Lemma Version_fetched_once_witness :
  let found := VStruct [("id", VInt 3); ("value", VStr "1.0");
                        ("product_id", VInt 9)] in
  let self := Version_make (Loaded (VInt 3)) "ID" NitrateNone NitrateNone in
  let w := start CACHE_OBJECTS (λ _ _, Ok (VList [found])) in
  let p := Product_make (Loaded (VInt 9)) "ID" NitrateNone NitrateNone in
  let fetched :=
    Version.set__product (Loaded p)
      (Version.set__name (Loaded (VStr "1.0")) self) in
  let w1 := request (Version.filter_versions [("id", VInt 3)]) w in
  Version.name self w = (Ok (Loaded (VStr "1.0")), fetched, w1) ∧
  Version.product self w = (Ok (Loaded p), fetched, w1) ∧
  Version.name fetched w1 = (Ok (Loaded (VStr "1.0")), fetched, w1) ∧
  Version.product fetched w1 = (Ok (Loaded p), fetched, w1).
Proof.
  exact (Version_fetched_once
           (Version_make (Loaded (VInt 3)) "ID" NitrateNone NitrateNone)
           (start CACHE_OBJECTS
              (λ _ _, Ok (VList [VStruct [("id", VInt 3); ("value", VStr "1.0");
                                          ("product_id", VInt 9)]])))
           (VInt 3)
           (VList [VStruct [("id", VInt 3); ("value", VStr "1.0");
                            ("product_id", VInt 9)]])
           (VStruct [("id", VInt 3); ("value", VStr "1.0");
                     ("product_id", VInt 9)])
           (VStr "1.0") (VInt 9)
           (Product_make (Loaded (VInt 9)) "ID" NitrateNone NitrateNone)
           eq_refl eq_refl eq_refl eq_refl eq_refl eq_refl eq_refl eq_refl).
Defined.

Lemma Version_not_found_witness :
  let self := Version_make (Loaded (VInt 3)) "ID" NitrateNone NitrateNone in
  let w := start CACHE_OBJECTS (λ _ _, Ok (VList [])) in
  let w1 := request (Version.filter_versions [("id", VInt 3)]) w in
  (first (VList []) = Raise IndexError →
     Version.name self w = (Raise (NitrateError "Cannot find version"), self, w1)) ∧
  (∀ found, first (VList []) = Ok found →
     subscript found "value" = Raise (KeyError "value") →
     Version.name self w = (Raise (KeyError "value"), self, w1)).
Proof.
  exact (Version_not_found
           (Version_make (Loaded (VInt 3)) "ID" NitrateNone NitrateNone)
           (start CACHE_OBJECTS (λ _ _, Ok (VList []))) (VInt 3) (VList [])
           eq_refl eq_refl eq_refl).
Defined.

End product_examples.

(** ** User: the cache by id, and users made from a login or an email *)

Section user_more.
Context `{Builtins}.
Implicit Types (st : User.t) (w : world) (o : User.object) (n : Z).

(** What [__init__] makes of an instance that has not been initialized,
    when only an integer id is given. *)
Lemma User_init_by_id o w n :
  User.initialized o = false →
  User.__init__ (VInt n) VNone VNone None o w
  = (Ok (), User.identity_only (Loaded (VInt n)), w).
Proof. intros Ho. unfold User.__init__. unfold_M. by rewrite Ho. Qed.

(** No fetch of all users: the level is not ALL, or the cache holds a
    user already. *)
Lemma User_new_quiet nested st w n :
  CACHE_OBJECTS ≤ _cache w →
  _cache w ≠ CACHE_ALL ∨ User._users st ≠ ∅ →
  User.__new__ nested (VInt n) VNone VNone None st w
  = match User._users st !! Some (inl n) with
    | Some cached => (Ok cached, st, w)
    | None =>
        (Ok (length (User.heap st)),
         User.Make (User.heap st ++ [User.blank])
           (<[Some (inl n) := length (User.heap st)]> (User._users st)), w)
    end.
Proof.
  intros Hlevel Hquiet. unfold User.__new__. cbn [User._parse]. unfold_M.
  destruct Hquiet as [Hne|Hne].
  - apply Z.eqb_neq in Hne. rewrite Hne, andb_false_r. cbn [andb].
    rewrite bool_decide_eq_true_2 by done. cbn [to_key].
    by destruct (User._users st !! Some (inl n)).
  - rewrite (bool_decide_eq_false_2 (User._users st = ∅)) by done.
    rewrite andb_false_r.
    rewrite bool_decide_eq_true_2 by done. cbn [to_key].
    by destruct (User._users st !! Some (inl n)).
Qed.

(** X20.  While objects are cached and the fetch of all users is not
    due, [User(n)] twice is the same instance: the second construction
    returns the reference of the first, sends no request and leaves
    every instance as it is. *)
Theorem User_shared st w n :
  CACHE_OBJECTS ≤ _cache w →
  _cache w ≠ CACHE_ALL ∨ User._users st ≠ ∅ →
  User_wf st →
  let '(r1, st1, w1) := User.User (VInt n) VNone VNone None st w in
  ∃ a, r1 = Ok a ∧ w1 = w ∧ User_wf st1 ∧
       User.User (VInt n) VNone VNone None st1 w1 = (Ok a, st1, w1).
Proof.
  intros Hlevel Hquiet Hwf.
  assert (∀ st' a o,
    _cache w ≠ CACHE_ALL ∨ User._users st' ≠ ∅ →
    User._users st' !! Some (inl n) = Some a →
    User.heap st' !! a = Some o → User.initialized o = true →
    User.User (VInt n) VNone VNone None st' w = (Ok a, st', w)) as Hcached.
  { intros st' a o Hquiet' Ha Ho Hinit. unfold User.User, User.construct.
    unfold mbind at 1, M_bind at 1, bind at 1.
    rewrite User_new_quiet, Ha by done. unfold_M.
    unfold User.on, at_. rewrite Ho. unfold User.__init__. unfold_M.
    rewrite Hinit. rewrite list_insert_id by done. by destruct st'. }
  unfold User.User at 1, User.construct.
  unfold mbind at 1, M_bind at 1, bind at 1.
  rewrite User_new_quiet by done.
  destruct (User._users st !! Some (inl n)) as [a|] eqn:Ha.
  - destruct (lookup_lt_is_Some_2 (User.heap st) a (Hwf _ _ Ha)) as [o Ho].
    destruct (User.initialized o) eqn:Hinit.
    + unfold_M. unfold User.on, at_. rewrite Ho. unfold User.__init__.
      unfold_M. rewrite Hinit. rewrite list_insert_id by done.
      exists a. split; [done|]. split; [done|].
      destruct st as [heap users]. split; [done|]. by eapply Hcached.
    + unfold_M. unfold User.on, at_. rewrite Ho.
      rewrite User_init_by_id by done. exists a. split; [done|]. split; [done|]. split.
      * intros k b Hb. cbn in *. rewrite length_insert. eauto.
      * eapply Hcached; cbn.
        -- destruct Hquiet as [|Hne]; [by left|right].
           intros He. by rewrite He in Ha.
        -- done.
        -- apply list_lookup_insert_eq. by eapply lookup_lt_Some.
        -- done.
  - unfold_M. rewrite on_new, User_init_by_id by done.
    exists (length (User.heap st)). split; [done|]. split; [done|]. split.
    + intros k b. cbn. rewrite length_app. cbn.
      destruct (decide (k = Some (inl n))) as [->|Hne].
      * rewrite lookup_insert_eq. intros [= <-]. lia.
      * rewrite lookup_insert_ne by done. intros Hb. specialize (Hwf _ _ Hb). lia.
    + eapply Hcached; cbn.
      * right. apply insert_non_empty.
      * apply lookup_insert_eq.
      * by rewrite lookup_app_r, Nat.sub_diag.
      * done.
Qed.

(** X21.  A user made from a login or from an email address has no id
    yet and has nothing to do with the cache, which is by id: when the
    fetch of all users is not due, the construction returns a new
    instance that knows the login, or the email address when the string
    holds an [@], and the cache is as before; no request is sent. *)
Theorem User_from_string st w (s : string) :
  _cache w ≠ CACHE_ALL ∨ User._users st ≠ ∅ →
  let o :=
    if User.has_at s
    then User.Object (Some NitrateNone) (Some "UID") (Some NitrateNone)
           (Some (Loaded (VStr s))) (Some NitrateNone)
    else User.Object (Some NitrateNone) (Some "UID") (Some (Loaded (VStr s)))
           (Some NitrateNone) (Some NitrateNone) in
  User.User (VStr s) VNone VNone None st w
  = (Ok (length (User.heap st)),
     User.Make (User.heap st ++ [o]) (User._users st), w).
Proof.
  intros Hquiet o. unfold User.User, User.construct, User.__new__.
  assert (∃ login email,
    User._parse (VStr s) VNone VNone = (VNone, login, email)) as
    (login & email & Hparse).
  { cbn. destruct (User.has_at s); by eexists _, _. }
  rewrite Hparse. unfold_M.
  assert (∀ b, b && (_cache w =? CACHE_ALL) && bool_decide (User._users st = ∅)
               = false) as Hfalse.
  { intros b. destruct Hquiet as [Hne|Hne].
    - apply Z.eqb_neq in Hne. by rewrite Hne, andb_false_r.
    - rewrite (bool_decide_eq_false_2 (User._users st = ∅)) by done.
      by rewrite andb_false_r. }
  rewrite Hfalse. unfold User.new at 1. rewrite on_new.
  unfold User.__init__. unfold_M. cbn. subst o.
  by destruct (User.has_at s).
Qed.

(** X22.  A user known by its login: the first read of the id searches
    the users by login with one request.  When the server finds none,
    the read raises a [NitrateError] and the user is as before; when it
    finds one and the read returns, the id is the one of the first hash
    found and the user holds all its data. *)
Theorem User_by_login o (login : value) w reply :
  User._id o = Some NitrateNone →
  User._login o = Some (Loaded login) →
  answer (User.filter [("username", login)]) w = Ok reply →
  let w1 := request (User.filter [("username", login)]) w in
  (first reply = Raise IndexError →
     User.id o w = (Raise (NitrateError "No user found for login"), o, w1)) ∧
  (∀ hash, first reply = Ok hash →
     let '(r, o', w') := User.id o w in
     w' = w1 ∧
     ∀ i, r = Ok i →
       ∃ v, i = Loaded v ∧ subscript hash "id" = Ok v ∧
            User.materialized o' = true).
Proof.
  intros Hid Hlogin Hanswer w1. split.
  - intros Hfirst. unfold User.id, User.__get, attribute. unfold_M.
    rewrite Hid. cbn [is_NitrateNone]. rewrite Hid, Hlogin, Hanswer.
    by rewrite Hfirst.
  - intros hash Hfirst. unfold User.id, User.__get, attribute. unfold_M.
    rewrite Hid. cbn [is_NitrateNone]. rewrite Hid, Hlogin, Hanswer, Hfirst.
    fold w1. destruct (save_spec hash o) as (r & o' & -> & Hsave).
    destruct r as [[]|e]; [|done].
    destruct (Hsave eq_refl) as (v & l & m & n & Hv & ->).
    cbn. split; [done|]. intros i [= <-]. by exists v.
Qed.

End user_more.

Section user_examples.
#[local] Existing Instance example_builtins.

Lemma User_shared_witness :
  let w := start CACHE_OBJECTS unreachable in
  let '(r1, st1, w1) := User.User (VInt 5) VNone VNone None User.empty w in
  ∃ a, r1 = Ok a ∧ w1 = w ∧ User_wf st1 ∧
       User.User (VInt 5) VNone VNone None st1 w1 = (Ok a, st1, w1).
Proof.
  refine (User_shared User.empty (start CACHE_OBJECTS unreachable) 5 _ _ _).
  - vm_compute. discriminate.
  - left. vm_compute. discriminate.
  - intros k a Ha. vm_compute in Ha. discriminate Ha.
Defined.

Lemma User_from_string_witness :
  let o :=
    if User.has_at "ann"
    then User.Object (Some NitrateNone) (Some "UID") (Some NitrateNone)
           (Some (Loaded (VStr "ann"))) (Some NitrateNone)
    else User.Object (Some NitrateNone) (Some "UID")
           (Some (Loaded (VStr "ann"))) (Some NitrateNone) (Some NitrateNone) in
  User.User (VStr "ann") VNone VNone None User.empty
    (start CACHE_OBJECTS unreachable)
  = (Ok (length (User.heap User.empty)),
     User.Make (User.heap User.empty ++ [o]) (User._users User.empty),
     start CACHE_OBJECTS unreachable).
Proof.
  refine (User_from_string User.empty (start CACHE_OBJECTS unreachable) "ann" _).
  left. vm_compute. discriminate.
Defined.

Lemma User_by_login_witness :
  let o := User.Object (Some NitrateNone) (Some "UID")
             (Some (Loaded (VStr "ann"))) (Some NitrateNone) (Some NitrateNone) in
  let w := start CACHE_OBJECTS database in
  let reply := VList [user_hash 5 "ann"; user_hash 6 "bob"] in
  let w1 := request (User.filter [("username", VStr "ann")]) w in
  (first reply = Raise IndexError →
     User.id o w = (Raise (NitrateError "No user found for login"), o, w1)) ∧
  (∀ hash, first reply = Ok hash →
     let '(r, o', w') := User.id o w in
     w' = w1 ∧
     ∀ i, r = Ok i →
       ∃ v, i = Loaded v ∧ subscript hash "id" = Ok v ∧
            User.materialized o' = true).
Proof.
  exact (User_by_login
           (User.Object (Some NitrateNone) (Some "UID")
              (Some (Loaded (VStr "ann"))) (Some NitrateNone) (Some NitrateNone))
           (VStr "ann") (start CACHE_OBJECTS database)
           (VList [user_hash 5 "ann"; user_hash 6 "bob"])
           eq_refl eq_refl eq_refl).
Defined.

End user_examples.

(** ** Category: the cache is keyed by the id as it was given *)

Section category_more.
Context `{Builtins}.
Implicit Types (st : Category.t) (w : world) (n : Z).

Lemma on_blank_string st w (s : string) n :
  int_of_str s = Some n →
  Category.on (length (Category.heap st))
    (Category.__init__ (VStr s) Build.NoProduct VNone)
    (Category.Make (Category.heap st ++ [Category.blank])
       (Category._categories st)) w
  = (Ok (),
     Category.Make
       (Category.heap st ++ [Category.identity_only (Loaded (VInt n))])
       (Category._categories st), w).
Proof.
  intros Hs. unfold Category.on, at_. cbn [Category.heap Category._categories].
  rewrite lookup_app_r, Nat.sub_diag by done. cbn [lookup list_lookup].
  unfold Category.__init__. unfold_M. cbn. rewrite Hs. cbn.
  by rewrite insert_app_r_alt, Nat.sub_diag.
Qed.

(** X23.  The cache of categories is keyed by the id as it was given,
    and [Nitrate.__init__] turns a string of digits into the integer:
    [Category(5)] and [Category("5")] are two instances with the same
    id, both in the cache, under two keys. *)
Theorem Category_key_as_given st w n (s : string) :
  CACHE_OBJECTS ≤ _cache w →
  int_of_str s = Some n →
  Category._categories st !! Some (inl n) = None →
  Category._categories st !! Some (inr s) = None →
  let a := length (Category.heap st) in
  let b := S (length (Category.heap st)) in
  let '(r1, st1, w1) := Category.Category (VInt n) Build.NoProduct VNone st w in
  let '(r2, st2, w2) := Category.Category (VStr s) Build.NoProduct VNone st1 w1 in
  r1 = Ok a ∧ r2 = Ok b ∧ w2 = w ∧
  Category.heap st2 !! a = Some (Category.identity_only (Loaded (VInt n))) ∧
  Category.heap st2 !! b = Some (Category.identity_only (Loaded (VInt n))) ∧
  Category._categories st2 !! Some (inl n) = Some a ∧
  Category._categories st2 !! Some (inr s) = Some b.
Proof.
  intros Hlevel Hs Hn Hkey a b.
  unfold Category.Category, Category.__new__, Category.new, Category.cache.
  unfold_M. rewrite bool_decide_eq_true_2 by done. cbn [to_key]. rewrite Hn.
  cbn [Category.heap Category._categories].
  pose proof (on_blank
    (Category.Make (Category.heap st)
       (<[Some (inl n) := length (Category.heap st)]> (Category._categories st)))
    w n) as Hinit.
  cbn [Category.heap Category._categories] in Hinit. rewrite Hinit.
  rewrite bool_decide_eq_true_2 by done.
  cbn beta. cbn [Category._categories Category.heap].
  rewrite lookup_insert_ne by done. rewrite Hkey.
  cbn [Category._categories Category.heap].
  pose proof (on_blank_string
    (Category.Make
       (Category.heap st ++ [Category.identity_only (Loaded (VInt n))])
       (<[Some (inr s) :=
            length (Category.heap st
                    ++ [Category.identity_only (Loaded (VInt n))])]>
          (<[Some (inl n) := length (Category.heap st)]>
             (Category._categories st))))
    w s n Hs) as Hinit'.
  cbn [Category.heap Category._categories] in Hinit'. rewrite Hinit'.
  cbn [Category._categories Category.heap].
  assert (length (Category.heap st ++ [Category.identity_only (Loaded (VInt n))])
          = b) as Hb by (rewrite length_app; cbn; lia).
  rewrite Hb. split; [done|]. split; [done|]. split; [done|]. split.
  { rewrite lookup_app_l by (rewrite length_app; cbn; lia).
    by rewrite lookup_app_r, Nat.sub_diag. }
  split.
  { rewrite lookup_app_r by lia. rewrite Hb, Nat.sub_diag. done. }
  split.
  - rewrite lookup_insert_ne by done. apply lookup_insert_eq.
  - apply lookup_insert_eq.
Qed.

End category_more.

Section category_examples.
#[local] Existing Instance example_builtins.

Lemma Category_key_as_given_witness :
  let w := start CACHE_OBJECTS unreachable in
  let st := Category.empty in
  let a := length (Category.heap st) in
  let b := S (length (Category.heap st)) in
  let '(r1, st1, w1) := Category.Category (VInt 5) Build.NoProduct VNone st w in
  let '(r2, st2, w2) :=
    Category.Category (VStr "5") Build.NoProduct VNone st1 w1 in
  r1 = Ok a ∧ r2 = Ok b ∧ w2 = w ∧
  Category.heap st2 !! a = Some (Category.identity_only (Loaded (VInt 5))) ∧
  Category.heap st2 !! b = Some (Category.identity_only (Loaded (VInt 5))) ∧
  Category._categories st2 !! Some (inl 5) = Some a ∧
  Category._categories st2 !! Some (inr "5") = Some b.
Proof.
  refine (Category_key_as_given Category.empty
            (start CACHE_OBJECTS unreachable) 5 "5" _ eq_refl eq_refl eq_refl).
  vm_compute. discriminate.
Defined.

Lemma Category_shared_witness :
  let w := start CACHE_OBJECTS unreachable in
  let '(r1, st1, w1) :=
    Category.Category (VInt 5) Build.NoProduct VNone Category.empty w in
  ∃ a, r1 = Ok a ∧ w1 = w ∧ Category.wf st1 ∧
       Category.Category (VInt 5) Build.NoProduct VNone st1 w1 = (Ok a, st1, w1).
Proof.
  refine (Category_shared Category.empty (start CACHE_OBJECTS unreachable) 5 _ _).
  - vm_compute. discriminate.
  - intros k a Ha. vm_compute in Ha. discriminate Ha.
Defined.

Lemma Category_fresh_witness :
  Category.Category (VInt 5) Build.NoProduct VNone Category.empty
    (start CACHE_CHANGES unreachable)
  = (Ok (length (Category.heap Category.empty)),
     Category.Make
       (Category.heap Category.empty
        ++ [Category.identity_only (Loaded (VInt 5))])
       (Category._categories Category.empty),
     start CACHE_CHANGES unreachable).
Proof.
  refine (Category_fresh Category.empty (start CACHE_CHANGES unreachable) 5 _).
  reflexivity.
Defined.

End category_examples.

(** ** The default setter: a save that fails, and the caching level *)

Section setter_more.
Variables get upd : M Entity.t unit.
Implicit Types (self : Entity.t) (w : world) (name : string).

(** X24.  Without caching, a write whose immediate save raises: the
    error reaches the caller, but the new value has been stored before
    the save and stays, and the instance is not marked as modified, so
    that a later [update] finds nothing to save and sends nothing. *)
Theorem setter_failed_save name (stored new : value) self w e w' :
  Entity.getattr name self = Loaded stored →
  py_eq stored new = false →
  caching w = false →
  Entity._modified self = false →
  let written := Entity.setattr name (Loaded new) self in
  upd written w = (Raise e, written, w') →
  Entity.write get upd name new self w = (Raise e, written, w') ∧
  Entity.getattr name written = Loaded new ∧
  update (H := Entity.mutable upd) written w' = (Ok (), written, w').
Proof.
  intros Hstored Hne Hw Hm written Hupd. split; [|split].
  - rewrite (write_loaded _ _ _ _ _ _ _ Hstored), Hne, Hw. fold written.
    by rewrite Hupd.
  - apply getattr_setattr.
  - by apply update_unmodified.
Qed.

(** X25.  The caching level decides what a write to an attribute that
    holds a plain value does: after [setCacheLevel(level)] has accepted
    a level, a write of a different value saves at once at the level 0
    and only marks the instance as modified at the levels 1, 2 and 3; a
    level that is not one of the four is refused and the level
    stays. *)
Theorem write_after_setCacheLevel level name (stored new : value) self w :
  Entity.getattr name self = Loaded stored →
  py_eq stored new = false →
  let written := Entity.setattr name (Loaded new) self in
  let '(r, w0) := setCacheLevel level w in
  (0 ≤ level ≤ 3 →
     r = Ok () ∧ sent w0 = sent w ∧
     Entity.write get upd name new self w0
     = if bool_decide (level = 0) then upd written w0
       else (Ok (), Entity.set__modified true written, w0)) ∧
  (¬ 0 ≤ level ≤ 3 → is_Ok r = false ∧ w0 = w).
Proof.
  intros Hstored Hne written. unfold setCacheLevel.
  case_bool_decide as Hlevel.
  - split; [|done]. intros _. split; [done|]. split; [done|].
    rewrite (write_loaded _ _ _ _ _ _ _ Hstored), Hne.
    unfold caching. cbn [_cache].
    case_bool_decide as H0.
    + subst level. done.
    + apply Z.eqb_neq in H0. by rewrite H0.
  - split; [done|]. by intros _.
Qed.

End setter_more.

Lemma setter_failed_save_witness :
  let w := start CACHE_NONE refusing in
  let written := Entity.setattr "notes" (Loaded (VStr "new")) noted in
  Entity.write Nitrate__get Mutable__update "notes" (VStr "new") noted w
  = (Raise (NitrateError "Data update not implemented"), written, w) ∧
  Entity.getattr "notes" written = Loaded (VStr "new") ∧
  update (H := Entity.mutable Mutable__update) written w = (Ok (), written, w).
Proof.
  exact (setter_failed_save Nitrate__get Mutable__update "notes" (VStr "old")
           (VStr "new") noted (start CACHE_NONE refusing)
           (NitrateError "Data update not implemented")
           (start CACHE_NONE refusing) eq_refl eq_refl eq_refl eq_refl eq_refl).
Defined.

Lemma write_after_setCacheLevel_witness :
  let w := start CACHE_OBJECTS accepting in
  let written := Entity.setattr "notes" (Loaded (VStr "new")) noted in
  let '(r, w0) := setCacheLevel CACHE_NONE w in
  (0 ≤ CACHE_NONE ≤ 3 →
     r = Ok () ∧ sent w0 = sent w ∧
     Entity.write Nitrate__get Mutable__update "notes" (VStr "new") noted w0
     = if bool_decide (CACHE_NONE = 0) then Mutable__update written w0
       else (Ok (), Entity.set__modified true written, w0)) ∧
  (¬ 0 ≤ CACHE_NONE ≤ 3 → is_Ok r = false ∧ w0 = w).
Proof.
  exact (write_after_setCacheLevel Nitrate__get Mutable__update CACHE_NONE
           "notes" (VStr "old") (VStr "new") noted
           (start CACHE_OBJECTS accepting) eq_refl eq_refl).
Defined.

(** An attribute that the fetch sets. *)
Lemma setter_fetches_first_witness :
  let fetch : M Entity.t unit :=
    set_self (Entity.setattr "notes" (Loaded (VStr "old"))) in
  let self := Entity.Make (Loaded (VInt 5)) "CR" false ∅ in
  let w := start CACHE_OBJECTS accepting in
  Entity.write fetch Mutable__update "notes" (VStr "new") self w
  = Entity.write fetch Mutable__update "notes" (VStr "new")
      (Entity.setattr "notes" (Loaded (VStr "old")) self) w.
Proof.
  exact (setter_fetches_first
           (set_self (Entity.setattr "notes" (Loaded (VStr "old"))))
           Mutable__update "notes" (VStr "old") (VStr "new")
           (Entity.Make (Loaded (VInt 5)) "CR" false ∅)
           (start CACHE_OBJECTS accepting)
           (Entity.setattr "notes" (Loaded (VStr "old"))
              (Entity.Make (Loaded (VInt 5)) "CR" false ∅))
           (start CACHE_OBJECTS accepting) eq_refl eq_refl eq_refl).
Defined.

(** ** Membership after a change *)

Section membership.
Context {A : Type} `{Countable A} {hooks : Container.Hooks A}.

(** X27.  On a loaded container, while changes are cached, an item is
    in the container right after it was added and is not right after it
    was removed, before any flush; neither the change nor asking sends
    a request. *)
Theorem membership_after_change (x : A) (self : Container.t A) w current :
  Container._current self = Loaded current → caching w = true →
  (let '(_, self', w') := Container.add (Container.Item x) self w in
   w' = w ∧ Container.__contains__ x self' w' = (Ok true, self', w')) ∧
  (let '(_, self', w') := Container.remove (Container.Item x) self w in
   w' = w ∧ Container.__contains__ x self' w' = (Ok false, self', w')).
Proof.
  intros Hc Hw.
  pose proof (contains_after_add x self w current Hc Hw) as Hadd.
  pose proof (contains_after_remove x self w current Hc Hw) as Hremove.
  rewrite (add_buffered _ _ _ _ Hc Hw) in *.
  rewrite (remove_buffered _ _ _ _ Hc Hw) in *.
  done.
Qed.

End membership.

Lemma membership_after_change_witness :
  let self := loaded 7 {["a"; "b"]} in
  let w := start CACHE_OBJECTS unreachable in
  (let '(_, self', w') :=
     Container.add (hooks := Container.PlanTags) (Container.Item "c") self w in
   w' = w ∧
   Container.__contains__ (hooks := Container.PlanTags) "c" self' w'
   = (Ok true, self', w')) ∧
  (let '(_, self', w') :=
     Container.remove (hooks := Container.PlanTags) (Container.Item "c") self w in
   w' = w ∧
   Container.__contains__ (hooks := Container.PlanTags) "c" self' w'
   = (Ok false, self', w')).
Proof.
  exact (membership_after_change (hooks := Container.PlanTags) "c"
           (loaded 7 {["a"; "b"]}) (start CACHE_OBJECTS unreachable)
           {["a"; "b"]} eq_refl eq_refl).
Defined.

(** ** Category: the fetch by id *)

Section category_fetch.
Context `{Builtins}.
Implicit Types (w : world).

(** X30.  A category known by its id only: the first read of the name
    sends one [Product.get_category] request, which sets the name and
    the product of the category, and the name is read without a request
    from then on.  An answer without the key [name] is a
    [NitrateError], and the category is as before. *)
Theorem Category_fetched_once (i hash : value) w :
  answer (Call "Product.get_category" [i]) w = Ok hash →
  let self := Category.identity_only (Loaded i) in
  let w1 := request (Call "Product.get_category" [i]) w in
  (∀ name product_id p,
     subscript hash "name" = Ok name →
     subscript hash "product_id" = Ok product_id →
     Product.__init__ product_id VNone = Ok p →
     let fetched :=
       Category.set__product (Loaded p)
         (Category.set__name (Loaded name) self) in
     Category.name self w = (Ok (Loaded name), fetched, w1) ∧
     Category.name fetched w1 = (Ok (Loaded name), fetched, w1)) ∧
  (subscript hash "name" = Raise (KeyError "name") →
     Category.name self w
     = (Raise (NitrateError "Cannot find category"), self, w1)).
Proof.
  intros Hanswer self w1. subst self. split.
  - intros name product_id p Hname Hproduct Hinit fetched. split; [|done].
    unfold Category.name, getter, attribute. unfold_M.
    cbn [Category._name Category.identity_only is_NitrateNone _get
         Category.nitrate].
    unfold Category.__get, attribute. unfold_M.
    cbn [Category._id Category.identity_only]. rewrite Hanswer. cbn.
    rewrite Hname. cbn. rewrite Hproduct. cbn. by rewrite Hinit.
  - intros Hname.
    unfold Category.name, getter, attribute. unfold_M.
    cbn [Category._name Category.identity_only is_NitrateNone _get
         Category.nitrate].
    unfold Category.__get, attribute. unfold_M.
    cbn [Category._id Category.identity_only]. rewrite Hanswer. cbn.
    by rewrite Hname.
Qed.

End category_fetch.

Section category_fetch_example.
#[local] Existing Instance example_builtins.

Lemma Category_fetched_once_witness :
  let hash := VStruct [("id", VInt 1); ("name", VStr "Sanity");
                       ("product_id", VInt 9)] in
  let w := start CACHE_OBJECTS database in
  let self := Category.identity_only (Loaded (VInt 1)) in
  let w1 := request (Call "Product.get_category" [VInt 1]) w in
  (∀ name product_id p,
     subscript hash "name" = Ok name →
     subscript hash "product_id" = Ok product_id →
     Product.__init__ product_id VNone = Ok p →
     let fetched :=
       Category.set__product (Loaded p)
         (Category.set__name (Loaded name) self) in
     Category.name self w = (Ok (Loaded name), fetched, w1) ∧
     Category.name fetched w1 = (Ok (Loaded name), fetched, w1)) ∧
  (subscript hash "name" = Raise (KeyError "name") →
     Category.name self w
     = (Raise (NitrateError "Cannot find category"), self, w1)).
Proof.
  exact (Category_fetched_once (VInt 1)
           (VStruct [("id", VInt 1); ("name", VStr "Sanity");
                     ("product_id", VInt 9)])
           (start CACHE_OBJECTS database) eq_refl).
Defined.

End category_fetch_example.
